(** * HospitalDatbase: the Flask backend [backend/app.py]

    A shallow embedding of the request handlers of [backend/app.py] and of
    the relational store they talk to, followed by the properties of the
    handlers.

    Layout:
    - Python values, [int()], [str()] of dates, [float()] of decimals;
    - the store: tables, connections, statements and their execution;
    - the handler monad (state of the world + raised exceptions);
    - the handlers, one definition per Flask route, in source order;
    - the notions the statements are written with;
    - lemmas and theorems: the list endpoints, the writes, the login, the
      row mappers, connections; then every handler at once, the
      successful writes, the invariants of the store and the round
      trips; then runs on a sample database.

    Scope of the model:
    - a handler receives what [request.get_json()] or [request.args]
      hands it; decoding the HTTP request is Flask's;
    - texts are ASCII strings;
    - the store is reachable: [get_conn()] returns a connection, and a
      statement raises only when its parameters do not fit it (a value
      that cannot be bound or converted, a wrong number of parameters)
      or the identity counter is used up;
    - requests are handled one at a time;
    - an integer the driver binds has 64 bits, and so has the identity
      column; narrower column types are not modelled. *)

From Stdlib Require Import ZArith List String Ascii Lia Bool.
From Stdlib Require Import Sorting.Sorted Sorting.Permutation.
From Stdlib Require Import Floats.SpecFloat.
From stdpp Require Import base option gmap strings list.

Local Open Scope string_scope.
Local Open Scope list_scope.
Local Open Scope nat_scope.

(** ** Python values *)

(** The objects [request.get_json()] can produce, which are also the objects
    the handlers bind as statement parameters and hand to [jsonify]:
    [None], [bool], [int], [float], [str], [list], [dict]. A float is an
    IEEE-754 double in the Standard Library's [spec_float] form. Strings are
    ASCII texts. *)
#[warnings="-register-all"]
Inductive pyval :=
| PNone
| PBool (b : bool)
| PInt (n : Z)
| PFloat (f : spec_float)
| PStr (s : string)
| PList (l : list pyval)
| PDict (m : gmap string pyval).

(** Exceptions the handlers can meet. [DbError] stands for every
    [pyodbc.Error] raised by [cursor.execute]. *)
Inductive exn :=
| AttributeError
| TypeError
| ValueError
| OverflowError
| DbError.

(** Either a value or a raised exception. *)
Inductive outcome (A : Type) :=
| Ret (a : A)
| Raise (e : exn).
Arguments Ret {A} a.
Arguments Raise {A} e.

(** [x is not None] *)
Definition is_not_None (v : pyval) : bool :=
  match v with PNone => false | _ => true end.

(** ** [int()] *)

Module PyInt.

(** The characters [int(str)] skips around an ASCII literal:
    tab, line feed, vertical tab, form feed, carriage return, space. *)
Definition is_space (c : ascii) : bool :=
  let n := nat_of_ascii c in
  ((9 <=? n) && (n <=? 13)) || (n =? 32).

Definition digit_of (c : ascii) : option Z :=
  let n := nat_of_ascii c in
  if (48 <=? n) && (n <=? 57) then Some (Z.of_nat (n - 48)) else None.

Fixpoint lstrip (s : string) : string :=
  match s with
  | String c s' => if is_space c then lstrip s' else s
  | EmptyString => s
  end.

(** Is the rest of the literal only trailing white space? *)
Fixpoint all_space (s : string) : bool :=
  match s with
  | String c s' => is_space c && all_space s'
  | EmptyString => true
  end.

(** [digits acc count prev s]: reads the digits of a literal whose value
    so far is [acc], made of [count] digit characters; [prev] tells whether
    the previous character was a digit (an underscore is allowed only
    between two digits). Yields the value and the number of digits. *)
Fixpoint digits (acc : Z) (count : nat) (prev : bool) (s : string)
  : option (Z * nat) :=
  match s with
  | EmptyString => if prev then Some (acc, count) else None
  | String c s' =>
      match digit_of c with
      | Some d => digits (10 * acc + d) (S count) true s'
      | None =>
          if Ascii.eqb c "_" then
            if prev then digits acc count false s' else None
          else if prev && all_space s then Some (acc, count) else None
      end
  end.

(** [int(s)] for a string, base 10. [max_digits] is
    [sys.get_int_max_str_digits()], where 0 switches the limit off. *)
Definition of_string (max_digits : nat) (s : string) : option Z :=
  let s := lstrip s in
  let '(neg, s) :=
    match s with
    | String "-" s' => (true, s')
    | String "+" s' => (false, s')
    | _ => (false, s)
    end in
  match digits 0 0 false s with
  | Some (n, count) =>
      if (0 <? max_digits)%nat && (max_digits <? count)%nat then None
      else Some (if neg then (- n)%Z else n)
  | None => None
  end.

(** The integer part of a double, towards zero. *)
Definition trunc_float (f : spec_float) : option Z :=
  match f with
  | S754_zero _ => Some 0%Z
  | S754_finite s m e =>
      let a := match e with
               | Z0 => Zpos m
               | Zpos p => (Zpos m * 2 ^ Zpos p)%Z
               | Zneg p => (Zpos m / 2 ^ Zpos p)%Z
               end in
      Some (if s then (- a)%Z else a)
  | S754_infinity _ | S754_nan => None
  end.

End PyInt.

(** ** Dates, date-times and decimals, as pyodbc returns them *)

(** [datetime.date] *)
Record date := { year : nat; month : nat; day : nat }.

(** [datetime.datetime] *)
Record datetime := {
  dt_date : date; hour : nat; minute : nat; second : nat; microsecond : nat
}.

(** [decimal.Decimal]: [unscaled * 10 ^ (- scale)] *)
Record decimal := { unscaled : Z; scale : nat }.

Module PyStr.

Definition digit_char (n : nat) : ascii := ascii_of_nat (48 + n mod 10).

(** The [w] low-order decimal digits of [n]: ["%0wd" % n] for [n < 10^w]. *)
Fixpoint zfill (w : nat) (n : nat) : string :=
  match w with
  | O => EmptyString
  | S w' => zfill w' (n / 10) +:+ String (digit_char n) EmptyString
  end.

(** [str(d)] for a [datetime.date]: ["%04d-%02d-%02d"]. *)
Definition of_date (d : date) : string :=
  zfill 4 (year d) +:+ "-" +:+ zfill 2 (month d) +:+ "-" +:+ zfill 2 (day d).

(** [str(d)] for a [datetime.datetime]: the date, a space, the time, and
    the microseconds when they are not zero. *)
Definition of_datetime (d : datetime) : string :=
  of_date (dt_date d) +:+ " " +:+
  zfill 2 (hour d) +:+ ":" +:+ zfill 2 (minute d) +:+ ":" +:+ zfill 2 (second d) +:+
  (if (microsecond d =? 0)%nat then EmptyString else "." +:+ zfill 6 (microsecond d)).

End PyStr.

(** [float(d)] for a [Decimal]: the double nearest to
    [unscaled / 10 ^ scale], ties to even, rounded once. The quotient is
    first cut to an integer mantissa [q] of 64 bits or more, with one
    more bit that is set when something was cut off; rounding that
    mantissa to 53 bits is then the rounding of the quotient itself. *)
Definition float_of_decimal (d : decimal) : spec_float :=
  let n := Z.abs (unscaled d) in
  let den := (10 ^ Z.of_nat (scale d))%Z in
  let k := (64 + Z.log2_up den)%Z in
  let q := (n * 2 ^ k / den)%Z in
  let cut := if ((n * 2 ^ k) mod den =? 0)%Z then 0%Z else 1%Z in
  let m := (2 * q + cut)%Z in
  binary_normalize 53 1024 (if (unscaled d <? 0)%Z then (- m)%Z else m) (- k - 1) false.

(** ** The environment of the program

    What the handlers rely on and the repository does not define: the
    interpreter's integer-literal limit, bcrypt, and the conversions the
    database server applies to a bound parameter whose type is not the
    column's. Every theorem holds for every environment. *)
Class Env := {
  (** [sys.get_int_max_str_digits()]; 0 means no limit *)
  int_max_str_digits : nat;
  (** [bcrypt.checkpw(password, hash)] on the UTF-8 encodings; [None] when
      it raises (a malformed hash) *)
  checkpw : string -> string -> option bool;
  (** a parameter that is not NULL, converted to DATETIME; [None] when the
      server refuses it *)
  to_datetime : pyval -> option datetime;
  (** a number or boolean bound to a VARCHAR column *)
  to_varchar : pyval -> option string;
  (** a string compared with an INT column *)
  varchar_to_int : string -> option Z;
  (** [str(e)] of a raised exception *)
  exn_text : exn -> string;
}.

#[global] Instance outcome_ret : MRet outcome := @Ret.
#[global] Instance outcome_bind : MBind outcome := fun A B f m =>
  match m with
  | Ret a => f a
  | Raise e => Raise e
  end.

Definition of_option {A} (e : exn) (o : option A) : outcome A :=
  match o with
  | Some a => Ret a
  | None => Raise e
  end.

(** [int(v)] *)
Definition py_int `{Env} (v : pyval) : outcome Z :=
  match v with
  | PNone => Raise TypeError
  | PBool b => Ret (if b then 1 else 0)%Z
  | PInt n => Ret n
  | PFloat S754_nan => Raise ValueError
  | PFloat f => of_option OverflowError (PyInt.trunc_float f)
  | PStr s => of_option ValueError (PyInt.of_string int_max_str_digits s)
  | PList _ | PDict _ => Raise TypeError
  end.

(** ** The store *)

(** Modelled from the spec: the tables of the data model (section 3); the
    DDL of [HospitalMgmtDB] is not part of the repository sources. Keys are
    INT, text columns are nullable VARCHAR, [date_of_birth] and
    [billing_date] are DATE, [appointment_date] is DATETIME, [amount] is
    DECIMAL. *)
Module Patient.
Record row := {
  patient_id : Z; name : option string; date_of_birth : option date;
  gender : option string; address : option string; phone : option string
}.
End Patient.

Module Doctor.
Record row := {
  doctor_id : Z; name : option string; specialty : option string;
  phone : option string; email : option string
}.
End Doctor.

Module Appointment.
Record row := {
  appointment_id : Z; patient_id : Z; doctor_id : Z;
  appointment_date : option datetime; reason : option string
}.
End Appointment.

Module Treatment.
Record row := {
  treatment_id : Z; appointment_id : Z; diagnosis : option string;
  prescription : option string; notes : option string
}.
End Treatment.

Module Billing.
Record row := {
  bill_id : Z; patient_id : Z; treatment_id : option Z;
  amount : option decimal; payment_status : option string;
  billing_date : option date
}.
End Billing.

Module AppUser.
Record row := {
  username : string; password_hash : string;
  full_name : option string; role : option string
}.
End AppUser.

(** The committed contents of the database. [appointment_identity] is the
    last value the IDENTITY column of [dbo.Appointment] has handed out. *)
Record Store := {
  Patients : list Patient.row;
  Doctors : list Doctor.row;
  Appointments : list Appointment.row;
  Treatments : list Treatment.row;
  Billings : list Billing.row;
  AppUsers : list AppUser.row;
  appointment_identity : Z
}.

Definition set_Appointments (s : Store) (l : list Appointment.row) (ident : Z) : Store :=
  {| Patients := Patients s; Doctors := Doctors s; Appointments := l;
     Treatments := Treatments s; Billings := Billings s; AppUsers := AppUsers s;
     appointment_identity := ident |}.

(** The rows the two joined SELECTs return, columns in SELECT order, so
    that [r[0]] is the first field, [r[1]] the second, and so on. *)
Module AppointmentView.
Record row := {
  appointment_id : Z;                    (* r[0]  a.appointment_id *)
  appointment_date : option datetime;    (* r[1]  a.appointment_date *)
  reason : option string;                (* r[2]  a.reason *)
  patient_id : Z;                        (* r[3]  p.patient_id *)
  patient_name : option string;          (* r[4]  p.name *)
  doctor_id : Z;                         (* r[5]  d.doctor_id *)
  doctor_name : option string            (* r[6]  d.name *)
}.
End AppointmentView.

Module BillingView.
Record row := {
  bill_id : Z;                           (* r[0]  b.bill_id *)
  patient_id : Z;                        (* r[1]  b.patient_id *)
  patient_name : option string;          (* r[2]  p.name *)
  treatment_id : option Z;               (* r[3]  b.treatment_id *)
  amount : option decimal;               (* r[4]  b.amount *)
  payment_status : option string;        (* r[5]  b.payment_status *)
  billing_date : option date             (* r[6]  b.billing_date *)
}.
End BillingView.

(** *** Ordering of column values (NULL sorts lowest) *)

Definition lex (c1 c2 : comparison) : comparison :=
  match c1 with Eq => c2 | _ => c1 end.

Definition date_compare (a b : date) : comparison :=
  lex (year a ?= year b) (lex (month a ?= month b) (day a ?= day b)).

Definition datetime_compare (a b : datetime) : comparison :=
  lex (date_compare (dt_date a) (dt_date b))
   (lex (hour a ?= hour b)
     (lex (minute a ?= minute b)
       (lex (second a ?= second b) (microsecond a ?= microsecond b)))).

Definition option_compare {A} (cmp : A -> A -> comparison) (a b : option A) : comparison :=
  match a, b with
  | None, None => Eq
  | None, Some _ => Lt
  | Some _, None => Gt
  | Some x, Some y => cmp x y
  end.

Definition not_Gt (c : comparison) : bool :=
  match c with Gt => false | _ => true end.

(** [ORDER BY]: a stable insertion sort for the order [leb]. *)
Fixpoint insert_by {A} (leb : A -> A -> bool) (x : A) (l : list A) : list A :=
  match l with
  | [] => [x]
  | y :: l' => if leb x y then x :: l else y :: insert_by leb x l'
  end.

Definition order_by {A} (leb : A -> A -> bool) (l : list A) : list A :=
  foldr (insert_by leb) [] l.

(** [ORDER BY a.appointment_date DESC, a.appointment_id DESC]: [r1] may
    come before [r2]. *)
Definition appointment_order (r1 r2 : AppointmentView.row) : bool :=
  not_Gt (lex (option_compare datetime_compare
                 (AppointmentView.appointment_date r2) (AppointmentView.appointment_date r1))
              (AppointmentView.appointment_id r2 ?= AppointmentView.appointment_id r1)%Z).

(** [ORDER BY t.treatment_id DESC] *)
Definition treatment_order (r1 r2 : Treatment.row) : bool :=
  (Treatment.treatment_id r2 <=? Treatment.treatment_id r1)%Z.

(** [ORDER BY b.billing_date DESC, b.bill_id DESC] *)
Definition billing_order (r1 r2 : BillingView.row) : bool :=
  not_Gt (lex (option_compare date_compare
                 (BillingView.billing_date r2) (BillingView.billing_date r1))
              (BillingView.bill_id r2 ?= BillingView.bill_id r1)%Z).

(** [ORDER BY patient_id] *)
Definition patient_order (r1 r2 : Patient.row) : bool :=
  (Patient.patient_id r1 <=? Patient.patient_id r2)%Z.

(** [ORDER BY name] *)
Definition doctor_order (r1 r2 : Doctor.row) : bool :=
  not_Gt (option_compare String.compare (Doctor.name r1) (Doctor.name r2)).

(** *** The FROM clauses of the joined SELECTs *)

(** [FROM dbo.Appointment a JOIN dbo.Patient p ON p.patient_id = a.patient_id
     JOIN dbo.Doctor d ON d.doctor_id = a.doctor_id] *)
Definition appointment_join (s : Store) : list AppointmentView.row :=
  a ← Appointments s;
  p ← List.filter (fun p => Patient.patient_id p =? Appointment.patient_id a)%Z (Patients s);
  d ← List.filter (fun d => Doctor.doctor_id d =? Appointment.doctor_id a)%Z (Doctors s);
  [ {| AppointmentView.appointment_id := Appointment.appointment_id a;
       AppointmentView.appointment_date := Appointment.appointment_date a;
       AppointmentView.reason := Appointment.reason a;
       AppointmentView.patient_id := Patient.patient_id p;
       AppointmentView.patient_name := Patient.name p;
       AppointmentView.doctor_id := Doctor.doctor_id d;
       AppointmentView.doctor_name := Doctor.name d |} ].

(** [FROM dbo.Billing b JOIN dbo.Patient p ON p.patient_id = b.patient_id] *)
Definition billing_join (s : Store) : list BillingView.row :=
  b ← Billings s;
  p ← List.filter (fun p => Patient.patient_id p =? Billing.patient_id b)%Z (Patients s);
  [ {| BillingView.bill_id := Billing.bill_id b;
       BillingView.patient_id := Billing.patient_id b;
       BillingView.patient_name := Patient.name p;
       BillingView.treatment_id := Billing.treatment_id b;
       BillingView.amount := Billing.amount b;
       BillingView.payment_status := Billing.payment_status b;
       BillingView.billing_date := Billing.billing_date b |} ].

(** *** Binding a parameter to a placeholder

    A comparison with NULL is unknown, so the row is not selected. A list
    or a dict cannot be bound at all. *)

(** Is the integer [c] the value of the double [f]? *)
Definition float_eq_int (f : spec_float) (c : Z) : bool :=
  match f with
  | S754_zero _ => (c =? 0)%Z
  | S754_finite s m e =>
      let v := if s then Zneg m else Zpos m in
      match e with
      | Z0 => (c =? v)%Z
      | Zpos p => (c =? v * 2 ^ Zpos p)%Z
      | Zneg p => (c * 2 ^ Zpos p =? v)%Z
      end
  | S754_infinity _ | S754_nan => false
  end.

(** The integers the driver binds: pyodbc converts a Python [int] to a C
    [long long], and the conversion raises [OverflowError] outside 64
    bits, before anything is sent. *)
Definition fits_int64 (n : Z) : bool := (- 2 ^ 63 <=? n)%Z && (n <? 2 ^ 63)%Z.

Definition bind_pyint (n : Z) : outcome Z :=
  if fits_int64 n then Ret n else Raise OverflowError.

(** [int_column = ?] *)
Definition where_int_eq `{Env} (v : pyval) : outcome (Z -> bool) :=
  match v with
  | PNone => Ret (fun _ => false)
  | PBool b => Ret (fun c => c =? (if b then 1 else 0))%Z
  | PInt n => n ← bind_pyint n; Ret (fun c => c =? n)%Z
  | PFloat f => Ret (float_eq_int f)
  | PStr s => n ← of_option DbError (varchar_to_int s); Ret (fun c => c =? n)%Z
  | PList _ | PDict _ => Raise DbError
  end.

(** A value for a DATETIME column or comparison: NULL, or the conversion
    of the parameter. *)
Definition bind_datetime `{Env} (v : pyval) : outcome (option datetime) :=
  match v with
  | PNone => Ret None
  | PList _ | PDict _ => Raise DbError
  | _ => t ← of_option DbError (to_datetime v); Ret (Some t)
  end.

(** [datetime_column >= ?] and [datetime_column <= ?]: [test] reads the
    comparison of the column with the parameter. *)
Definition where_datetime `{Env} (test : comparison -> bool) (v : pyval)
  : outcome (option datetime -> bool) :=
  t ← bind_datetime v;
  Ret (fun c => match c, t with
                | Some c, Some t => test (datetime_compare c t)
                | _, _ => false
                end).

Definition not_Lt (c : comparison) : bool :=
  match c with Lt => false | _ => true end.

(** A value for a VARCHAR column or comparison. *)
Definition bind_varchar `{Env} (v : pyval) : outcome (option string) :=
  match v with
  | PNone => Ret None
  | PStr s => Ret (Some s)
  | PList _ | PDict _ => Raise DbError
  | _ => s ← of_option DbError (to_varchar v); Ret (Some s)
  end.

(** Modelled from the spec: [varchar_column = ?] is exact, case-sensitive
    equality (section 8); the collation of the database is not part of the
    repository sources. *)
Definition where_varchar_eq `{Env} (v : pyval) : outcome (option string -> bool) :=
  s ← bind_varchar v;
  Ret (fun c => match c, s with
                | Some c, Some s => String.eqb c s
                | _, _ => false
                end).

(** A value for an INT NOT NULL column. *)
Definition bind_int `{Env} (v : pyval) : outcome Z :=
  match v with
  | PNone => Raise DbError
  | PBool b => Ret (if b then 1 else 0)%Z
  | PInt n => bind_pyint n
  | PFloat f => of_option DbError (PyInt.trunc_float f)
  | PStr s => of_option DbError (varchar_to_int s)
  | PList _ | PDict _ => Raise DbError
  end.

(** *** Statements *)

(** The predicates the list endpoints put in their [where] lists. *)
Inductive appt_clause :=
| a_patient_id_eq           (* "a.patient_id = ?" *)
| a_doctor_id_eq            (* "a.doctor_id = ?" *)
| a_appointment_date_ge     (* "a.appointment_date >= ?" *)
| a_appointment_date_le.    (* "a.appointment_date <= ?" *)

Inductive treat_clause :=
| t_appointment_id_eq.      (* "WHERE t.appointment_id = ?" *)

Inductive bill_clause :=
| b_patient_id_eq           (* "b.patient_id = ?" *)
| b_payment_status_eq.      (* "b.payment_status = ?" *)

(** The assignments [update_appointment] puts in its [sets] list. *)
Inductive set_clause :=
| set_patient_id            (* "patient_id = ?" *)
| set_doctor_id             (* "doctor_id = ?" *)
| set_appointment_date      (* "appointment_date = ?" *)
| set_reason.               (* "reason = ?" *)

#[global] Instance set_clause_eq_dec : EqDecision set_clause.
Proof. solve_decision. Defined.

Inductive table := TPatient | TDoctor | TAppointment | TTreatment | TBilling | TAppUser.

Inductive verb := SELECT | INSERT | UPDATE | DELETE.

(** The SQL texts of [app.py], indexed by the type of the rows they
    return. *)
Inductive stmt : Type -> Type :=
| SELECT_COUNT (t : table) : stmt Z
    (* SELECT COUNT( * ) FROM dbo.<t> *)
| SELECT_AppUser : stmt AppUser.row
    (* SELECT username, password_hash, full_name, role FROM dbo.AppUser WHERE username = ? *)
| SELECT_Patient : stmt Patient.row
    (* SELECT ... FROM dbo.Patient ORDER BY patient_id *)
| SELECT_Doctor : stmt Doctor.row
    (* SELECT ... FROM dbo.Doctor ORDER BY name *)
| SELECT_Appointment (where_ : list appt_clause) : stmt AppointmentView.row
    (* SELECT ... FROM dbo.Appointment a JOIN ... [WHERE <where_ joined by AND>]
       ORDER BY a.appointment_date DESC, a.appointment_id DESC *)
| SELECT_Treatment (where_ : option treat_clause) : stmt Treatment.row
    (* SELECT ... FROM dbo.Treatment t <where_> ORDER BY t.treatment_id DESC *)
| SELECT_Billing (where_ : list bill_clause) : stmt BillingView.row
    (* SELECT ... FROM dbo.Billing b JOIN ... [WHERE <where_ joined by AND>]
       ORDER BY b.billing_date DESC, b.bill_id DESC *)
| SELECT_COUNT_WHERE_id (t : table) : stmt Z
    (* SELECT COUNT( * ) FROM dbo.<t> WHERE <t>_id = ?   (Patient, Doctor, Appointment) *)
| INSERT_Appointment : stmt unit
    (* INSERT INTO dbo.Appointment (patient_id, doctor_id, appointment_date, reason)
       VALUES (?, ?, ?, ?) *)
| SELECT_SCOPE_IDENTITY : stmt (option Z)
    (* SELECT SCOPE_IDENTITY() *)
| SELECT_Appointment_WHERE_id : stmt AppointmentView.row
    (* SELECT ... FROM dbo.Appointment a JOIN ... WHERE a.appointment_id = ? *)
| UPDATE_Appointment (sets : list set_clause) : stmt unit
    (* UPDATE dbo.Appointment SET <sets joined by ", "> WHERE appointment_id = ? *)
| DELETE_Appointment : stmt unit.
    (* DELETE FROM dbo.Appointment WHERE appointment_id = ? *)

Definition stmt_verb {A} (q : stmt A) : verb :=
  match q with
  | INSERT_Appointment => INSERT
  | UPDATE_Appointment _ => UPDATE
  | DELETE_Appointment => DELETE
  | _ => SELECT
  end.

(** *** Connections and the world *)

(** An open connection: the contents of the database as its transaction
    sees them (pyodbc connections do not autocommit), and the last
    identity value generated through it. *)
Record Conn := { txn : Store; scope_identity : option Z }.

(** The state a handler runs in: the committed database, the connections
    that are open (by handle), and the verbs of the statements sent so
    far, oldest first. *)
Record World := {
  db : Store;
  conns : gmap nat Conn;
  log : list verb
}.

(** *** Executing a statement *)

Section Exec.
Context `{Env}.

(** Pairs the placeholders of [where_] with [params], in order; too few
    or too many parameters are refused. The result tests a row against
    the conjunction. *)
Fixpoint bind_where {C R} (test : C -> pyval -> outcome (R -> bool))
    (where_ : list C) (params : list pyval) : outcome (R -> bool) :=
  match where_, params with
  | [], [] => Ret (fun _ => true)
  | c :: where', v :: params' =>
      p ← test c v;
      q ← bind_where test where' params';
      Ret (fun r => p r && q r)
  | _, _ => Raise DbError
  end.

Definition appt_clause_test (c : appt_clause) (v : pyval)
  : outcome (AppointmentView.row -> bool) :=
  match c with
  | a_patient_id_eq =>
      p ← where_int_eq v; Ret (fun r => p (AppointmentView.patient_id r))
  | a_doctor_id_eq =>
      p ← where_int_eq v; Ret (fun r => p (AppointmentView.doctor_id r))
  | a_appointment_date_ge =>
      p ← where_datetime not_Lt v; Ret (fun r => p (AppointmentView.appointment_date r))
  | a_appointment_date_le =>
      p ← where_datetime not_Gt v; Ret (fun r => p (AppointmentView.appointment_date r))
  end.

Definition treat_clause_test (c : treat_clause) (v : pyval)
  : outcome (Treatment.row -> bool) :=
  match c with
  | t_appointment_id_eq =>
      p ← where_int_eq v; Ret (fun r => p (Treatment.appointment_id r))
  end.

Definition bill_clause_test (c : bill_clause) (v : pyval)
  : outcome (BillingView.row -> bool) :=
  match c with
  | b_patient_id_eq =>
      p ← where_int_eq v; Ret (fun r => p (BillingView.patient_id r))
  | b_payment_status_eq =>
      p ← where_varchar_eq v; Ret (fun r => p (BillingView.payment_status r))
  end.

(** One assignment of a SET list, with its parameter. *)
Definition set_clause_bind (c : set_clause) (v : pyval)
  : outcome (Appointment.row -> Appointment.row) :=
  match c with
  | set_patient_id =>
      n ← bind_int v;
      Ret (fun a => {| Appointment.appointment_id := Appointment.appointment_id a;
                       Appointment.patient_id := n;
                       Appointment.doctor_id := Appointment.doctor_id a;
                       Appointment.appointment_date := Appointment.appointment_date a;
                       Appointment.reason := Appointment.reason a |})
  | set_doctor_id =>
      n ← bind_int v;
      Ret (fun a => {| Appointment.appointment_id := Appointment.appointment_id a;
                       Appointment.patient_id := Appointment.patient_id a;
                       Appointment.doctor_id := n;
                       Appointment.appointment_date := Appointment.appointment_date a;
                       Appointment.reason := Appointment.reason a |})
  | set_appointment_date =>
      t ← bind_datetime v;
      Ret (fun a => {| Appointment.appointment_id := Appointment.appointment_id a;
                       Appointment.patient_id := Appointment.patient_id a;
                       Appointment.doctor_id := Appointment.doctor_id a;
                       Appointment.appointment_date := t;
                       Appointment.reason := Appointment.reason a |})
  | set_reason =>
      s ← bind_varchar v;
      Ret (fun a => {| Appointment.appointment_id := Appointment.appointment_id a;
                       Appointment.patient_id := Appointment.patient_id a;
                       Appointment.doctor_id := Appointment.doctor_id a;
                       Appointment.appointment_date := Appointment.appointment_date a;
                       Appointment.reason := s |})
  end.

(** Pairs the placeholders of a SET list with the first parameters, in
    order, and hands back the parameters that are left. *)
Fixpoint bind_sets (sets : list set_clause) (params : list pyval)
  : outcome ((Appointment.row -> Appointment.row) * list pyval) :=
  match sets, params with
  | [], rest => Ret (fun a => a, rest)
  | c :: sets', v :: params' =>
      f ← set_clause_bind c v;
      gr ← bind_sets sets' params';
      Ret (fun a => fst gr (f a), snd gr)
  | _ :: _, [] => Raise DbError
  end.

Definition table_size (t : table) (s : Store) : Z :=
  Z.of_nat
    match t with
    | TPatient => length (Patients s)
    | TDoctor => length (Doctors s)
    | TAppointment => length (Appointments s)
    | TTreatment => length (Treatments s)
    | TBilling => length (Billings s)
    | TAppUser => length (AppUsers s)
    end.

(** The key column of the tables that are looked up by id. *)
Definition table_ids (t : table) (s : Store) : list Z :=
  match t with
  | TPatient => map Patient.patient_id (Patients s)
  | TDoctor => map Doctor.doctor_id (Doctors s)
  | TAppointment => map Appointment.appointment_id (Appointments s)
  | TTreatment => map Treatment.treatment_id (Treatments s)
  | TBilling => map Billing.bill_id (Billings s)
  | TAppUser => []
  end.

(** [SELECT COUNT( * ) FROM dbo.<t> WHERE <t>_id = ?] with [v] bound *)
Definition count_where_id (t : table) (v : pyval) (s : Store) : outcome Z :=
  p ← where_int_eq v;
  Ret (Z.of_nat (length (List.filter p (table_ids t s)))).

(** [exec q params c]: the rows statement [q] returns on connection [c]
    with [params] bound to its placeholders, and the connection after
    it. Raises when the parameters do not fit the placeholders. *)
Definition exec {A} (q : stmt A) (params : list pyval) (c : Conn)
  : outcome (list A * Conn) :=
  let s := txn c in
  match q in stmt A return outcome (list A * Conn) with
  | SELECT_COUNT t =>
      match params with
      | [] => Ret ([table_size t s], c)
      | _ => Raise DbError
      end
  | SELECT_AppUser =>
      match params with
      | [v] =>
          p ← where_varchar_eq v;
          Ret (List.filter (fun u => p (Some (AppUser.username u))) (AppUsers s), c)
      | _ => Raise DbError
      end
  | SELECT_Patient =>
      match params with
      | [] => Ret (order_by patient_order (Patients s), c)
      | _ => Raise DbError
      end
  | SELECT_Doctor =>
      match params with
      | [] => Ret (order_by doctor_order (Doctors s), c)
      | _ => Raise DbError
      end
  | SELECT_Appointment where_ =>
      p ← bind_where appt_clause_test where_ params;
      Ret (order_by appointment_order (List.filter p (appointment_join s)), c)
  | SELECT_Treatment where_ =>
      p ← bind_where treat_clause_test (option_list where_) params;
      Ret (order_by treatment_order (List.filter p (Treatments s)), c)
  | SELECT_Billing where_ =>
      p ← bind_where bill_clause_test where_ params;
      Ret (order_by billing_order (List.filter p (billing_join s)), c)
  | SELECT_COUNT_WHERE_id t =>
      match params with
      | [v] => n ← count_where_id t v s; Ret ([n], c)
      | _ => Raise DbError
      end
  | INSERT_Appointment =>
      match params with
      | [v1; v2; v3; v4] =>
          patient_id ← bind_int v1;
          doctor_id ← bind_int v2;
          appointment_date ← bind_datetime v3;
          reason ← bind_varchar v4;
          let new_id := (appointment_identity s + 1)%Z in
          let a := {| Appointment.appointment_id := new_id;
                      Appointment.patient_id := patient_id;
                      Appointment.doctor_id := doctor_id;
                      Appointment.appointment_date := appointment_date;
                      Appointment.reason := reason |} in
          (* past the last value of the identity column: arithmetic overflow *)
          if fits_int64 new_id then
            Ret ([], {| txn := set_Appointments s (Appointments s ++ [a]) new_id;
                        scope_identity := Some new_id |})
          else Raise DbError
      | _ => Raise DbError
      end
  | SELECT_SCOPE_IDENTITY =>
      match params with
      | [] => Ret ([scope_identity c], c)
      | _ => Raise DbError
      end
  | SELECT_Appointment_WHERE_id =>
      match params with
      | [v] =>
          p ← where_int_eq v;
          Ret (List.filter (fun r => p (AppointmentView.appointment_id r))
                 (appointment_join s), c)
      | _ => Raise DbError
      end
  | UPDATE_Appointment sets =>
      if bool_decide (sets <> [] /\ NoDup sets) then
        fr ← bind_sets sets params;
        match snd fr with
        | [v] =>
            p ← where_int_eq v;
            let rows := map (fun a : Appointment.row => if p (Appointment.appointment_id a) : bool
                                      then fst fr a else a) (Appointments s) in
            Ret ([], {| txn := set_Appointments s rows (appointment_identity s);
                        scope_identity := scope_identity c |})
        | _ => Raise DbError
        end
      else Raise DbError
  | DELETE_Appointment =>
      match params with
      | [v] =>
          p ← where_int_eq v;
          let rows := List.filter (fun a : Appointment.row => negb (p (Appointment.appointment_id a)))
                        (Appointments s) in
          Ret ([], {| txn := set_Appointments s rows (appointment_identity s);
                      scope_identity := scope_identity c |})
      | _ => Raise DbError
      end
  end.

End Exec.

(** ** The handler monad: the world is threaded, exceptions propagate *)

Definition M (A : Type) : Type := World -> outcome A * World.

#[global] Instance M_ret : MRet M := fun A a w => (Ret a, w).
#[global] Instance M_bind : MBind M := fun A B f m w =>
  match m w with
  | (Ret a, w') => f a w'
  | (Raise e, w') => (Raise e, w')
  end.

(** A computation that does not touch the world. *)
Definition lift {A} (o : outcome A) : M A := fun w => (o, w).

(** [get_conn()]: [pyodbc.connect(...)]. The new connection gets a handle
    no open connection has, and starts a transaction on the committed
    contents. *)
Definition get_conn : M nat := fun w =>
  let conn := fresh (dom (conns w)) in
  (Ret conn,
   {| db := db w;
      conns := <[conn := {| txn := db w; scope_identity := None |}]> (conns w);
      log := log w |}).

(** [cur.execute(sql, params)] on a cursor of connection [conn]; the
    result is the row set the cursor then holds. The statement is logged
    whether or not the server accepts it. *)
Definition execute `{Env} {A} (conn : nat) (sql : stmt A) (params : list pyval)
  : M (list A) := fun w =>
  match conns w !! conn with
  | None => (Raise DbError, w)
  | Some c =>
      match exec sql params c with
      | Ret (rows, c') =>
          (Ret rows,
           {| db := db w; conns := <[conn := c']> (conns w);
              log := log w ++ [stmt_verb sql] |})
      | Raise e =>
          (Raise e,
           {| db := db w; conns := conns w;
              log := log w ++ [stmt_verb sql] |})
      end
  end.

(** [conn.commit()] *)
Definition commit (conn : nat) : M unit := fun w =>
  match conns w !! conn with
  | None => (Raise DbError, w)
  | Some c =>
      (Ret tt,
       {| db := txn c; conns := conns w; log := log w |})
  end.

(** [conn.close()]: what was not committed is rolled back. *)
Definition close (conn : nat) : M unit := fun w =>
  match conns w !! conn with
  | None => (Raise DbError, w)
  | Some _ =>
      (Ret tt,
       {| db := db w; conns := delete conn (conns w); log := log w |})
  end.

(** [cur.fetchone()]: the first row of the row set, or [None]. *)
Definition fetchone {A} (rows : list A) : option A := head rows.

(** [row[0]] of a one-column row; subscripting [None] is a [TypeError]. *)
Definition item0 {A} (row : option A) : outcome A := of_option TypeError row.

(** ** Requests and responses *)

(** [m.get(key)] on a dict: the value, or [None] when the key is absent *)
Definition field (m : gmap string pyval) (key : string) : pyval :=
  default PNone (m !! key).

(** [data.get(key)] on the decoded body; only a dict has the method. *)
Definition dict_get (data : pyval) (key : string) : outcome pyval :=
  match data with
  | PDict m => Ret (field m key)
  | _ => Raise AttributeError
  end.

(** [request.args.get(key)]: the first value of [key] in the query
    string, or [None]. *)
Definition args_get (args : list (string * string)) (key : string) : pyval :=
  match List.find (fun kv => String.eqb (fst kv) key) args with
  | Some kv => PStr (snd kv)
  | None => PNone
  end.

(** Truth value of an object, as [if x:] tests it. *)
Definition py_bool (v : pyval) : bool :=
  match v with
  | PNone => false
  | PBool b => b
  | PInt n => negb (n =? 0)%Z
  | PFloat (S754_zero _) => false
  | PFloat _ => true
  | PStr s => negb (String.eqb s EmptyString)
  | PList l => match l with [] => false | _ => true end
  | PDict m => negb (bool_decide (m = ∅))
  end.

(** [s.encode("utf-8")]; only a [str] has the method. *)
Definition encode_utf8 (v : pyval) : outcome string :=
  match v with
  | PStr s => Ret s
  | _ => Raise AttributeError
  end.

(** A dict display [{k1: v1, ...}] *)
Definition dict (items : list (string * pyval)) : pyval := PDict (list_to_map items).

(** Column values handed to [jsonify] as they are. *)
Definition of_str (s : option string) : pyval :=
  match s with Some s => PStr s | None => PNone end.

Definition of_int (n : option Z) : pyval :=
  match n with Some n => PInt n | None => PNone end.

(** What a view function returns: the JSON document and the status. *)
Record response := { status : nat; body : pyval }.

(** [return jsonify(v), status] ([return jsonify(v)] has status 200) *)
Definition jsonify (v : pyval) (status : nat) : response :=
  {| status := status; body := v |}.

(** [try: ... except Exception as e: return jsonify({...}), 500] *)
Definition try_except `{Env} (body : M response) : World -> response * World :=
  fun w =>
    match body w with
    | (Ret r, w') => (r, w')
    | (Raise e, w') =>
        (jsonify (dict [("success", PBool false);
                        ("message", PStr ("Server Error: " +:+ exn_text e))]) 500, w')
    end.

(** ** The handlers of [app.py] *)

Section Handlers.
Context `{Env}.

(** [GET /stats] *)
Definition get_stats : World -> response * World :=
  try_except (
    conn ← get_conn;
    let count (sql : stmt Z) : M pyval :=
      rows ← execute conn sql [];
      n ← lift (item0 (fetchone rows));
      mret (PInt n) in
    patients ← count (SELECT_COUNT TPatient);
    doctors ← count (SELECT_COUNT TDoctor);
    appointments ← count (SELECT_COUNT TAppointment);
    treatments ← count (SELECT_COUNT TTreatment);
    billing ← count (SELECT_COUNT TBilling);
    users ← count (SELECT_COUNT TAppUser);
    let stats := dict [("patients", patients); ("doctors", doctors);
                       ("appointments", appointments); ("treatments", treatments);
                       ("billing", billing); ("users", users)] in
    _ ← close conn;
    mret (jsonify stats 200)).

(** [POST /login] *)
Definition login (data : pyval) : World -> response * World :=
  try_except (
    username ← lift (dict_get data "username");
    password ← lift (dict_get data "password");
    conn ← get_conn;
    rows ← execute conn SELECT_AppUser [username];
    let row := fetchone rows in
    _ ← close conn;
    match row with
    | None =>
        mret (jsonify (dict [("success", PBool false);
                             ("message", PStr "User not found")]) 401)
    | Some row =>
        let db_username := AppUser.username row in
        let stored_hash := AppUser.password_hash row in
        let full_name := AppUser.full_name row in
        let role := AppUser.role row in
        password_bytes ← lift (encode_utf8 password);
        ok ← lift (of_option ValueError (checkpw password_bytes stored_hash));
        if ok : bool then
          mret (jsonify (dict [("success", PBool true);
                               ("message", PStr "Login successful");
                               ("user", dict [("username", PStr db_username);
                                              ("full_name", of_str full_name);
                                              ("role", of_str role)])]) 200)
        else
          mret (jsonify (dict [("success", PBool false);
                               ("message", PStr "Invalid password")]) 401)
    end).

(** The row mapper of [get_patients]. [r[2]] is a [datetime.date] or
    [None]; a date is always true. *)
Definition patient_row_to_json (r : Patient.row) : pyval :=
  dict [("patient_id", PInt (Patient.patient_id r));
        ("name", of_str (Patient.name r));
        ("date_of_birth",
          match Patient.date_of_birth r with      (* str(r[2]) if r[2] else None *)
          | Some d => PStr (PyStr.of_date d)
          | None => PNone
          end);
        ("gender", of_str (Patient.gender r));
        ("address", of_str (Patient.address r));
        ("phone", of_str (Patient.phone r))].

(** [GET /patients] *)
Definition get_patients : World -> response * World :=
  try_except (
    conn ← get_conn;
    rows ← execute conn SELECT_Patient [];
    _ ← close conn;
    mret (jsonify (PList (map patient_row_to_json rows)) 200)).

(** The row mapper of [get_doctors] *)
Definition doctor_row_to_json (r : Doctor.row) : pyval :=
  dict [("doctor_id", PInt (Doctor.doctor_id r));
        ("name", of_str (Doctor.name r));
        ("specialty", of_str (Doctor.specialty r));
        ("phone", of_str (Doctor.phone r));
        ("email", of_str (Doctor.email r))].

(** [GET /doctors] *)
Definition get_doctors : World -> response * World :=
  try_except (
    conn ← get_conn;
    rows ← execute conn SELECT_Doctor [];
    _ ← close conn;
    mret (jsonify (PList (map doctor_row_to_json rows)) 200)).

(** [str(r[1])] of a DATETIME column value; [str(None)] is ["None"]. *)
Definition str_datetime (d : option datetime) : string :=
  match d with Some d => PyStr.of_datetime d | None => "None" end.

(** [str(r[6])] of a DATE column value *)
Definition str_date (d : option date) : string :=
  match d with Some d => PyStr.of_date d | None => "None" end.

(** The row mapper written out in [get_appointments], and again as
    [_appointment_row_to_json]. *)
Definition _appointment_row_to_json (r : AppointmentView.row) : pyval :=
  dict [("appointment_id", PInt (AppointmentView.appointment_id r));
        ("appointment_date", PStr (str_datetime (AppointmentView.appointment_date r)));
        ("reason", of_str (AppointmentView.reason r));
        ("patient_id", PInt (AppointmentView.patient_id r));
        ("patient_name", of_str (AppointmentView.patient_name r));
        ("doctor_id", PInt (AppointmentView.doctor_id r));
        ("doctor_name", of_str (AppointmentView.doctor_name r))].

(** The part of [get_appointments] that assembles [where] and [params]
    from the query string. *)
Definition appointment_filters (args : list (string * string))
  : outcome (list appt_clause * list pyval) :=
  let patient_id := args_get args "patient_id" in
  let doctor_id := args_get args "doctor_id" in
  let dt_from := args_get args "from" in
  let dt_to := args_get args "to" in
  let where_ := [] in
  let params := [] in
  '(where_, params) ←
    (if py_bool patient_id then
       n ← py_int patient_id;
       Ret (where_ ++ [a_patient_id_eq], params ++ [PInt n])
     else Ret (where_, params));
  '(where_, params) ←
    (if py_bool doctor_id then
       n ← py_int doctor_id;
       Ret (where_ ++ [a_doctor_id_eq], params ++ [PInt n])
     else Ret (where_, params));
  '(where_, params) ←
    (if py_bool dt_from then
       Ret (where_ ++ [a_appointment_date_ge], params ++ [dt_from])
     else Ret (where_, params));
  '(where_, params) ←
    (if py_bool dt_to then
       Ret (where_ ++ [a_appointment_date_le], params ++ [dt_to])
     else Ret (where_, params));
  Ret (where_, params).

(** [GET /appointments] *)
Definition get_appointments (args : list (string * string))
  : World -> response * World :=
  try_except (
    '(where_, params) ← lift (appointment_filters args);
    let sql := SELECT_Appointment where_ in
    conn ← get_conn;
    rows ← execute conn sql params;
    _ ← close conn;
    mret (jsonify (PList (map _appointment_row_to_json rows)) 200)).

(** The row mapper of [get_treatments] *)
Definition treatment_row_to_json (r : Treatment.row) : pyval :=
  dict [("treatment_id", PInt (Treatment.treatment_id r));
        ("appointment_id", PInt (Treatment.appointment_id r));
        ("diagnosis", of_str (Treatment.diagnosis r));
        ("prescription", of_str (Treatment.prescription r));
        ("notes", of_str (Treatment.notes r))].

(** The part of [get_treatments] that sets [where] and [params]. *)
Definition treatment_filters (args : list (string * string))
  : outcome (option treat_clause * list pyval) :=
  let appointment_id := args_get args "appointment_id" in
  let where_ := None in
  let params := [] in
  if py_bool appointment_id then
    n ← py_int appointment_id;
    Ret (Some t_appointment_id_eq, [PInt n])
  else Ret (where_, params).

(** [GET /treatments] *)
Definition get_treatments (args : list (string * string))
  : World -> response * World :=
  try_except (
    '(where_, params) ← lift (treatment_filters args);
    conn ← get_conn;
    rows ← execute conn (SELECT_Treatment where_) params;
    _ ← close conn;
    mret (jsonify (PList (map treatment_row_to_json rows)) 200)).

(** The row mapper of [get_billing] *)
Definition billing_row_to_json (r : BillingView.row) : pyval :=
  dict [("bill_id", PInt (BillingView.bill_id r));
        ("patient_id", PInt (BillingView.patient_id r));
        ("patient_name", of_str (BillingView.patient_name r));
        ("treatment_id", of_int (BillingView.treatment_id r));
        ("amount",
          match BillingView.amount r with   (* float(r[4]) if r[4] is not None else None *)
          | Some d => PFloat (float_of_decimal d)
          | None => PNone
          end);
        ("payment_status", of_str (BillingView.payment_status r));
        ("billing_date", PStr (str_date (BillingView.billing_date r)))].

(** The part of [get_billing] that assembles [where] and [params]. *)
Definition billing_filters (args : list (string * string))
  : outcome (list bill_clause * list pyval) :=
  let patient_id := args_get args "patient_id" in
  let status := args_get args "status" in
  let where_ := [] in
  let params := [] in
  '(where_, params) ←
    (if py_bool patient_id then
       n ← py_int patient_id;
       Ret (where_ ++ [b_patient_id_eq], params ++ [PInt n])
     else Ret (where_, params));
  '(where_, params) ←
    (if py_bool status then
       Ret (where_ ++ [b_payment_status_eq], params ++ [status])
     else Ret (where_, params));
  Ret (where_, params).

(** [GET /billing] *)
Definition get_billing (args : list (string * string))
  : World -> response * World :=
  try_except (
    '(where_, params) ← lift (billing_filters args);
    let sql := SELECT_Billing where_ in
    conn ← get_conn;
    rows ← execute conn sql params;
    _ ← close conn;
    mret (jsonify (PList (map billing_row_to_json rows)) 200)).

(** [POST /appointments] *)
Definition create_appointment (data : pyval) : World -> response * World :=
  try_except (
    v ← lift (dict_get data "patient_id");
    patient_id ← lift (py_int v);
    v ← lift (dict_get data "doctor_id");
    doctor_id ← lift (py_int v);
    appointment_date ← lift (dict_get data "appointment_date");
    reason ← lift (dict_get data "reason");
    conn ← get_conn;
    (* Validate foreign keys *)
    rows ← execute conn (SELECT_COUNT_WHERE_id TPatient) [PInt patient_id];
    n ← lift (item0 (fetchone rows));
    if (n =? 0)%Z then
      _ ← close conn;
      mret (jsonify (dict [("success", PBool false);
                           ("message", PStr "Invalid patient_id")]) 400)
    else
    rows ← execute conn (SELECT_COUNT_WHERE_id TDoctor) [PInt doctor_id];
    n ← lift (item0 (fetchone rows));
    if (n =? 0)%Z then
      _ ← close conn;
      mret (jsonify (dict [("success", PBool false);
                           ("message", PStr "Invalid doctor_id")]) 400)
    else
    (* Insert new appointment *)
    _ ← execute conn INSERT_Appointment
          [PInt patient_id; PInt doctor_id; appointment_date; reason];
    rows ← execute conn SELECT_SCOPE_IDENTITY [];
    v ← lift (item0 (fetchone rows));
    new_id ← lift (py_int (of_int v));
    _ ← commit conn;
    (* Return created appointment *)
    rows ← execute conn SELECT_Appointment_WHERE_id [PInt new_id];
    let row := fetchone rows in
    _ ← close conn;
    r ← lift (of_option TypeError row);
    mret (jsonify (dict [("success", PBool true);
                         ("appointment", _appointment_row_to_json r)]) 201)).

(** The part of [update_appointment] that assembles [sets] and
    [params] from the body. *)
Definition update_sets (patient_id doctor_id appointment_date reason : pyval)
  : outcome (list set_clause * list pyval) :=
  let sets := [] in
  let params := [] in
  '(sets, params) ←
    (if is_not_None patient_id then
       n ← py_int patient_id;
       Ret (sets ++ [set_patient_id], params ++ [PInt n])
     else Ret (sets, params));
  '(sets, params) ←
    (if is_not_None doctor_id then
       n ← py_int doctor_id;
       Ret (sets ++ [set_doctor_id], params ++ [PInt n])
     else Ret (sets, params));
  '(sets, params) ←
    (if is_not_None appointment_date then
       Ret (sets ++ [set_appointment_date], params ++ [appointment_date])
     else Ret (sets, params));
  '(sets, params) ←
    (if is_not_None reason then
       Ret (sets ++ [set_reason], params ++ [reason])
     else Ret (sets, params));
  Ret (sets, params).

(** [PUT /appointments/<int:appointment_id>] *)
Definition update_appointment (appointment_id : Z) (data : pyval)
  : World -> response * World :=
  try_except (
    patient_id ← lift (dict_get data "patient_id");
    doctor_id ← lift (dict_get data "doctor_id");
    appointment_date ← lift (dict_get data "appointment_date");
    reason ← lift (dict_get data "reason");
    '(sets, params) ← lift (update_sets patient_id doctor_id appointment_date reason);
    match sets with
    | [] =>
        mret (jsonify (dict [("success", PBool false);
                             ("message", PStr "Nothing to update")]) 400)
    | _ =>
    conn ← get_conn;
    (* Ensure the record exists *)
    rows ← execute conn (SELECT_COUNT_WHERE_id TAppointment) [PInt appointment_id];
    n ← lift (item0 (fetchone rows));
    if (n =? 0)%Z then
      _ ← close conn;
      mret (jsonify (dict [("success", PBool false);
                           ("message", PStr "Appointment not found")]) 404)
    else
    (* Validate FK references (if changed); [k] is the rest of the handler,
       which runs when the check does not return *)
    let check_patient (k : M response) : M response :=
      if is_not_None patient_id then
        rows ← execute conn (SELECT_COUNT_WHERE_id TPatient) [patient_id];
        n ← lift (item0 (fetchone rows));
        if (n =? 0)%Z then
          _ ← close conn;
          mret (jsonify (dict [("success", PBool false);
                               ("message", PStr "Invalid patient_id")]) 400)
        else k
      else k in
    let check_doctor (k : M response) : M response :=
      if is_not_None doctor_id then
        rows ← execute conn (SELECT_COUNT_WHERE_id TDoctor) [doctor_id];
        n ← lift (item0 (fetchone rows));
        if (n =? 0)%Z then
          _ ← close conn;
          mret (jsonify (dict [("success", PBool false);
                               ("message", PStr "Invalid doctor_id")]) 400)
        else k
      else k in
    check_patient (check_doctor (
    let sql := UPDATE_Appointment sets in
    let params := params ++ [PInt appointment_id] in
    _ ← execute conn sql params;
    _ ← commit conn;
    (* Return updated record *)
    rows ← execute conn SELECT_Appointment_WHERE_id [PInt appointment_id];
    let row := fetchone rows in
    _ ← close conn;
    r ← lift (of_option TypeError row);
    mret (jsonify (dict [("success", PBool true);
                         ("appointment", _appointment_row_to_json r)]) 200)))
    end).

(** [DELETE /appointments/<int:appointment_id>] *)
Definition delete_appointment (appointment_id : Z) : World -> response * World :=
  try_except (
    conn ← get_conn;
    rows ← execute conn (SELECT_COUNT_WHERE_id TAppointment) [PInt appointment_id];
    n ← lift (item0 (fetchone rows));
    if (n =? 0)%Z then
      _ ← close conn;
      mret (jsonify (dict [("success", PBool false);
                           ("message", PStr "Appointment not found")]) 404)
    else
    _ ← execute conn DELETE_Appointment [PInt appointment_id];
    _ ← commit conn;
    _ ← close conn;
    mret (jsonify (dict [("success", PBool true);
                         ("message", PStr "Appointment deleted")]) 200)).

End Handlers.

(** The routes of [app.py] that talk to the database, with what each
    handler reads from the request. ([/__routes] only lists Flask's URL
    map, and [backend/db.py] is a stand-alone connection test that no
    handler imports.) *)
Inductive request :=
| GET_stats
| POST_login (data : pyval)
| GET_patients
| GET_doctors
| GET_appointments (args : list (string * string))
| GET_treatments (args : list (string * string))
| GET_billing (args : list (string * string))
| POST_appointments (data : pyval)
| PUT_appointments (appointment_id : Z) (data : pyval)
| DELETE_appointments (appointment_id : Z).

(** [@app.route]: the handler of a request. *)
Definition handle `{Env} (q : request) : World -> response * World :=
  match q with
  | GET_stats => get_stats
  | POST_login data => login data
  | GET_patients => get_patients
  | GET_doctors => get_doctors
  | GET_appointments args => get_appointments args
  | GET_treatments args => get_treatments args
  | GET_billing args => get_billing args
  | POST_appointments data => create_appointment data
  | PUT_appointments appointment_id data => update_appointment appointment_id data
  | DELETE_appointments appointment_id => delete_appointment appointment_id
  end.

(** ** A sample environment and database, for running the handlers *)

Module Sample.

Definition digit (c : ascii) : option nat :=
  let n := nat_of_ascii c in
  if (48 <=? n) && (n <=? 57) then Some (n - 48) else None.

(** The number a string of digits denotes. *)
Fixpoint number (acc : nat) (s : string) : option nat :=
  match s with
  | EmptyString => Some acc
  | String c s' => d ← digit c; number (10 * acc + d) s'
  end.

(** ["YYYY-MM-DD"] *)
Definition parse_date (s : string) : option date :=
  if bool_decide (String.length s = 10 /\ substring 4 1 s = "-" /\ substring 7 1 s = "-") then
    y ← number 0 (substring 0 4 s);
    m ← number 0 (substring 5 2 s);
    d ← number 0 (substring 8 2 s);
    Some {| year := y; month := m; day := d |}
  else None.

(** ["YYYY-MM-DD"] or ["YYYY-MM-DD HH:MM:SS"] *)
Definition parse_datetime (s : string) : option datetime :=
  d ← parse_date (substring 0 10 s);
  if bool_decide (String.length s = 10) then
    Some {| dt_date := d; hour := 0; minute := 0; second := 0; microsecond := 0 |}
  else if bool_decide (String.length s = 19 /\ substring 10 1 s = " "
                       /\ substring 13 1 s = ":" /\ substring 16 1 s = ":") then
    h ← number 0 (substring 11 2 s);
    mi ← number 0 (substring 14 2 s);
    sec ← number 0 (substring 17 2 s);
    Some {| dt_date := d; hour := h; minute := mi; second := sec; microsecond := 0 |}
  else None.

(** An environment in which the server reads ISO date-times and plain
    decimal integers only, and a hash is the password after ["$2b$"]. *)
#[export] Instance env : Env := {|
  int_max_str_digits := 4300;
  checkpw := fun password hash => Some (String.eqb ("$2b$" +:+ password) hash);
  to_datetime := fun v => match v with PStr s => parse_datetime s | _ => None end;
  to_varchar := fun _ => None;
  varchar_to_int := fun s => Z.of_nat <$> (if String.eqb s EmptyString then None else number 0 s);
  exn_text := fun e =>
    match e with
    | AttributeError => "AttributeError"
    | TypeError => "TypeError"
    | ValueError => "ValueError"
    | OverflowError => "OverflowError"
    | DbError => "pyodbc.Error"
    end
|}.

Definition at_ (y m d h mi : nat) : option datetime :=
  Some {| dt_date := {| year := y; month := m; day := d |};
          hour := h; minute := mi; second := 0; microsecond := 0 |}.

Definition store : Store := {|
  Patients :=
    [ {| Patient.patient_id := 1; Patient.name := Some "Alice";
         Patient.date_of_birth := Some {| year := 1990; month := 5; day := 17 |};
         Patient.gender := Some "F"; Patient.address := None;
         Patient.phone := Some "555-0101" |};
      {| Patient.patient_id := 2; Patient.name := Some "Bob";
         Patient.date_of_birth := None;
         Patient.gender := Some "M"; Patient.address := Some "12 High St";
         Patient.phone := None |} ];
  Doctors :=
    [ {| Doctor.doctor_id := 2; Doctor.name := Some "Dr. Who";
         Doctor.specialty := Some "General"; Doctor.phone := None;
         Doctor.email := Some "who@example.org" |};
      {| Doctor.doctor_id := 3; Doctor.name := Some "Dr. Grey";
         Doctor.specialty := Some "Surgery"; Doctor.phone := None;
         Doctor.email := None |} ];
  Appointments :=
    [ {| Appointment.appointment_id := 1; Appointment.patient_id := 1;
         Appointment.doctor_id := 2;
         Appointment.appointment_date := at_ 2025 1 10 9 0;
         Appointment.reason := Some "Check-up" |};
      {| Appointment.appointment_id := 2; Appointment.patient_id := 2;
         Appointment.doctor_id := 2;
         Appointment.appointment_date := at_ 2025 3 5 14 30;
         Appointment.reason := Some "Flu" |};
      {| Appointment.appointment_id := 3; Appointment.patient_id := 1;
         Appointment.doctor_id := 3;
         Appointment.appointment_date := at_ 2025 3 5 14 30;
         Appointment.reason := None |} ];
  Treatments :=
    [ {| Treatment.treatment_id := 1; Treatment.appointment_id := 1;
         Treatment.diagnosis := Some "Healthy"; Treatment.prescription := None;
         Treatment.notes := None |};
      {| Treatment.treatment_id := 2; Treatment.appointment_id := 2;
         Treatment.diagnosis := Some "Influenza"; Treatment.prescription := Some "Rest";
         Treatment.notes := None |} ];
  Billings :=
    [ {| Billing.bill_id := 1; Billing.patient_id := 1; Billing.treatment_id := Some 1%Z;
         Billing.amount := Some {| unscaled := 1250; scale := 2 |};
         Billing.payment_status := Some "Paid";
         Billing.billing_date := Some {| year := 2025; month := 1; day := 11 |} |};
      {| Billing.bill_id := 2; Billing.patient_id := 2; Billing.treatment_id := None;
         Billing.amount := None;
         Billing.payment_status := Some "Pending";
         Billing.billing_date := Some {| year := 2025; month := 3; day := 6 |} |} ];
  AppUsers :=
    [ {| AppUser.username := "admin"; AppUser.password_hash := "$2b$s3cret";
         AppUser.full_name := Some "Site Admin"; AppUser.role := Some "admin" |} ];
  appointment_identity := 3
|}.

(** No connection is open and nothing has been sent yet. *)
Definition world : World :=
  {| db := store; conns := ∅; log := [] |}.

End Sample.

(** ** The bodies of the responses that report a failure *)

Definition not_found : pyval :=
  dict [("success", PBool false); ("message", PStr "Appointment not found")].

Definition nothing_to_update : pyval :=
  dict [("success", PBool false); ("message", PStr "Nothing to update")].

Definition invalid_patient_id : pyval :=
  dict [("success", PBool false); ("message", PStr "Invalid patient_id")].

Definition invalid_doctor_id : pyval :=
  dict [("success", PBool false); ("message", PStr "Invalid doctor_id")].

Definition user_not_found : pyval :=
  dict [("success", PBool false); ("message", PStr "User not found")].

Definition invalid_password : pyval :=
  dict [("success", PBool false); ("message", PStr "Invalid password")].

(** The body the [except] clause answers with. *)
Definition server_error `{Env} (e : exn) : pyval :=
  dict [("success", PBool false); ("message", PStr ("Server Error: " +:+ exn_text e))].

(** What [PUT /appointments/{id}] may do to a stored record, given the
    four fields of its body: the id stays; a field whose body value is
    [None] stays; the date and the reason do not become NULL. *)
Definition modifies_only (patient_id doctor_id appointment_date reason : pyval)
    (a a' : Appointment.row) : Prop :=
  Appointment.appointment_id a' = Appointment.appointment_id a /\
  (patient_id = PNone -> Appointment.patient_id a' = Appointment.patient_id a) /\
  (doctor_id = PNone -> Appointment.doctor_id a' = Appointment.doctor_id a) /\
  (appointment_date = PNone ->
     Appointment.appointment_date a' = Appointment.appointment_date a) /\
  (reason = PNone -> Appointment.reason a' = Appointment.reason a) /\
  (Appointment.appointment_date a' = None -> Appointment.appointment_date a = None) /\
  (Appointment.reason a' = None -> Appointment.reason a = None).

(** The body of a POST /appointments is an object whose [patient_id] and
    [doctor_id] both pass [int()]. *)
Definition ids_are_ints `{Env} (data : pyval) : Prop :=
  exists m p d, data = PDict m /\ py_int (field m "patient_id") = Ret p /\
                py_int (field m "doctor_id") = Ret d.

(** [d[key]] on a JSON object of a response *)
Definition getitem (d : pyval) (key : string) : option pyval :=
  match d with PDict m => m !! key | _ => None end.

(** The body of a successful login for the stored row [u]. *)
Definition login_successful (u : AppUser.row) : pyval :=
  dict [("success", PBool true);
        ("message", PStr "Login successful");
        ("user", dict [("username", PStr (AppUser.username u));
                       ("full_name", of_str (AppUser.full_name u));
                       ("role", of_str (AppUser.role u))])].

(** Filter [key] of the query string is supplied, not empty, and [int()]
    rejects its value. *)
Definition non_numeric `{Env} (args : list (string * string)) (key : string) : Prop :=
  py_bool (args_get args key) = true /\ exists e, py_int (args_get args key) = Raise e.

(** ** What the list endpoints are asked for

    A filter of the query string is either not supplied (absent or
    empty), or supplied with a value that is valid for its type. *)

(** An integer filter: not supplied ([None]) or a literal of [n]. *)
Definition int_filter `{Env} (args : list (string * string)) (key : string)
    (v : option Z) : Prop :=
  match v with
  | None => py_bool (args_get args key) = false
  | Some n => py_bool (args_get args key) = true /\ py_int (args_get args key) = Ret n
  end.







(** A supplied integer is one the driver can bind. *)
Definition bindable (v : option Z) : Prop :=
  match v with Some n => fits_int64 n = true | None => True end.

(** ** The rows and the orders of the list endpoints, in the words of
    the specification

    Written from sections 4.2, 4.4 and 6 of the specification, not from
    the SQL of the handlers: what the handlers select is compared with
    these. *)

(** A row of the joined SELECT, from its three sources. *)
Definition view (a : Appointment.row) (p : Patient.row) (d : Doctor.row)
  : AppointmentView.row :=
  {| AppointmentView.appointment_id := Appointment.appointment_id a;
     AppointmentView.appointment_date := Appointment.appointment_date a;
     AppointmentView.reason := Appointment.reason a;
     AppointmentView.patient_id := Patient.patient_id p;
     AppointmentView.patient_name := Patient.name p;
     AppointmentView.doctor_id := Doctor.doctor_id d;
     AppointmentView.doctor_name := Doctor.name d |}.


Module Spec.



(** Dates and date-times are compared component by component, the year
    first. *)
Inductive lex_lt : list nat -> list nat -> Prop :=
| lex_lt_here a b l l' : a < b -> lex_lt (a :: l) (b :: l')
| lex_lt_next a l l' : lex_lt l l' -> lex_lt (a :: l) (a :: l').

Definition date_key (d : date) : list nat := [year d; month d; day d].


(** [a] is earlier than [b]; no date at all counts as earlier than any
    date. *)
Definition earlier {A} (key : A -> list nat) (a b : option A) : Prop :=
  match a, b with
  | None, Some _ => True
  | Some x, Some y => lex_lt (key x) (key y)
  | _, None => False
  end.



(** "Billing by billing_date descending then id descending" *)
Definition billing_order (r1 r2 : BillingView.row) : Prop :=
  earlier date_key (BillingView.billing_date r2) (BillingView.billing_date r1) \/
  (BillingView.billing_date r1 = BillingView.billing_date r2 /\
   (BillingView.bill_id r2 <= BillingView.bill_id r1)%Z).

End Spec.

(** ** Notions the proofs use *)

(** The world in which connection [conn] is open on top of [w]. *)
Definition opened (w : World) (conn : nat) (c : Conn) (l : list verb) (d : Store) : World :=
  {| db := d; conns := <[conn := c]> (conns w); log := l |}.

(** [int(v)] when it succeeds (0 stands in where it raises). *)
Definition int_or_zero `{Env} (v : pyval) : Z :=
  match py_int v with Ret n => n | Raise _ => 0%Z end.

(** The table after [UPDATE ... WHERE appointment_id = id] has applied [f]. *)
Definition updated_rows (f : Appointment.row -> Appointment.row) (id : Z) (s : Store) : Store :=
  set_Appointments s
    (map (fun a : Appointment.row => if (Appointment.appointment_id a =? id)%Z then f a else a)
       (Appointments s))
    (appointment_identity s).


(** ** Notions of the further properties *)

(** The requests whose handlers only read. *)
Definition read_only (q : request) : bool :=
  match q with
  | POST_appointments _ | PUT_appointments _ _ | DELETE_appointments _ => false
  | _ => true
  end.

(** The status codes the handler of a request returns with. *)
Definition statuses (q : request) : list nat :=
  match q with
  | POST_login _ => [200; 401; 500]
  | POST_appointments _ => [201; 400; 500]
  | PUT_appointments _ _ => [200; 400; 404; 500]
  | DELETE_appointments _ => [200; 404; 500]
  | _ => [200; 500]
  end.

(** The record a successful INSERT adds to the store [s]: the next
    identity value and the four values bound. *)
Definition inserted (s : Store) (patient_id doctor_id : Z)
    (appointment_date : option datetime) (reason : option string) : Appointment.row :=
  {| Appointment.appointment_id := (appointment_identity s + 1)%Z;
     Appointment.patient_id := patient_id;
     Appointment.doctor_id := doctor_id;
     Appointment.appointment_date := appointment_date;
     Appointment.reason := reason |}.

(** The store after the record [a] was added. *)
Definition with_inserted (s : Store) (a : Appointment.row) : Store :=
  set_Appointments s (Appointments s ++ [a]) (appointment_identity s + 1)%Z.

(** The store after the appointments with the given id were deleted. *)
Definition without_id (id : Z) (s : Store) : Store :=
  set_Appointments s
    (List.filter (fun a => negb (Appointment.appointment_id a =? id)%Z) (Appointments s))
    (appointment_identity s).

Definition deleted : pyval :=
  dict [("success", PBool true); ("message", PStr "Appointment deleted")].

(** The body of a successful creation or update: the record read back. *)
Definition written (r : AppointmentView.row) : pyval :=
  dict [("success", PBool true); ("appointment", _appointment_row_to_json r)].

(** The appointment ids are distinct and none is above the identity
    counter. *)
Definition ids_ok (s : Store) : Prop :=
  NoDup (map Appointment.appointment_id (Appointments s)) /\
  Forall (fun a => Appointment.appointment_id a <= appointment_identity s)%Z
    (Appointments s).

(** Every appointment references a patient and a doctor that exist. *)
Definition references_ok (s : Store) : Prop :=
  Forall (fun a =>
            In (Appointment.patient_id a) (map Patient.patient_id (Patients s)) /\
            In (Appointment.doctor_id a) (map Doctor.doctor_id (Doctors s)))
    (Appointments s).

(** [int()] and the server read the text [v] as the same integer, where
    both read it at all; a value that is no text is read by one rule. *)
Definition read_alike `{Env} (v : pyval) : Prop :=
  match v with
  | PStr s =>
      match py_int v, varchar_to_int s with
      | Ret n, Some n' => n = n'
      | _, _ => True
      end
  | _ => True
  end.

(** The ids an update request supplies as text are read alike. *)
Definition ids_read_alike `{Env} (q : request) : Prop :=
  match q with
  | PUT_appointments _ (PDict m) =>
      read_alike (field m "patient_id") /\ read_alike (field m "doctor_id")
  | _ => True
  end.

(** What a successful update has made of a record, given the four fields
    of the body: each supplied field holds the value bound for it. *)
Definition holds_supplied `{Env} (patient_id doctor_id appointment_date reason : pyval)
    (a' : Appointment.row) : Prop :=
  (patient_id <> PNone -> py_int patient_id = Ret (Appointment.patient_id a')) /\
  (doctor_id <> PNone -> py_int doctor_id = Ret (Appointment.doctor_id a')) /\
  (appointment_date <> PNone ->
     bind_datetime appointment_date = Ret (Appointment.appointment_date a')) /\
  (reason <> PNone -> bind_varchar reason = Ret (Appointment.reason a')).

(** * Properties *)

(** ** Connections: how the primitives act on an open connection *)

Section ConnectionLemmas.
Context `{Env}.

Lemma get_conn_opened w :
  get_conn w =
    (Ret (fresh (dom (conns w))),
     opened w (fresh (dom (conns w))) {| txn := db w; scope_identity := None |} (log w) (db w)).
Proof. reflexivity. Qed.

Lemma execute_opened {A} (sql : stmt A) params w conn c l d :
  execute conn sql params (opened w conn c l d) =
    match exec sql params c with
    | Ret (rows, c') => (Ret rows, opened w conn c' (l ++ [stmt_verb sql]) d)
    | Raise e => (Raise e, opened w conn c (l ++ [stmt_verb sql]) d)
    end.
Proof.
  unfold execute, opened; simpl. rewrite lookup_insert_eq.
  destruct (exec sql params c) as [[rows c']|e]; [|reflexivity].
  by rewrite insert_insert_eq.
Qed.

Lemma commit_opened w conn c l d :
  commit conn (opened w conn c l d) = (Ret tt, opened w conn c l (txn c)).
Proof. unfold commit, opened; simpl. by rewrite lookup_insert_eq. Qed.

Lemma close_opened w conn c l d :
  conn = fresh (dom (conns w)) ->
  close conn (opened w conn c l d) = (Ret tt, {| db := d; conns := conns w; log := l |}).
Proof.
  intros ->. unfold close, opened; simpl. rewrite lookup_insert_eq.
  rewrite delete_insert_eq, delete_id; [reflexivity|].
  apply not_elem_of_dom, is_fresh.
Qed.

(** A connection left open is there to see. *)
Lemma opened_not_released w conn c l d :
  conn = fresh (dom (conns w)) -> conns (opened w conn c l d) <> conns w.
Proof.
  intros F E. simpl in E.
  assert (N : conns w !! conn = None)
    by (subst conn; apply not_elem_of_dom, is_fresh).
  rewrite <- E, lookup_insert_eq in N. discriminate.
Qed.

(** *** What each statement of the handlers computes *)

Lemma exec_SELECT_COUNT t c :
  exec (SELECT_COUNT t) [] c = Ret ([table_size t (txn c)], c).
Proof. reflexivity. Qed.

Lemma exec_SELECT_AppUser v c :
  exec SELECT_AppUser [v] c =
    p ← where_varchar_eq v;
    Ret (List.filter (fun u => p (Some (AppUser.username u))) (AppUsers (txn c)), c).
Proof. reflexivity. Qed.

Lemma exec_SELECT_Patient c :
  exec SELECT_Patient [] c = Ret (order_by patient_order (Patients (txn c)), c).
Proof. reflexivity. Qed.

Lemma exec_SELECT_Doctor c :
  exec SELECT_Doctor [] c = Ret (order_by doctor_order (Doctors (txn c)), c).
Proof. reflexivity. Qed.

Lemma exec_SELECT_Appointment where_ params c :
  exec (SELECT_Appointment where_) params c =
    p ← bind_where appt_clause_test where_ params;
    Ret (order_by appointment_order (List.filter p (appointment_join (txn c))), c).
Proof. reflexivity. Qed.

Lemma exec_SELECT_Treatment where_ params c :
  exec (SELECT_Treatment where_) params c =
    p ← bind_where treat_clause_test (option_list where_) params;
    Ret (order_by treatment_order (List.filter p (Treatments (txn c))), c).
Proof. reflexivity. Qed.

Lemma exec_SELECT_Billing where_ params c :
  exec (SELECT_Billing where_) params c =
    p ← bind_where bill_clause_test where_ params;
    Ret (order_by billing_order (List.filter p (billing_join (txn c))), c).
Proof. reflexivity. Qed.

Lemma exec_SELECT_COUNT_WHERE_id t v c :
  exec (SELECT_COUNT_WHERE_id t) [v] c = n ← count_where_id t v (txn c); Ret ([n], c).
Proof. reflexivity. Qed.

Lemma exec_SELECT_SCOPE_IDENTITY c :
  exec SELECT_SCOPE_IDENTITY [] c = Ret ([scope_identity c], c).
Proof. reflexivity. Qed.

Lemma exec_SELECT_Appointment_WHERE_id n c :
  exec SELECT_Appointment_WHERE_id [PInt n] c =
    n ← bind_pyint n;
    Ret (List.filter (fun r => AppointmentView.appointment_id r =? n)%Z
           (appointment_join (txn c)), c).
Proof. simpl. by destruct (bind_pyint n). Qed.

Lemma exec_DELETE_Appointment n c :
  exec DELETE_Appointment [PInt n] c =
    n ← bind_pyint n;
    Ret ([], {| txn := set_Appointments (txn c)
                         (List.filter (fun a => negb (Appointment.appointment_id a =? n)%Z)
                            (Appointments (txn c)))
                         (appointment_identity (txn c));
                scope_identity := scope_identity c |}).
Proof. simpl. by destruct (bind_pyint n). Qed.

Lemma field_unfold (m : gmap string pyval) k : field m k = default PNone (m !! k).
Proof. reflexivity. Qed.

End ConnectionLemmas.

Create Rewrite HintDb exec_eq.
#[global] Hint Rewrite @exec_SELECT_COUNT @exec_SELECT_AppUser @exec_SELECT_Patient
  @exec_SELECT_Doctor @exec_SELECT_Appointment @exec_SELECT_Treatment
  @exec_SELECT_Billing @exec_SELECT_COUNT_WHERE_id @exec_SELECT_SCOPE_IDENTITY
  @exec_SELECT_Appointment_WHERE_id @exec_DELETE_Appointment : exec_eq.

(** ** Integers the driver binds, and those it does not *)

Lemma fits_int64_spec n : fits_int64 n = true <-> (- 2 ^ 63 <= n < 2 ^ 63)%Z.
Proof. unfold fits_int64. rewrite andb_true_iff, Z.leb_le, Z.ltb_lt. tauto. Qed.

Lemma bind_pyint_fits n : fits_int64 n = true -> bind_pyint n = Ret n.
Proof. unfold bind_pyint. by intros ->. Qed.

Lemma bind_pyint_Ret n z : bind_pyint n = Ret z -> z = n.
Proof. unfold bind_pyint. destruct (fits_int64 n); intros E; by inversion E. Qed.

Lemma bind_pyint_overflow n : fits_int64 n = false -> bind_pyint n = Raise OverflowError.
Proof. unfold bind_pyint. by intros ->. Qed.

(** ** Counting the rows with a given key *)

Lemma filter_key_absent (ids : list Z) (n : Z) :
  ~ In n ids -> List.filter (fun c => c =? n)%Z ids = [].
Proof.
  induction ids as [|i ids IH]; simpl; [reflexivity|].
  intros N. destruct (Z.eqb_spec i n) as [->|_].
  - exfalso. apply N. by left.
  - apply IH. intros I. apply N. by right.
Qed.

Lemma filter_key_present (ids : list Z) (n : Z) :
  In n ids -> List.filter (fun c => c =? n)%Z ids <> [].
Proof.
  induction ids as [|i ids IH]; simpl; [tauto|].
  intros [->|I].
  - by rewrite Z.eqb_refl.
  - destruct (i =? n)%Z; [discriminate|by apply IH].
Qed.

Lemma count_zero_iff {A} (l : list A) : (Z.of_nat (length l) =? 0)%Z = true <-> l = [].
Proof.
  destruct l; simpl; split; intros E; try reflexivity; discriminate.
Qed.

Lemma count_where_absent `{Env} t n s :
  fits_int64 n = true ->
  ~ In n (table_ids t s) -> count_where_id t (PInt n) s = Ret 0%Z.
Proof.
  intros F N. unfold count_where_id; simpl. rewrite (bind_pyint_fits _ F). simpl.
  by rewrite (filter_key_absent _ _ N).
Qed.

Lemma count_where_present `{Env} t n s :
  fits_int64 n = true ->
  In n (table_ids t s) ->
  exists k, count_where_id t (PInt n) s = Ret k /\ (k =? 0)%Z = false.
Proof.
  intros F I. unfold count_where_id; simpl. rewrite (bind_pyint_fits _ F). simpl.
  eexists; split; [reflexivity|].
  apply not_true_is_false. rewrite count_zero_iff. by apply filter_key_present.
Qed.

Lemma count_where_int `{Env} t n s :
  fits_int64 n = true -> exists k, count_where_id t (PInt n) s = Ret k.
Proof.
  intros F. unfold count_where_id; simpl. rewrite (bind_pyint_fits _ F). by eexists.
Qed.

(** An integer out of range is refused before the statement is sent. *)
Lemma count_where_overflow `{Env} t n s :
  fits_int64 n = false -> count_where_id t (PInt n) s = Raise OverflowError.
Proof.
  intros F. unfold count_where_id; simpl. by rewrite (bind_pyint_overflow _ F).
Qed.

#[global] Opaque get_conn execute commit close opened exec field count_where_id py_int.
#[global] Opaque fits_int64 bind_pyint.
#[global] Arguments dict : simpl never.

(** Steps through the binds of a handler body. *)
Ltac run :=
  repeat first
    [ progress (unfold try_except, lift; simpl)
    | progress (unfold mbind, M_bind, mret, M_ret; simpl)
    | rewrite get_conn_opened
    | rewrite execute_opened
    | rewrite commit_opened
    | rewrite close_opened by reflexivity
    | rewrite bind_pyint_fits by assumption
    | progress (autorewrite with exec_eq) ].

(** ** Writing appointments: create, update, delete *)

Section AppointmentWrites.
Context `{Env}.

(** *** The SET list of an update *)

(** When no [int()] raises, [sets] and [params] hold one entry per field
    that is not [None], in the order patient, doctor, date, reason. *)
Lemma update_sets_shape v1 v2 v3 v4 sets params :
  update_sets v1 v2 v3 v4 = Ret (sets, params) ->
    sets = (if is_not_None v1 then [set_patient_id] else []) ++
           (if is_not_None v2 then [set_doctor_id] else []) ++
           (if is_not_None v3 then [set_appointment_date] else []) ++
           (if is_not_None v4 then [set_reason] else []) /\
    params = (if is_not_None v1 then [PInt (int_or_zero v1)] else []) ++
             (if is_not_None v2 then [PInt (int_or_zero v2)] else []) ++
             (if is_not_None v3 then [v3] else []) ++
             (if is_not_None v4 then [v4] else []).
Proof.
  unfold update_sets, int_or_zero.
  destruct (is_not_None v1), (is_not_None v2), (is_not_None v3), (is_not_None v4);
    simpl;
    repeat match goal with
           | |- context [py_int ?v] => destruct (py_int v); simpl
           end;
    intros E; inversion E; subst; clear E; done.
Qed.


Lemma update_sets_None : update_sets PNone PNone PNone PNone = Ret ([], []).
Proof. reflexivity. Qed.

Lemma bind_datetime_not_None v t : v <> PNone -> bind_datetime v = Ret t -> t <> None.
Proof.
  unfold bind_datetime. destruct v; try done; simpl;
    destruct (to_datetime _); simpl; intros _ E; inversion E; done.
Qed.

Lemma bind_varchar_not_None v t : v <> PNone -> bind_varchar v = Ret t -> t <> None.
Proof.
  unfold bind_varchar. destruct v; try done; simpl;
    try (destruct (to_varchar _); simpl); intros _ E; inversion E; done.
Qed.

Lemma modifies_only_refl v1 v2 v3 v4 a : modifies_only v1 v2 v3 v4 a a.
Proof. unfold modifies_only; tauto. Qed.

(** When [sets] was assembled, the ids that were supplied passed
    [int()]. *)
Lemma update_sets_ints v1 v2 v3 v4 sets params :
  update_sets v1 v2 v3 v4 = Ret (sets, params) ->
  (is_not_None v1 = true -> py_int v1 = Ret (int_or_zero v1)) /\
  (is_not_None v2 = true -> py_int v2 = Ret (int_or_zero v2)).
Proof.
  unfold update_sets, int_or_zero.
  destruct (is_not_None v1), (is_not_None v2); simpl;
    repeat match goal with
           | |- context [py_int ?v] => destruct (py_int v); simpl
           end;
    intros E; try discriminate E; split; intros; done.
Qed.

(** Reduces the binding of a SET list to the binding of its parameters. *)
Ltac bind_params :=
  cbn [app bind_sets set_clause_bind bind_int where_int_eq mbind outcome_bind fst snd].

#[local] Transparent exec.

(** The UPDATE the handler sends either is refused or gives the rows
    with the given id the values bound for the supplied fields, and
    leaves their other fields. *)
Lemma exec_update_sets_holds v1 v2 v3 v4 sets params id c :
  update_sets v1 v2 v3 v4 = Ret (sets, params) -> sets <> [] ->
  (exists e, exec (UPDATE_Appointment sets) (params ++ [PInt id]) c = Raise e) \/
  (exists f, (forall a, modifies_only v1 v2 v3 v4 a (f a) /\ holds_supplied v1 v2 v3 v4 (f a)) /\
     exec (UPDATE_Appointment sets) (params ++ [PInt id]) c =
       Ret ([], {| txn := updated_rows f id (txn c); scope_identity := scope_identity c |})).
Proof.
  intros E NE. destruct (update_sets_ints _ _ _ _ _ _ E) as (I1 & I2).
  destruct (update_sets_shape _ _ _ _ _ _ E) as (-> & ->).
  clear E. unfold exec.
  destruct (is_not_None v1) eqn:N1, (is_not_None v2) eqn:N2,
           (is_not_None v3) eqn:N3, (is_not_None v4) eqn:N4; try done;
    match goal with
    | |- context [bool_decide ?P] =>
        replace (bool_decide P) with true by (symmetry; vm_compute; reflexivity)
    end.
  all: bind_params.
  all: repeat match goal with
       | |- context [bind_pyint ?n] =>
           let B := fresh "B" in
           destruct (bind_pyint n) eqn:B; bind_params;
           [apply bind_pyint_Ret in B; subst|by left; eexists]
       | |- context [bind_datetime ?v] =>
           let B := fresh "B" in let B' := fresh "B" in
           destruct (bind_datetime v) eqn:B; bind_params;
           [pose proof B as B'; apply bind_datetime_not_None in B'; [|by destruct v]
           |by left; eexists]
       | |- context [bind_varchar ?v] =>
           let B := fresh "B" in let B' := fresh "B" in
           destruct (bind_varchar v) eqn:B; bind_params;
           [pose proof B as B'; apply bind_varchar_not_None in B'; [|by destruct v]
           |by left; eexists]
       end.
  all: right; eexists; split; [|reflexivity].
  all: intros ?; unfold modifies_only, holds_supplied; cbn.
  all: repeat match goal with
       | N : is_not_None ?v = false |- _ => destruct v; try discriminate N; clear N
       end.
  all: repeat split; try done; try (intros; congruence).
  all: try (intros ->; discriminate).
  all: intros; auto.
Qed.

#[local] Opaque exec.

(** The UPDATE the handler sends either is refused or rewrites the rows
    with the given id, touching only the fields that were supplied. *)
Lemma exec_update_sets v1 v2 v3 v4 sets params id c :
  update_sets v1 v2 v3 v4 = Ret (sets, params) -> sets <> [] ->
  (exists e, exec (UPDATE_Appointment sets) (params ++ [PInt id]) c = Raise e) \/
  (exists f, (forall a, modifies_only v1 v2 v3 v4 a (f a)) /\
     exec (UPDATE_Appointment sets) (params ++ [PInt id]) c =
       Ret ([], {| txn := updated_rows f id (txn c); scope_identity := scope_identity c |})).
Proof.
  intros E NE.
  destruct (exec_update_sets_holds _ _ _ _ _ _ id c E NE) as [R|(f & F & X)]; [by left|].
  right. exists f. split; [|done]. intros a. apply F.
Qed.

(** *** PUT /appointments/{id}, path by path *)

Lemma update_no_fields (w : World) (appointment_id : Z) (m : gmap string pyval) :
  field m "patient_id" = PNone -> field m "doctor_id" = PNone ->
  field m "appointment_date" = PNone -> field m "reason" = PNone ->
  update_appointment appointment_id (PDict m) w = (jsonify nothing_to_update 400, w).
Proof.
  intros E1 E2 E3 E4. unfold update_appointment. run.
  rewrite E1, E2, E3, E4, update_sets_None. reflexivity.
Qed.





(** Whatever path an update takes, the committed database afterwards is
    the one before, or the one before with the supplied fields of the
    rows with that id rewritten. *)
Lemma update_db w id m :
  let w' := snd (update_appointment id (PDict m) w) in
  db w' = db w \/
  exists f,
    (forall a, modifies_only (field m "patient_id") (field m "doctor_id")
                 (field m "appointment_date") (field m "reason") a (f a)) /\
    db w' = updated_rows f id (db w).
Proof.
  unfold update_appointment. run.
  destruct (update_sets _ _ _ _) as [[sets params]|e] eqn:E; run; [|by left].
  destruct sets as [|c sets]; [by left|].
  assert (NE : c :: sets <> []) by done. run.
  destruct (fits_int64 id) eqn:Fi.
  2:{ rewrite (count_where_overflow TAppointment _ _ Fi). run. by left. }
  destruct (count_where_int TAppointment id (db w) Fi) as (k & ->). run.
  destruct (k =? 0)%Z; run; [by left|].
  destruct (is_not_None (field m "patient_id")); run.
  - destruct (count_where_id TPatient _ _) as [k1|e1]; run; [|by left].
    destruct (k1 =? 0)%Z; run; [by left|].
    destruct (is_not_None (field m "doctor_id")); run.
    + destruct (count_where_id TDoctor _ _) as [k2|e2]; run; [|by left].
      destruct (k2 =? 0)%Z; run; [by left|].
      destruct (exec_update_sets _ _ _ _ _ _ id {| txn := db w; scope_identity := None |} E NE)
        as [(e & ->)|(f & F & ->)]; run; [by left|].
      right. exists f. split; [done|].
      by destruct (fetchone _).
    + destruct (exec_update_sets _ _ _ _ _ _ id {| txn := db w; scope_identity := None |} E NE)
        as [(e & ->)|(f & F & ->)]; run; [by left|].
      right. exists f. split; [done|].
      by destruct (fetchone _).
  - destruct (is_not_None (field m "doctor_id")); run.
    + destruct (count_where_id TDoctor _ _) as [k2|e2]; run; [|by left].
      destruct (k2 =? 0)%Z; run; [by left|].
      destruct (exec_update_sets _ _ _ _ _ _ id {| txn := db w; scope_identity := None |} E NE)
        as [(e & ->)|(f & F & ->)]; run; [by left|].
      right. exists f. split; [done|].
      by destruct (fetchone _).
    + destruct (exec_update_sets _ _ _ _ _ _ id {| txn := db w; scope_identity := None |} E NE)
        as [(e & ->)|(f & F & ->)]; run; [by left|].
      right. exists f. split; [done|].
      by destruct (fetchone _).
Qed.


(** *** POST /appointments, path by path *)

Lemma create_raises_early data w :
  ~ ids_are_ints data ->
  exists e, create_appointment data w = (jsonify (server_error e) 500, w).
Proof.
  intros N. unfold create_appointment. run.
  destruct data; simpl; try (eexists; reflexivity).
  destruct (py_int (field m "patient_id")) as [p|e] eqn:E1; simpl; [|eexists; reflexivity].
  destruct (py_int (field m "doctor_id")) as [d|e] eqn:E2; simpl; [|eexists; reflexivity].
  exfalso. apply N. by exists m, p, d.
Qed.

Lemma create_invalid_patient w m patient_id doctor_id :
  py_int (field m "patient_id") = Ret patient_id ->
  py_int (field m "doctor_id") = Ret doctor_id ->
  fits_int64 patient_id = true ->
  ~ In patient_id (map Patient.patient_id (Patients (db w))) ->
  create_appointment (PDict m) w =
    (jsonify invalid_patient_id 400,
     {| db := db w; conns := conns w; log := log w ++ [SELECT] |}).
Proof.
  intros E1 E2 F N. unfold create_appointment. run.
  rewrite E1. run. rewrite E2. run.
  rewrite (count_where_absent TPatient _ _ F N). run. reflexivity.
Qed.

(** A [patient_id] the driver cannot bind: the first SELECT raises, and
    the [except] clause answers with the connection still open. *)
Lemma create_patient_overflow w m patient_id doctor_id :
  py_int (field m "patient_id") = Ret patient_id ->
  py_int (field m "doctor_id") = Ret doctor_id ->
  fits_int64 patient_id = false ->
  create_appointment (PDict m) w =
    (jsonify (server_error OverflowError) 500,
     opened w (fresh (dom (conns w))) {| txn := db w; scope_identity := None |}
       (log w ++ [SELECT]) (db w)).
Proof.
  intros E1 E2 F. unfold create_appointment. run.
  rewrite E1. run. rewrite E2. run.
  rewrite (count_where_overflow TPatient _ _ F). run. reflexivity.
Qed.

Lemma create_invalid_doctor w m patient_id doctor_id :
  py_int (field m "patient_id") = Ret patient_id ->
  py_int (field m "doctor_id") = Ret doctor_id ->
  fits_int64 patient_id = true -> fits_int64 doctor_id = true ->
  In patient_id (map Patient.patient_id (Patients (db w))) ->
  ~ In doctor_id (map Doctor.doctor_id (Doctors (db w))) ->
  create_appointment (PDict m) w =
    (jsonify invalid_doctor_id 400,
     {| db := db w; conns := conns w; log := log w ++ [SELECT; SELECT] |}).
Proof.
  intros E1 E2 F1 F2 I N. unfold create_appointment. run.
  rewrite E1. run. rewrite E2. run.
  destruct (count_where_present TPatient _ _ F1 I) as (k & -> & K). run.
  rewrite K. run.
  rewrite (count_where_absent TDoctor _ _ F2 N). run.
  rewrite <- app_assoc. reflexivity.
Qed.

(** *** The claims *)

(** C2 (amended). POST /appointments with a [patient_id] that references
    no Patient row never writes: the committed database is unchanged and
    no INSERT is among the statements sent. The answer is 400 "Invalid
    patient_id", with one SELECT sent and the connection closed, when the
    body is an object whose [patient_id] and [doctor_id] both pass
    [int()] and whose [patient_id] is an integer the driver binds. When
    the driver does not bind it, the SELECT raises [OverflowError] and
    the answer is the 500 of the [except] clause, the connection still
    open. When the body is no such object, the answer is that 500
    before anything was opened. *)
Theorem create_unknown_patient (w : World) (data : pyval) :
  (forall m p, data = PDict m -> py_int (field m "patient_id") = Ret p ->
               ~ In p (map Patient.patient_id (Patients (db w)))) ->
  db (snd (create_appointment data w)) = db w /\
  (exists sent, log (snd (create_appointment data w)) = log w ++ sent /\
                ~ In INSERT sent) /\
  (forall m p d,
     data = PDict m ->
     py_int (field m "patient_id") = Ret p -> py_int (field m "doctor_id") = Ret d ->
     (fits_int64 p = true ->
      create_appointment data w =
        (jsonify invalid_patient_id 400,
         {| db := db w; conns := conns w; log := log w ++ [SELECT] |})) /\
     (fits_int64 p = false ->
      fst (create_appointment data w) = jsonify (server_error OverflowError) 500 /\
      conns (snd (create_appointment data w)) <> conns w /\
      log (snd (create_appointment data w)) = log w ++ [SELECT])) /\
  (~ ids_are_ints data ->
     exists e, create_appointment data w = (jsonify (server_error e) 500, w)).
Proof.
  intros N.
  assert (B : ~ ids_are_ints data ->
     exists e, create_appointment data w = (jsonify (server_error e) 500, w))
    by apply create_raises_early.
  assert (D : ids_are_ints data \/ ~ ids_are_ints data).
  { destruct data; try (right; intros (? & ? & ? & ? & _); discriminate).
    destruct (py_int (field m "patient_id")) as [p|e] eqn:E1.
    - destruct (py_int (field m "doctor_id")) as [d|e] eqn:E2.
      + left. by exists m, p, d.
      + right. intros (? & ? & ? & [= <-] & _ & ?). congruence.
    - right. intros (? & ? & ? & [= <-] & ? & _). congruence. }
  assert (A : forall m p d,
     data = PDict m ->
     py_int (field m "patient_id") = Ret p -> py_int (field m "doctor_id") = Ret d ->
     (fits_int64 p = true ->
      create_appointment data w =
        (jsonify invalid_patient_id 400,
         {| db := db w; conns := conns w; log := log w ++ [SELECT] |})) /\
     (fits_int64 p = false ->
      create_appointment data w =
        (jsonify (server_error OverflowError) 500,
         opened w (fresh (dom (conns w))) {| txn := db w; scope_identity := None |}
           (log w ++ [SELECT]) (db w)))).
  { intros m p d -> E1 E2. split; intros F.
    - apply (create_invalid_patient w m p d E1 E2 F). by apply (N m).
    - by apply (create_patient_overflow w m p d). }
  split; [|split; [|split]]; try done.
  - destruct D as [(m & p & d & -> & E1 & E2)|D].
    + destruct (A m p d eq_refl E1 E2) as (A1 & A2).
      destruct (fits_int64 p); [by rewrite A1|by rewrite A2].
    + destruct (B D) as (e & ->). done.
  - destruct D as [(m & p & d & -> & E1 & E2)|D].
    + destruct (A m p d eq_refl E1 E2) as (A1 & A2).
      exists [SELECT]. destruct (fits_int64 p); [rewrite A1|rewrite A2]; try done;
        (split; [done|]); simpl; intuition discriminate.
    + destruct (B D) as (e & ->). exists []. split; [by rewrite app_nil_r|]. simpl. tauto.
  - intros m p d E E1 E2. destruct (A m p d E E1 E2) as (A1 & A2).
    split; [done|]. intros F. rewrite (A2 F). simpl. split; [done|]. split; [|done].
    by apply opened_not_released.
Qed.

(** C3 (amended). PUT /appointments/{id} with none of [patient_id],
    [doctor_id], [appointment_date], [reason] supplied never touches
    the store: the world is the one before, no connection was opened,
    no statement sent, no record changed. When the body is an object
    (each field absent or null) the answer is 400 "Nothing to update";
    when the body is not an object (null, a list, a string, a number)
    [data.get] raises [AttributeError] and the answer is the 500 of the
    [except] clause. *)
Theorem update_without_fields (w : World) (appointment_id : Z) (data : pyval) :
  (forall m, data = PDict m ->
     field m "patient_id" = PNone /\ field m "doctor_id" = PNone /\
     field m "appointment_date" = PNone /\ field m "reason" = PNone) ->
  snd (update_appointment appointment_id data w) = w /\
  ((exists m, data = PDict m) ->
   fst (update_appointment appointment_id data w) = jsonify nothing_to_update 400) /\
  ((forall m, data <> PDict m) ->
   fst (update_appointment appointment_id data w) =
     jsonify (server_error AttributeError) 500).
Proof.
  intros N.
  destruct data as [| | | | | |m];
    try (unfold update_appointment; run;
         split; [reflexivity|]; split; [by intros (? & ?)|reflexivity]).
  destruct (N m eq_refl) as (E1 & E2 & E3 & E4).
  rewrite (update_no_fields w appointment_id m E1 E2 E3 E4).
  split; [reflexivity|]. split; [reflexivity|]. intros D. by destruct (D m).
Qed.

(** C4 (amended). DELETE /appointments/{id} for an id that no
    appointment has never deletes: the only statement sent is the SELECT
    that counts the rows, and the database is unchanged. When the id is
    an integer the driver binds, the answer is 404 "Appointment not
    found" and the connection is closed. When it is not (the route
    accepts any number of digits), binding it raises [OverflowError]:
    the answer is the 500 of the [except] clause and the connection is
    still open. *)
Theorem delete_missing_appointment (w : World) (appointment_id : Z) :
  ~ In appointment_id (map Appointment.appointment_id (Appointments (db w))) ->
  db (snd (delete_appointment appointment_id w)) = db w /\
  log (snd (delete_appointment appointment_id w)) = log w ++ [SELECT] /\
  (fits_int64 appointment_id = true ->
   delete_appointment appointment_id w =
     (jsonify not_found 404,
      {| db := db w; conns := conns w; log := log w ++ [SELECT] |})) /\
  (fits_int64 appointment_id = false ->
   fst (delete_appointment appointment_id w) = jsonify (server_error OverflowError) 500 /\
   conns (snd (delete_appointment appointment_id w)) <> conns w).
Proof.
  intros N. unfold delete_appointment. run.
  destruct (fits_int64 appointment_id) eqn:F.
  - rewrite (count_where_absent TAppointment _ _ F N). run. done.
  - rewrite (count_where_overflow TAppointment _ _ F). run.
    split; [done|]. split; [done|]. split; [discriminate|]. intros _.
    split; [done|]. by apply opened_not_released.
Qed.


Lemma Forall2_map_r {A} (R : A -> A -> Prop) (g : A -> A) (l : list A) :
  (forall a, R a (g a)) -> Forall2 R l (map g l).
Proof. intros G. induction l; simpl; constructor; auto. Qed.

Lemma field_null_absent (m : gmap string pyval) (k k' : string) :
  field (<[k := PNone]> m) k' = field (delete k m) k'.
Proof.
  rewrite !field_unfold. destruct (decide (k = k')) as [->|N].
  - by rewrite lookup_insert_eq, lookup_delete_eq.
  - by rewrite lookup_insert_ne, lookup_delete_ne.
Qed.

(** C10. PUT /appointments/{id}: whatever the body object and whatever
    the outcome, each stored appointment afterwards stands where it stood
    and keeps its id, keeps every field whose value in the body is absent
    or null, and has no NULL date or reason that it did not have before;
    a record with another id is not changed at all. A field given as
    null is treated as an absent one: the handler does the same on both
    bodies. A body whose fields are all null is answered 400 "Nothing to
    update" and changes nothing. *)
Theorem update_modifies_only_supplied (w : World) (appointment_id : Z)
    (m : gmap string pyval) :
  Forall2
    (fun a a' =>
       modifies_only (field m "patient_id") (field m "doctor_id")
         (field m "appointment_date") (field m "reason") a a' /\
       (Appointment.appointment_id a <> appointment_id -> a' = a))
    (Appointments (db w))
    (Appointments (db (snd (update_appointment appointment_id (PDict m) w)))) /\
  (forall k,
     update_appointment appointment_id (PDict (<[k := PNone]> m)) w =
     update_appointment appointment_id (PDict (delete k m)) w) /\
  ((forall k, field m k = PNone) ->
   update_appointment appointment_id (PDict m) w = (jsonify nothing_to_update 400, w)).
Proof.
  split; [|split].
  - destruct (update_db w appointment_id m) as [->|(f & F & ->)].
    + rewrite <- (map_id (Appointments (db w))) at 2.
      apply Forall2_map_r. intros a. split; [apply modifies_only_refl|done].
    + unfold updated_rows; simpl. apply Forall2_map_r. intros a.
      destruct (Z.eqb_spec (Appointment.appointment_id a) appointment_id).
      * split; [apply F|done].
      * split; [apply modifies_only_refl|done].
  - intros k. unfold update_appointment. run. by rewrite !field_null_absent.
  - intros N. by apply update_no_fields.
Qed.

End AppointmentWrites.

(** ** Login *)

Section Login.
Context `{Env}.

Lemma fetchone_filter {A} (p : A -> bool) (l : list A) :
  fetchone (List.filter p l) = List.find p l.
Proof.
  unfold fetchone. induction l as [|a l IH]; simpl; [reflexivity|].
  destruct (p a); simpl; [reflexivity|apply IH].
Qed.

Lemma find_absent (users : list AppUser.row) (username : string) :
  ~ In username (map AppUser.username users) ->
  List.find (fun u => String.eqb (AppUser.username u) username) users = None.
Proof.
  induction users as [|u users IH]; simpl; [reflexivity|]. intros N.
  destruct (String.eqb_spec (AppUser.username u) username) as [E|_].
  - exfalso. apply N. by left.
  - apply IH. intros I. apply N. by right.
Qed.

Lemma find_never {A} (l : list A) : List.find (fun _ => false) l = None.
Proof. induction l as [|a l IH]; simpl; [reflexivity|exact IH]. Qed.

Lemma login_lookup (w : World) (m : gmap string pyval) (username : string) :
  field m "username" = PStr username ->
  login (PDict m) w =
    try_except (
      match List.find (fun u => String.eqb (AppUser.username u) username)
              (AppUsers (db w)) with
      | None => mret (jsonify user_not_found 401)
      | Some row =>
          password_bytes ← lift (encode_utf8 (field m "password"));
          ok ← lift (of_option ValueError (checkpw password_bytes (AppUser.password_hash row)));
          if ok : bool then mret (jsonify (login_successful row) 200)
          else mret (jsonify invalid_password 401)
      end)
      {| db := db w; conns := conns w; log := log w ++ [SELECT] |}.
Proof.
  intros E. unfold login. run. rewrite E. run.
  rewrite fetchone_filter.
  destruct (List.find _ _) as [row|]; reflexivity.
Qed.

(** C5 (amended). POST /login with a body object whose [username] is a
    string. No stored user has that name: 401 "User not found". A user
    has it and [bcrypt.checkpw] rejects the password: 401 "Invalid
    password". [bcrypt.checkpw] accepts it: 200, and the [user] object
    of the body has exactly the stored [username], [full_name] and
    [role]; no key of the body or of [user] carries the password hash.
    A user has it and the password is missing or is no string
    ([password.encode] raises), or the stored hash is malformed
    ([bcrypt.checkpw] raises): the 500 of the [except] clause. In every
    one of these cases one SELECT is sent and the connection is closed.
    A body that is no object is answered that 500 before anything is
    opened. A [username] that is absent or null matches no user: 401
    "User not found". A [username] that is a list or an object cannot
    be bound: the SELECT raises, and the 500 leaves the connection
    open. *)
Theorem login_outcomes (w : World) (m : gmap string pyval) (username : string) :
  field m "username" = PStr username ->
  (~ In username (map AppUser.username (AppUsers (db w))) ->
   login (PDict m) w =
     (jsonify user_not_found 401,
      {| db := db w; conns := conns w; log := log w ++ [SELECT] |})) /\
  (forall (u : AppUser.row) (password : string),
     List.find (fun u => String.eqb (AppUser.username u) username) (AppUsers (db w)) = Some u ->
     field m "password" = PStr password ->
     (checkpw password (AppUser.password_hash u) = Some false ->
      login (PDict m) w =
        (jsonify invalid_password 401,
         {| db := db w; conns := conns w; log := log w ++ [SELECT] |})) /\
     (checkpw password (AppUser.password_hash u) = Some true ->
      login (PDict m) w =
        (jsonify (login_successful u) 200,
         {| db := db w; conns := conns w; log := log w ++ [SELECT] |}) /\
      AppUser.username u = username /\
      (forall key, is_Some (getitem (login_successful u) key) ->
                   key = "success" \/ key = "message" \/ key = "user") /\
      exists user,
        getitem (login_successful u) "user" = Some user /\
        getitem user "username" = Some (PStr (AppUser.username u)) /\
        getitem user "full_name" = Some (of_str (AppUser.full_name u)) /\
        getitem user "role" = Some (of_str (AppUser.role u)) /\
        (forall key, is_Some (getitem user key) ->
                     key = "username" \/ key = "full_name" \/ key = "role"))) /\
  (forall (u : AppUser.row),
     List.find (fun u => String.eqb (AppUser.username u) username) (AppUsers (db w)) = Some u ->
     ((forall password, field m "password" <> PStr password) ->
      login (PDict m) w =
        (jsonify (server_error AttributeError) 500,
         {| db := db w; conns := conns w; log := log w ++ [SELECT] |})) /\
     (forall password,
        field m "password" = PStr password ->
        checkpw password (AppUser.password_hash u) = None ->
        login (PDict m) w =
          (jsonify (server_error ValueError) 500,
           {| db := db w; conns := conns w; log := log w ++ [SELECT] |}))) /\
  (forall data, (forall m', data <> PDict m') ->
     login data w = (jsonify (server_error AttributeError) 500, w)) /\
  (forall m', field m' "username" = PNone ->
     login (PDict m') w =
       (jsonify user_not_found 401,
        {| db := db w; conns := conns w; log := log w ++ [SELECT] |})) /\
  (forall m',
     (exists l, field m' "username" = PList l) \/
     (exists d, field m' "username" = PDict d) ->
     fst (login (PDict m') w) = jsonify (server_error DbError) 500 /\
     conns (snd (login (PDict m') w)) <> conns w /\
     db (snd (login (PDict m') w)) = db w).
Proof.
  intros E. split; [|split; [|split; [|split; [|split]]]].
  6:{ intros m' [[l U]|[d U]]; unfold login; run; rewrite U; run;
        (split; [done|]); (split; [|done]); by apply opened_not_released. }
  5:{ intros m' U. unfold login. run. rewrite U. run.
      rewrite fetchone_filter, find_never. reflexivity. }
  4:{ intros data D. unfold login. run.
      destruct data; try reflexivity. by destruct (D m0). }
  3:{ intros u F. split.
      - intros P. rewrite (login_lookup w m username E), F. run.
        destruct (field m "password"); try reflexivity. by destruct (P s).
      - intros password P C. rewrite (login_lookup w m username E), F. run.
        rewrite P. simpl. rewrite C. reflexivity. }
  - intros N. rewrite (login_lookup w m username E), (find_absent _ _ N). reflexivity.
  - intros u password F P. split.
    + intros C. rewrite (login_lookup w m username E), F. run. rewrite P. simpl.
      rewrite C. reflexivity.
    + intros C. split; [|split; [|split]].
      * rewrite (login_lookup w m username E), F. run. rewrite P. simpl.
        rewrite C. reflexivity.
      * apply find_some in F. destruct F as [_ F]. by apply String.eqb_eq in F.
      * intros key. unfold login_successful, dict, getitem. simpl.
        intros [v L].
        repeat (apply lookup_insert_Some in L; destruct L as [[<- _]|[_ L]]; [tauto|]).
        by rewrite lookup_empty in L.
      * eexists. split; [reflexivity|]. repeat split.
        intros key. unfold dict, getitem. simpl. intros [v L].
        repeat (apply lookup_insert_Some in L; destruct L as [[<- _]|[_ L]]; [tauto|]).
        by rewrite lookup_empty in L.
Qed.

End Login.

(** ** The list endpoints on a filter that is not a number *)

Section BadFilters.
Context `{Env}.

#[local] Transparent py_int.

(** A query-string value is a string or absent, so [int()] can only
    reject it with a [ValueError]. *)
Lemma non_numeric_ValueError args key :
  non_numeric args key -> py_int (args_get args key) = Raise ValueError.
Proof.
  intros [T [e E]]. unfold args_get in *.
  destruct (List.find _ args) as [kv|]; [|discriminate T].
  unfold py_int, of_option in *. by destruct (PyInt.of_string _ _).
Qed.

#[local] Opaque py_int.

Lemma appointment_filters_bad args :
  non_numeric args "patient_id" \/ non_numeric args "doctor_id" ->
  appointment_filters args = Raise ValueError.
Proof.
  intros B. unfold appointment_filters.
  destruct (py_bool (args_get args "patient_id")) eqn:T1; simpl.
  - destruct (py_int (args_get args "patient_id")) as [n|e] eqn:E1; simpl.
    + destruct B as [B|B]; [apply non_numeric_ValueError in B; congruence|].
      pose proof (non_numeric_ValueError _ _ B) as V. destruct B as [T _].
      rewrite T, V. reflexivity.
    + assert (B1 : non_numeric args "patient_id") by (split; eauto).
      apply non_numeric_ValueError in B1. congruence.
  - destruct B as [B|B]; [destruct B; congruence|].
    pose proof (non_numeric_ValueError _ _ B) as V. destruct B as [T _].
    rewrite T, V. reflexivity.
Qed.

(** C6 (amended). A list request whose integer filter is supplied, not
    empty and not a number ([patient_id] or [doctor_id] on
    /appointments, [appointment_id] on /treatments, [patient_id] on
    /billing) is answered by the [except] clause: HTTP 500 with
    "Server Error: " and the text of the [ValueError]. No connection is
    opened and no statement is sent. *)
Theorem non_numeric_filter (w : World) (args : list (string * string)) :
  (non_numeric args "patient_id" \/ non_numeric args "doctor_id" ->
   get_appointments args w = (jsonify (server_error ValueError) 500, w)) /\
  (non_numeric args "appointment_id" ->
   get_treatments args w = (jsonify (server_error ValueError) 500, w)) /\
  (non_numeric args "patient_id" ->
   get_billing args w = (jsonify (server_error ValueError) 500, w)).
Proof.
  repeat split.
  - intros B. unfold get_appointments. run.
    by rewrite (appointment_filters_bad _ B).
  - intros B. unfold get_treatments, treatment_filters. run.
    pose proof (non_numeric_ValueError _ _ B) as V. destruct B as [T _].
    rewrite T, V. reflexivity.
  - intros B. unfold get_billing, billing_filters. run.
    pose proof (non_numeric_ValueError _ _ B) as V. destruct B as [T _].
    rewrite T, V. reflexivity.
Qed.

End BadFilters.

(** ** Row mapping *)

Section RowMappers.
Context `{Env}.

(** The string form of a date starts with the digits of the year. *)
Lemma of_date_not_empty (d : date) : PyStr.of_date d <> EmptyString.
Proof. discriminate. Qed.

(** C9. Row mapping. [date_of_birth] of a patient is the string form of
    the date, or null when the column is NULL, and never the empty
    string. [appointment_date] and [billing_date] are always strings.
    [amount] is the float of the decimal, or null when the column is
    NULL. Every other column appears under its name with the value the
    row has. *)
Theorem row_mapping :
  (forall r : Patient.row,
     getitem (patient_row_to_json r) "date_of_birth" =
       Some (match Patient.date_of_birth r with
             | Some d => PStr (PyStr.of_date d)
             | None => PNone
             end) /\
     getitem (patient_row_to_json r) "date_of_birth" <> Some (PStr EmptyString) /\
     getitem (patient_row_to_json r) "patient_id" = Some (PInt (Patient.patient_id r)) /\
     getitem (patient_row_to_json r) "name" = Some (of_str (Patient.name r)) /\
     getitem (patient_row_to_json r) "gender" = Some (of_str (Patient.gender r)) /\
     getitem (patient_row_to_json r) "address" = Some (of_str (Patient.address r)) /\
     getitem (patient_row_to_json r) "phone" = Some (of_str (Patient.phone r))) /\
  (forall r : AppointmentView.row,
     getitem (_appointment_row_to_json r) "appointment_date" =
       Some (PStr (str_datetime (AppointmentView.appointment_date r))) /\
     getitem (_appointment_row_to_json r) "appointment_id" =
       Some (PInt (AppointmentView.appointment_id r)) /\
     getitem (_appointment_row_to_json r) "reason" =
       Some (of_str (AppointmentView.reason r)) /\
     getitem (_appointment_row_to_json r) "patient_id" =
       Some (PInt (AppointmentView.patient_id r)) /\
     getitem (_appointment_row_to_json r) "patient_name" =
       Some (of_str (AppointmentView.patient_name r)) /\
     getitem (_appointment_row_to_json r) "doctor_id" =
       Some (PInt (AppointmentView.doctor_id r)) /\
     getitem (_appointment_row_to_json r) "doctor_name" =
       Some (of_str (AppointmentView.doctor_name r))) /\
  (forall r : BillingView.row,
     getitem (billing_row_to_json r) "amount" =
       Some (match BillingView.amount r with
             | Some d => PFloat (float_of_decimal d)
             | None => PNone
             end) /\
     getitem (billing_row_to_json r) "billing_date" =
       Some (PStr (str_date (BillingView.billing_date r))) /\
     getitem (billing_row_to_json r) "bill_id" = Some (PInt (BillingView.bill_id r)) /\
     getitem (billing_row_to_json r) "patient_id" =
       Some (PInt (BillingView.patient_id r)) /\
     getitem (billing_row_to_json r) "patient_name" =
       Some (of_str (BillingView.patient_name r)) /\
     getitem (billing_row_to_json r) "treatment_id" =
       Some (of_int (BillingView.treatment_id r)) /\
     getitem (billing_row_to_json r) "payment_status" =
       Some (of_str (BillingView.payment_status r))) /\
  (forall r : Doctor.row,
     getitem (doctor_row_to_json r) "doctor_id" = Some (PInt (Doctor.doctor_id r)) /\
     getitem (doctor_row_to_json r) "name" = Some (of_str (Doctor.name r)) /\
     getitem (doctor_row_to_json r) "specialty" = Some (of_str (Doctor.specialty r)) /\
     getitem (doctor_row_to_json r) "phone" = Some (of_str (Doctor.phone r)) /\
     getitem (doctor_row_to_json r) "email" = Some (of_str (Doctor.email r))) /\
  (forall r : Treatment.row,
     getitem (treatment_row_to_json r) "treatment_id" =
       Some (PInt (Treatment.treatment_id r)) /\
     getitem (treatment_row_to_json r) "appointment_id" =
       Some (PInt (Treatment.appointment_id r)) /\
     getitem (treatment_row_to_json r) "diagnosis" = Some (of_str (Treatment.diagnosis r)) /\
     getitem (treatment_row_to_json r) "prescription" =
       Some (of_str (Treatment.prescription r)) /\
     getitem (treatment_row_to_json r) "notes" = Some (of_str (Treatment.notes r))).
Proof.
  repeat split; try reflexivity.
  change (getitem (patient_row_to_json r) "date_of_birth")
    with (Some (match Patient.date_of_birth r with
                | Some d => PStr (PyStr.of_date d)
                | None => PNone
                end)).
  destruct (Patient.date_of_birth r) as [d|]; [|discriminate].
  intros E. apply (of_date_not_empty d). congruence.
Qed.

End RowMappers.

(** ** Connections and exceptions *)

(** Steps through a handler and splits on everything it branches on. *)
Ltac paths :=
  repeat first
    [ progress (unfold try_except, lift; simpl)
    | progress (unfold mbind, M_bind, mret, M_ret; simpl)
    | rewrite get_conn_opened
    | rewrite execute_opened
    | rewrite commit_opened
    | rewrite close_opened by reflexivity
    | match goal with
      | |- context [match exec ?q ?p ?c with _ => _ end] =>
          destruct (exec q p c) as [[? ?]|?]
      | |- context [match item0 ?x with _ => _ end] => destruct (item0 x)
      | |- context [match of_option ?e ?o with _ => _ end] => destruct (of_option e o)
      | |- context [match fetchone ?x with _ => _ end] => destruct (fetchone x)
      | |- context [match dict_get ?d ?k with _ => _ end] => destruct (dict_get d k)
      | |- context [match py_int ?v with _ => _ end] => destruct (py_int v)
      | |- context [match encode_utf8 ?v with _ => _ end] => destruct (encode_utf8 v)
      | |- context [match update_sets ?a ?b ?c ?d with _ => _ end] =>
          destruct (update_sets a b c d) as [[[|? ?] ?]|?]
      | |- context [match appointment_filters ?a with _ => _ end] =>
          destruct (appointment_filters a) as [[? ?]|?]
      | |- context [match treatment_filters ?a with _ => _ end] =>
          destruct (treatment_filters a) as [[? ?]|?]
      | |- context [match billing_filters ?a with _ => _ end] =>
          destruct (billing_filters a) as [[? ?]|?]
      | |- context [if (?a =? ?b)%Z then _ else _] => destruct (a =? b)%Z
      | |- context [if is_not_None ?v then _ else _] => destruct (is_not_None v)
      | |- context [if ?b then _ else _] => is_var b; destruct b
      end ].

Section Connections.
Context `{Env}.

(** X22. Every path of every handler that returns from inside the [try]
    block has closed the connection it opened: unless the [except]
    clause answered (status 500), the open connections afterwards are
    the ones before. *)
Theorem connection_released_unless_raised (q : request) (w : World) :
  status (fst (handle q w)) <> 500 -> conns (snd (handle q w)) = conns w.
Proof.
  destruct q; simpl.
  - unfold get_stats; paths; simpl; try reflexivity; try (intros N; exfalso; by apply N).
  - unfold login; paths; simpl; try reflexivity; try (intros N; exfalso; by apply N).
  - unfold get_patients; paths; simpl; try reflexivity; try (intros N; exfalso; by apply N).
  - unfold get_doctors; paths; simpl; try reflexivity; try (intros N; exfalso; by apply N).
  - unfold get_appointments; paths; simpl; try reflexivity; try (intros N; exfalso; by apply N).
  - unfold get_treatments; paths; simpl; try reflexivity; try (intros N; exfalso; by apply N).
  - unfold get_billing; paths; simpl; try reflexivity; try (intros N; exfalso; by apply N).
  - unfold create_appointment; paths; simpl; try reflexivity; try (intros N; exfalso; by apply N).
  - unfold update_appointment; paths; simpl; try reflexivity; try (intros N; exfalso; by apply N).
  - unfold delete_appointment; paths; simpl; try reflexivity; try (intros N; exfalso; by apply N).
Qed.

(** C7 at its failing input. On the sample database, POST /appointments
    with [{"patient_id": 1, "doctor_id": 2, "reason": ["x"]}] passes both
    reference checks; the INSERT then raises, because a list cannot be
    bound to a placeholder; the [except] clause answers 500 and the
    connection the handler opened is still open when it returns. *)
Theorem create_appointment_leaves_connection_open :
  let data := dict [("patient_id", PInt 1); ("doctor_id", PInt 2);
                    ("reason", PList [PStr "x"])] in
  let w := Sample.world in
  fst (create_appointment data w) = jsonify (server_error DbError) 500 /\
  log (snd (create_appointment data w)) = [SELECT; SELECT; INSERT] /\
  conns (snd (create_appointment data w)) <> conns w.
Proof.
  assert (E : create_appointment
                (dict [("patient_id", PInt 1); ("doctor_id", PInt 2);
                       ("reason", PList [PStr "x"])]) Sample.world =
              (jsonify (server_error DbError) 500,
               opened Sample.world (fresh (dom (conns Sample.world)))
                 {| txn := Sample.store; scope_identity := None |}
                 [SELECT; SELECT; INSERT] Sample.store)).
  { vm_compute. reflexivity. }
  cbv zeta. rewrite E. split; [reflexivity|]. split; [reflexivity|].
  by apply opened_not_released.
Qed.

End Connections.

(** ** ORDER BY: the sort and the orders it is used with *)

Section Sorting.
Context {A : Type}.

Lemma insert_by_Permutation (leb : A -> A -> bool) x l :
  Permutation (insert_by leb x l) (x :: l).
Proof.
  induction l as [|y l IH]; simpl; [reflexivity|].
  destruct (leb x y); [reflexivity|].
  rewrite IH. apply perm_swap.
Qed.

Lemma order_by_Permutation (leb : A -> A -> bool) l :
  Permutation (order_by leb l) l.
Proof.
  induction l as [|x l IH]; simpl; [reflexivity|].
  rewrite insert_by_Permutation. by constructor.
Qed.

Variable leb : A -> A -> bool.
Hypothesis leb_total : forall a b, leb a b = false -> leb b a = true.
Hypothesis leb_trans : forall a b c, leb a b = true -> leb b c = true -> leb a c = true.

Lemma insert_by_Sorted x l :
  Sorted (fun a b => leb a b = true) l ->
  Sorted (fun a b => leb a b = true) (insert_by leb x l).
Proof.
  induction 1 as [|y l S IH Hd]; simpl; [repeat constructor|].
  destruct (leb x y) eqn:E.
  - constructor; [by constructor|by constructor].
  - constructor; [exact IH|].
    destruct l as [|z l]; simpl.
    + constructor. by apply leb_total.
    + destruct (leb x z); constructor; [by apply leb_total|].
      by inversion Hd.
Qed.

Lemma order_by_Sorted l : Sorted (fun a b => leb a b = true) (order_by leb l).
Proof.
  induction l as [|x l IH]; simpl; [constructor|]. by apply insert_by_Sorted.
Qed.

Lemma order_by_StronglySorted l :
  StronglySorted (fun a b => leb a b = true) (order_by leb l).
Proof.
  apply Sorted_StronglySorted; [|apply order_by_Sorted].
  intros a b c. apply leb_trans.
Qed.

End Sorting.
















(** ** From the SQL to the words of the specification *)

Lemma StronglySorted_weaken {A} (R R' : A -> A -> Prop) (l : list A) :
  (forall a b, R a b -> R' a b) -> StronglySorted R l -> StronglySorted R' l.
Proof.
  intros I. induction 1 as [|a l S IH F]; constructor; [exact IH|].
  eapply List.Forall_impl; [|exact F]. apply I.
Qed.
















(** ** The list endpoints on valid filters *)

Section ListEndpoints.
Context `{Env}.

(** A supplied query-string value is a string. *)
Lemma args_get_supplied args key :
  py_bool (args_get args key) = true -> exists s, args_get args key = PStr s.
Proof.
  unfold args_get. destruct (List.find _ args) as [kv|]; [by eexists|discriminate].
Qed.










End ListEndpoints.


(** * More of the handlers *)

(** ** The statistics and the two plain lists *)

Section PlainLists.
Context `{Env}.

(** X1. GET /stats answers 200 with the number of rows of each of the six
    tables, after six SELECTs; it changes nothing and closes its
    connection. *)
Theorem get_stats_counts (w : World) :
  get_stats w =
    (jsonify
       (dict [("patients", PInt (Z.of_nat (length (Patients (db w)))));
              ("doctors", PInt (Z.of_nat (length (Doctors (db w)))));
              ("appointments", PInt (Z.of_nat (length (Appointments (db w)))));
              ("treatments", PInt (Z.of_nat (length (Treatments (db w)))));
              ("billing", PInt (Z.of_nat (length (Billings (db w)))));
              ("users", PInt (Z.of_nat (length (AppUsers (db w)))))]) 200,
     {| db := db w; conns := conns w;
        log := log w ++ [SELECT; SELECT; SELECT; SELECT; SELECT; SELECT] |}).
Proof.
  unfold get_stats. run. rewrite <- !app_assoc. reflexivity.
Qed.

(** X2. GET /patients answers 200 with one mapped record per row of the
    Patient table, each row once, in ascending order of [patient_id]. *)
Theorem get_patients_all_sorted (w : World) :
  exists rows,
    get_patients w =
      (jsonify (PList (map patient_row_to_json rows)) 200,
       {| db := db w; conns := conns w; log := log w ++ [SELECT] |}) /\
    Permutation rows (Patients (db w)) /\
    StronglySorted
      (fun r1 r2 => (Patient.patient_id r1 <= Patient.patient_id r2)%Z) rows.
Proof.
  exists (order_by patient_order (Patients (db w))). split; [|split].
  - unfold get_patients. run. reflexivity.
  - apply order_by_Permutation.
  - eapply StronglySorted_weaken; [|apply (order_by_StronglySorted patient_order)].
    + intros a b. unfold patient_order. apply Z.leb_le.
    + intros a b. unfold patient_order. rewrite Z.leb_gt, Z.leb_le. lia.
    + intros a b c. unfold patient_order. rewrite !Z.leb_le. lia.
Qed.

(** X3. GET /doctors answers 200 with one mapped record per row of the
    Doctor table, each row once, after one SELECT; it changes nothing
    and closes its connection. *)
Theorem get_doctors_all (w : World) :
  exists rows,
    get_doctors w =
      (jsonify (PList (map doctor_row_to_json rows)) 200,
       {| db := db w; conns := conns w; log := log w ++ [SELECT] |}) /\
    Permutation rows (Doctors (db w)).
Proof.
  exists (order_by doctor_order (Doctors (db w))). split.
  - unfold get_doctors. run. reflexivity.
  - apply order_by_Permutation.
Qed.

End PlainLists.

(** ** What every handler does, and what none does *)

(** Opens the handler a request is routed to. *)
Ltac handler :=
  first [ progress unfold get_stats | progress unfold login
        | progress unfold get_patients | progress unfold get_doctors
        | progress unfold get_appointments | progress unfold get_treatments
        | progress unfold get_billing | progress unfold create_appointment
        | progress unfold update_appointment | progress unfold delete_appointment ].

Section AllHandlers.
Context `{Env}.

(** X4. The handlers of GET requests and of POST /login never write:
    whatever the request, the committed database is the one before, and
    every statement sent is a SELECT. *)
Theorem read_only_handlers_never_write (q : request) (w : World) :
  read_only q = true ->
  db (snd (handle q w)) = db w /\
  exists sent, log (snd (handle q w)) = log w ++ sent /\ Forall (eq SELECT) sent.
Proof.
  destruct q; simpl; try discriminate; intros _; handler; paths; simpl;
    (split; [reflexivity|]); rewrite <- ?app_assoc; simpl;
    first [ by exists []; rewrite app_nil_r
          | eexists; split; [reflexivity|]; by repeat constructor ].
Qed.

(** X5. The status codes of each route: a GET answers 200 or 500, the
    login 200, 401 or 500, the creation 201, 400 or 500, the update 200,
    400, 404 or 500, the deletion 200, 404 or 500, and nothing else. *)
Theorem handler_statuses (q : request) (w : World) :
  In (status (fst (handle q w))) (statuses q).
Proof. destruct q; simpl; handler; paths; simpl; tauto. Qed.

(** X6. The shape of a failure: whenever a handler answers with a status
    of 400 or more, the body is an object whose [success] is false and
    whose [message] is a string. *)
Theorem failure_body (q : request) (w : World) :
  400 <= status (fst (handle q w)) ->
  getitem (body (fst (handle q w))) "success" = Some (PBool false) /\
  exists text, getitem (body (fst (handle q w))) "message" = Some (PStr text).
Proof.
  destruct q; simpl; handler; paths; simpl; intros L;
    first [ exfalso; lia | split; [reflexivity|eexists; reflexivity] ].
Qed.

End AllHandlers.

(** ** Login and the connection *)

Section LoginConnection.
Context `{Env}.

(** X7. POST /login closes its connection right after the lookup, before
    it touches the password: once the SELECT is accepted (the username
    is a string or null), the connection is released whatever follows,
    a missing or non-string password and a malformed hash included; so
    it is when the body is no object and nothing was opened. *)
Theorem login_releases_connection (data : pyval) (w : World) :
  (forall m, data = PDict m ->
     exists name, bind_varchar (field m "username") = Ret name) ->
  conns (snd (login data w)) = conns w.
Proof.
  intros B. unfold login. run.
  destruct data; simpl; try reflexivity.
  destruct (B m eq_refl) as [name E]. run.
  unfold where_varchar_eq. rewrite E. run.
  destruct (fetchone _); run; [|reflexivity].
  destruct (encode_utf8 _); run; [|reflexivity].
  destruct (of_option _ _) as [[|]|]; reflexivity.
Qed.

End LoginConnection.

(** ** What the handlers read of a request *)

Section Inputs.
Context `{Env}.

Lemma args_get_other (args : list (string * string)) (key key' value : string) :
  key <> key' -> args_get ((key, value) :: args) key' = args_get args key'.
Proof.
  intros N. unfold args_get. simpl.
  by destruct (String.eqb_spec key key').
Qed.

Lemma field_insert_other (m : gmap string pyval) (key key' : string) (v : pyval) :
  key <> key' -> field (<[key := v]> m) key' = field m key'.
Proof. intros N. rewrite !field_unfold. by rewrite lookup_insert_ne. Qed.

(** X8. A handler reads the parameters it names and no other: a query
    parameter that is not a filter of the list endpoint, and a body key
    that is not a field of the login, the creation or the update, change
    nothing of what the handler does. *)
Theorem unknown_parameters_ignored (w : World) (key : string) :
  (forall args value,
     ~ In key ["patient_id"; "doctor_id"; "from"; "to"] ->
     get_appointments ((key, value) :: args) w = get_appointments args w) /\
  (forall args value,
     key <> "appointment_id" ->
     get_treatments ((key, value) :: args) w = get_treatments args w) /\
  (forall args value,
     ~ In key ["patient_id"; "status"] ->
     get_billing ((key, value) :: args) w = get_billing args w) /\
  (forall m v,
     ~ In key ["username"; "password"] ->
     login (PDict (<[key := v]> m)) w = login (PDict m) w) /\
  (forall m v,
     ~ In key ["patient_id"; "doctor_id"; "appointment_date"; "reason"] ->
     create_appointment (PDict (<[key := v]> m)) w = create_appointment (PDict m) w) /\
  (forall m v id,
     ~ In key ["patient_id"; "doctor_id"; "appointment_date"; "reason"] ->
     update_appointment id (PDict (<[key := v]> m)) w = update_appointment id (PDict m) w).
Proof.
  repeat split.
  - intros args value N. unfold get_appointments, appointment_filters.
    rewrite !args_get_other; [reflexivity|..]; intros ->; apply N; simpl; tauto.
  - intros args value N. unfold get_treatments, treatment_filters.
    by rewrite !args_get_other.
  - intros args value N. unfold get_billing, billing_filters.
    rewrite !args_get_other; [reflexivity|..]; intros ->; apply N; simpl; tauto.
  - intros m v N. unfold login. run.
    rewrite !field_insert_other; [reflexivity|..]; intros ->; apply N; simpl; tauto.
  - intros m v N. unfold create_appointment. run.
    rewrite !field_insert_other; [reflexivity|..]; intros ->; apply N; simpl; tauto.
  - intros m v id N. unfold update_appointment. run.
    rewrite !field_insert_other; [reflexivity|..]; intros ->; apply N; simpl; tauto.
Qed.

(** X9. Whatever the request, a builder that returns hands back as many
    parameters as placeholders, and its clauses are a selection, in that
    order, of the fixed list of its endpoint: no clause twice, none out
    of place. *)
Theorem builders_pair_clauses_and_parameters :
  (forall args where_ params,
     appointment_filters args = Ret (where_, params) ->
     length params = length where_ /\
     sublist where_
       [a_patient_id_eq; a_doctor_id_eq; a_appointment_date_ge; a_appointment_date_le]) /\
  (forall args where_ params,
     treatment_filters args = Ret (where_, params) ->
     length params = length (option_list where_)) /\
  (forall args where_ params,
     billing_filters args = Ret (where_, params) ->
     length params = length where_ /\
     sublist where_ [b_patient_id_eq; b_payment_status_eq]) /\
  (forall patient_id doctor_id appointment_date reason sets params,
     update_sets patient_id doctor_id appointment_date reason = Ret (sets, params) ->
     length params = length sets /\
     sublist sets [set_patient_id; set_doctor_id; set_appointment_date; set_reason]).
Proof.
  repeat apply conj.
  - intros args where_ params. unfold appointment_filters.
    destruct (py_bool (args_get args "patient_id")),
             (py_bool (args_get args "doctor_id")),
             (py_bool (args_get args "from")),
             (py_bool (args_get args "to")); simpl;
      repeat match goal with
             | |- context [py_int ?v] => destruct (py_int v); simpl
             end;
      intros [= <- <-]; (split; [reflexivity|]);
      repeat first [apply sublist_nil | apply sublist_skip | apply sublist_cons].
  - intros args where_ params. unfold treatment_filters.
    destruct (py_bool (args_get args "appointment_id")); simpl;
      repeat match goal with
             | |- context [py_int ?v] => destruct (py_int v); simpl
             end;
      by intros [= <- <-].
  - intros args where_ params. unfold billing_filters.
    destruct (py_bool (args_get args "patient_id")),
             (py_bool (args_get args "status")); simpl;
      repeat match goal with
             | |- context [py_int ?v] => destruct (py_int v); simpl
             end;
      intros [= <- <-]; (split; [reflexivity|]);
      repeat first [apply sublist_nil | apply sublist_skip | apply sublist_cons].
  - intros v1 v2 v3 v4 sets params E.
    destruct (update_sets_shape _ _ _ _ _ _ E) as (-> & ->).
    destruct (is_not_None v1), (is_not_None v2), (is_not_None v3), (is_not_None v4);
      simpl; (split; [reflexivity|]);
      repeat first [apply sublist_nil | apply sublist_skip | apply sublist_cons].
Qed.

Lemma where_datetime_DbError test v e :
  where_datetime test v = Raise e -> e = DbError.
Proof.
  unfold where_datetime, bind_datetime, of_option.
  destruct v; simpl; try discriminate;
    try (destruct (to_datetime _); simpl); intros Q; inversion Q; reflexivity.
Qed.

(** X10. GET /appointments with a [from] or [to] the server cannot read
    as a date, the integer filters being valid: the SELECT is sent and
    refused, and the answer is the 500 of the [except] clause, not a
    400. The error is the server's when the driver binds the integer
    filters, and the driver's [OverflowError] when one of them has more
    than 64 bits. *)
Theorem unreadable_date_filter (w : World) (args : list (string * string))
    (patient_id doctor_id : option Z) :
  int_filter args "patient_id" patient_id -> int_filter args "doctor_id" doctor_id ->
  (py_bool (args_get args "from") = true /\ to_datetime (args_get args "from") = None) \/
  (py_bool (args_get args "to") = true /\ to_datetime (args_get args "to") = None) ->
  (bindable patient_id -> bindable doctor_id ->
   fst (get_appointments args w) = jsonify (server_error DbError) 500) /\
  (~ (bindable patient_id /\ bindable doctor_id) ->
   fst (get_appointments args w) = jsonify (server_error OverflowError) 500) /\
  status (fst (get_appointments args w)) = 500 /\
  db (snd (get_appointments args w)) = db w /\
  log (snd (get_appointments args w)) = log w ++ [SELECT].
Proof.
  intros P D B.
  set (ok := match patient_id with Some n => fits_int64 n | None => true end &&
             match doctor_id with Some n => fits_int64 n | None => true end).
  assert (R : forall key, py_bool (args_get args key) = true ->
                to_datetime (args_get args key) = None ->
                forall test, where_datetime test (args_get args key) = Raise DbError).
  { intros key T E test. destruct (args_get_supplied _ _ T) as [s S].
    unfold where_datetime, bind_datetime. rewrite S in *. by rewrite E. }
  pose proof where_datetime_DbError as DE.
  assert (X : forall where_ params,
            appointment_filters args = Ret (where_, params) ->
            bind_where appt_clause_test where_ params =
              Raise (if ok then DbError else OverflowError)).
  { intros where_ params. unfold appointment_filters. subst ok.
    destruct patient_id, doctor_id; simpl in P, D;
      repeat match goal with
             | Q : _ /\ _ |- _ => destruct Q as [-> ->]
             | Q : py_bool _ = false |- _ => rewrite Q; clear Q
             end; simpl;
      destruct (py_bool (args_get args "from")) eqn:TF,
               (py_bool (args_get args "to")) eqn:TT; simpl;
      intros [= <- <-]; simpl;
      repeat match goal with
             | |- context [bind_pyint ?n] =>
                 let F := fresh "F" in
                 destruct (fits_int64 n) eqn:F;
                 [rewrite (bind_pyint_fits _ F)|rewrite (bind_pyint_overflow _ F)]; simpl
             end;
      try reflexivity;
      repeat match goal with
             | |- context [where_datetime ?t ?v] =>
                 destruct (where_datetime t v) eqn:?; simpl
             end;
      try (f_equal; eapply DE; eassumption);
      exfalso; destruct B as [[T E]|[T E]];
      first [ discriminate T
            | pose proof (R "from" TF E not_Lt); congruence
            | pose proof (R "to" TT E not_Gt); congruence ]. }
  assert (G : get_appointments args w =
            (jsonify (server_error (if ok then DbError else OverflowError)) 500,
             opened w (fresh (dom (conns w))) {| txn := db w; scope_identity := None |}
               (log w ++ [SELECT]) (db w))).
  { unfold get_appointments. run.
    destruct (appointment_filters args) as [[where_ params]|e] eqn:E.
    - run. rewrite (X _ _ eq_refl). run. done.
    - exfalso. revert E. unfold appointment_filters.
      destruct patient_id, doctor_id; simpl in P, D;
        repeat match goal with
               | Q : _ /\ _ |- _ => destruct Q as [-> ->]
               | Q : py_bool _ = false |- _ => rewrite Q; clear Q
               end; simpl;
        destruct (py_bool (args_get args "from")), (py_bool (args_get args "to"));
        discriminate. }
  rewrite G. subst ok. split; [|split; [|done]].
  - intros Bp Bd. destruct patient_id, doctor_id; simpl in Bp, Bd;
      rewrite ?Bp, ?Bd; reflexivity.
  - intros N. destruct patient_id as [p|], doctor_id as [d|]; simpl in N |- *;
      repeat match goal with
             | |- context [fits_int64 ?n] => destruct (fits_int64 n)
             end; simpl; try reflexivity; exfalso; apply N; done.
Qed.

End Inputs.
(** * Writing appointments: what the successful paths do *)

Section Joined.

(** The rows of the joined SELECT are the appointments paired with their
    patient and their doctor. *)
Lemma in_appointment_join s r :
  In r (appointment_join s) <->
  exists a p d,
    In a (Appointments s) /\
    In p (Patients s) /\ Patient.patient_id p = Appointment.patient_id a /\
    In d (Doctors s) /\ Doctor.doctor_id d = Appointment.doctor_id a /\
    r = view a p d.
Proof.
  unfold appointment_join. rewrite <- list_elem_of_In, list_elem_of_bind. split.
  - intros (a & I & Ia). apply list_elem_of_bind in I as (p & I & Ip).
    apply list_elem_of_bind in I as (d & I & Id).
    apply list_elem_of_singleton in I.
    apply list_elem_of_In, filter_In in Ip as (Ip & Ep).
    apply list_elem_of_In, filter_In in Id as (Id & Ed).
    exists a, p, d. rewrite <- list_elem_of_In. repeat split; try done; lia.
  - intros (a & p & d & Ia & Ip & Ep & Id & Ed & ->).
    exists a. split; [|by apply list_elem_of_In].
    apply list_elem_of_bind. exists p. split.
    2:{ apply list_elem_of_In, filter_In. split; [done|lia]. }
    apply list_elem_of_bind. exists d. split.
    2:{ apply list_elem_of_In, filter_In. split; [done|lia]. }
    by apply list_elem_of_singleton.
Qed.

Lemma join_appointment_id s r :
  In r (appointment_join s) ->
  In (AppointmentView.appointment_id r) (map Appointment.appointment_id (Appointments s)).
Proof.
  intros (a & p & d & Ia & _ & _ & _ & _ & ->)%in_appointment_join.
  simpl. by apply in_map.
Qed.

Lemma find_none_filter {A} (p : A -> bool) l :
  (forall x, In x l -> p x = false) -> List.filter p l = [].
Proof.
  induction l as [|a l IH]; simpl; intros N; [reflexivity|].
  rewrite (N a) by (by left). apply IH. intros x I. apply N. by right.
Qed.

Lemma find_filter {A} (p : A -> bool) l x :
  List.find p l = Some x -> exists rest, List.filter p l = x :: rest.
Proof.
  induction l as [|a l IH]; simpl; [discriminate|].
  destruct (p a) eqn:P.
  - intros [= ->]. by eexists.
  - apply IH.
Qed.

Lemma find_present {A} (key : A -> Z) (l : list A) (n : Z) :
  In n (map key l) -> exists x, List.find (fun x => key x =? n)%Z l = Some x.
Proof.
  induction l as [|a l IH]; simpl; [tauto|].
  destruct (Z.eqb_spec (key a) n) as [E|N]; [by eexists|].
  intros [E|I]; [done|by apply IH].
Qed.

(** The joined rows after an INSERT: those before, then the new record
    with its patient and its doctor. *)
Lemma join_with_inserted s a :
  appointment_join (with_inserted s a) =
    appointment_join s ++
    (p ← List.filter (fun p => Patient.patient_id p =? Appointment.patient_id a)%Z (Patients s);
     d ← List.filter (fun d => Doctor.doctor_id d =? Appointment.doctor_id a)%Z (Doctors s);
     [view a p d]).
Proof.
  unfold appointment_join, with_inserted; simpl.
  rewrite bind_app. simpl. by rewrite app_nil_r.
Qed.

(** Read back by its id, a record that was just inserted is found when
    its patient and its doctor exist. *)
Lemma new_record_found s a :
  In (Appointment.patient_id a) (map Patient.patient_id (Patients s)) ->
  In (Appointment.doctor_id a) (map Doctor.doctor_id (Doctors s)) ->
  exists r,
    List.find (fun r => AppointmentView.appointment_id r =? Appointment.appointment_id a)%Z
      (appointment_join (with_inserted s a)) = Some r /\
    AppointmentView.appointment_id r = Appointment.appointment_id a.
Proof.
  intros (p & Ep & Ip)%in_map_iff (d & Ed & Id)%in_map_iff.
  destruct (List.find _ _) as [r|] eqn:F.
  - exists r. split; [done|]. apply find_some in F as (_ & F). lia.
  - exfalso. pose proof (find_none _ _ F (view a p d)) as N. simpl in N.
    rewrite Z.eqb_refl in N. discriminate N.
    apply in_appointment_join. exists a, p, d. unfold with_inserted; simpl.
    repeat split; try done. apply in_or_app. right. by left.
Qed.

(** With the ids so far at most the identity counter, the record read
    back is the new one, with the first patient and the first doctor of
    its ids. *)
Lemma new_record_read_back s a p d :
  Forall (fun a => Appointment.appointment_id a <= appointment_identity s)%Z
    (Appointments s) ->
  Appointment.appointment_id a = (appointment_identity s + 1)%Z ->
  List.find (fun p => Patient.patient_id p =? Appointment.patient_id a)%Z (Patients s) = Some p ->
  List.find (fun d => Doctor.doctor_id d =? Appointment.doctor_id a)%Z (Doctors s) = Some d ->
  List.find (fun r => AppointmentView.appointment_id r =? Appointment.appointment_id a)%Z
    (appointment_join (with_inserted s a)) = Some (view a p d).
Proof.
  intros B E Fp Fd. rewrite <- fetchone_filter, join_with_inserted, List.filter_app.
  rewrite (find_none_filter _ (appointment_join s)).
  2:{ intros r I%join_appointment_id. apply in_map_iff in I as (a0 & E0 & I).
      rewrite List.Forall_forall in B. apply B in I. lia. }
  destruct (find_filter _ _ _ Fp) as (ps & ->), (find_filter _ _ _ Fd) as (ds & ->).
  simpl. by rewrite Z.eqb_refl.
Qed.

End Joined.

Section Writing.
Context `{Env}.

#[local] Transparent exec py_int.

Lemma py_int_PInt n : py_int (PInt n) = Ret n.
Proof. reflexivity. Qed.

Lemma exec_INSERT_Appointment p d v3 v4 c :
  fits_int64 p = true -> fits_int64 d = true ->
  exec INSERT_Appointment [PInt p; PInt d; v3; v4] c =
    (t ← bind_datetime v3;
     r ← bind_varchar v4;
     if fits_int64 (appointment_identity (txn c) + 1) then
       Ret ([], {| txn := with_inserted (txn c) (inserted (txn c) p d t r);
                   scope_identity := Some (appointment_identity (txn c) + 1)%Z |})
     else Raise DbError).
Proof.
  intros Fp Fd. simpl. rewrite (bind_pyint_fits _ Fp). simpl.
  rewrite (bind_pyint_fits _ Fd). reflexivity.
Qed.

#[local] Opaque exec py_int.

(** *** POST /appointments past the two checks *)

Lemma create_run w m p d :
  py_int (field m "patient_id") = Ret p ->
  py_int (field m "doctor_id") = Ret d ->
  fits_int64 p = true -> fits_int64 d = true ->
  In p (map Patient.patient_id (Patients (db w))) ->
  In d (map Doctor.doctor_id (Doctors (db w))) ->
  create_appointment (PDict m) w =
    match bind_datetime (field m "appointment_date") with
    | Raise e =>
        (jsonify (server_error e) 500,
         opened w (fresh (dom (conns w))) {| txn := db w; scope_identity := None |}
           (log w ++ [SELECT; SELECT; INSERT]) (db w))
    | Ret t =>
        match bind_varchar (field m "reason") with
        | Raise e =>
            (jsonify (server_error e) 500,
             opened w (fresh (dom (conns w))) {| txn := db w; scope_identity := None |}
               (log w ++ [SELECT; SELECT; INSERT]) (db w))
        | Ret r =>
            if fits_int64 (appointment_identity (db w) + 1) then
              let s := with_inserted (db w) (inserted (db w) p d t r) in
              (match List.find
                       (fun r => AppointmentView.appointment_id r =?
                                 appointment_identity (db w) + 1)%Z
                       (appointment_join s) with
               | Some r => jsonify (written r) 201
               | None => jsonify (server_error TypeError) 500
               end,
               {| db := s; conns := conns w;
                  log := log w ++ [SELECT; SELECT; INSERT; SELECT; SELECT] |})
            else
              (jsonify (server_error DbError) 500,
               opened w (fresh (dom (conns w))) {| txn := db w; scope_identity := None |}
                 (log w ++ [SELECT; SELECT; INSERT]) (db w))
        end
    end.
Proof.
  intros E1 E2 Fp Fd Ip Id. unfold create_appointment. run.
  rewrite E1. run. rewrite E2. run.
  destruct (count_where_present TPatient _ _ Fp Ip) as (k & -> & K). run.
  rewrite K. run.
  destruct (count_where_present TDoctor _ _ Fd Id) as (k' & -> & K'). run.
  rewrite K'. run. rewrite (exec_INSERT_Appointment _ _ _ _ _ Fp Fd). simpl.
  destruct (bind_datetime _) as [t|e]; simpl.
  2:{ rewrite <- !app_assoc. reflexivity. }
  destruct (bind_varchar _) as [r|e]; simpl.
  2:{ rewrite <- !app_assoc. reflexivity. }
  destruct (fits_int64 (appointment_identity (db w) + 1)) eqn:Fn; simpl.
  2:{ rewrite <- !app_assoc. reflexivity. }
  run. rewrite py_int_PInt. run. rewrite fetchone_filter.
  rewrite <- !app_assoc. simpl.
  destruct (List.find _ _); reflexivity.
Qed.


(** A [doctor_id] the driver cannot bind: the second SELECT raises. *)
Lemma create_doctor_overflow w m p d :
  py_int (field m "patient_id") = Ret p ->
  py_int (field m "doctor_id") = Ret d ->
  fits_int64 p = true ->
  In p (map Patient.patient_id (Patients (db w))) ->
  fits_int64 d = false ->
  create_appointment (PDict m) w =
    (jsonify (server_error OverflowError) 500,
     opened w (fresh (dom (conns w))) {| txn := db w; scope_identity := None |}
       (log w ++ [SELECT; SELECT]) (db w)).
Proof.
  intros E1 E2 Fp Ip Fd. unfold create_appointment. run.
  rewrite E1. run. rewrite E2. run.
  destruct (count_where_present TPatient _ _ Fp Ip) as (k & -> & K). run.
  rewrite K. run. rewrite (count_where_overflow TDoctor _ _ Fd). run.
  rewrite <- app_assoc. reflexivity.
Qed.

(** Whatever path a creation takes: either nothing is committed and the
    status is not 201, or the body passed both [int()] calls and both
    checks, the INSERT was accepted, and the answer is the 201 with the
    record read back. *)
Lemma create_cases data w :
  let R := create_appointment data w in
  (db (snd R) = db w /\ status (fst R) <> 201) \/
  (exists m p d t r row,
     data = PDict m /\
     py_int (field m "patient_id") = Ret p /\
     py_int (field m "doctor_id") = Ret d /\
     bind_datetime (field m "appointment_date") = Ret t /\
     bind_varchar (field m "reason") = Ret r /\
     In p (map Patient.patient_id (Patients (db w))) /\
     In d (map Doctor.doctor_id (Doctors (db w))) /\
     fits_int64 (appointment_identity (db w) + 1) = true /\
     List.find
       (fun r => AppointmentView.appointment_id r =? appointment_identity (db w) + 1)%Z
       (appointment_join (with_inserted (db w) (inserted (db w) p d t r))) = Some row /\
     R = (jsonify (written row) 201,
          {| db := with_inserted (db w) (inserted (db w) p d t r);
             conns := conns w;
             log := log w ++ [SELECT; SELECT; INSERT; SELECT; SELECT] |})).
Proof.
  intros R. subst R.
  destruct data as [| | | | |l|m];
    try (left; unfold create_appointment; run; split; [reflexivity|discriminate]).
  destruct (py_int (field m "patient_id")) as [p|e] eqn:E1.
  2:{ left. unfold create_appointment. run. rewrite E1. run.
      split; [reflexivity|discriminate]. }
  destruct (py_int (field m "doctor_id")) as [d|e] eqn:E2.
  2:{ left. unfold create_appointment. run. rewrite E1. run. rewrite E2. run.
      split; [reflexivity|discriminate]. }
  destruct (fits_int64 p) eqn:Fp.
  2:{ left. rewrite (create_patient_overflow _ _ _ _ E1 E2 Fp).
      split; [reflexivity|discriminate]. }
  destruct (in_dec Z.eq_dec p (map Patient.patient_id (Patients (db w)))) as [Ip|Np].
  2:{ left. rewrite (create_invalid_patient _ _ _ _ E1 E2 Fp Np).
      split; [reflexivity|discriminate]. }
  destruct (fits_int64 d) eqn:Fd.
  2:{ left. rewrite (create_doctor_overflow _ _ _ _ E1 E2 Fp Ip Fd).
      split; [reflexivity|discriminate]. }
  destruct (in_dec Z.eq_dec d (map Doctor.doctor_id (Doctors (db w)))) as [Id|Nd].
  2:{ left. rewrite (create_invalid_doctor _ _ _ _ E1 E2 Fp Fd Ip Nd).
      split; [reflexivity|discriminate]. }
  rewrite (create_run _ _ _ _ E1 E2 Fp Fd Ip Id).
  destruct (bind_datetime _) as [t|e] eqn:B1.
  2:{ left. split; [reflexivity|discriminate]. }
  destruct (bind_varchar _) as [r|e] eqn:B2.
  2:{ left. split; [reflexivity|discriminate]. }
  destruct (fits_int64 (appointment_identity (db w) + 1)) eqn:Fn.
  2:{ left. split; [reflexivity|discriminate]. }
  destruct (new_record_found (db w) (inserted (db w) p d t r) Ip Id) as (row & F & _).
  simpl in F. right. exists m, p, d, t, r, row. cbv zeta. rewrite F. done.
Qed.

(** *** DELETE /appointments/{id}, path by path *)

Lemma delete_missing w id :
  fits_int64 id = true ->
  ~ In id (map Appointment.appointment_id (Appointments (db w))) ->
  delete_appointment id w =
    (jsonify not_found 404, {| db := db w; conns := conns w; log := log w ++ [SELECT] |}).
Proof.
  intros F N. unfold delete_appointment. run.
  rewrite (count_where_absent TAppointment _ _ F N). run. reflexivity.
Qed.

(** An id the driver cannot bind: the counting SELECT raises. *)
Lemma delete_overflow w id :
  fits_int64 id = false ->
  delete_appointment id w =
    (jsonify (server_error OverflowError) 500,
     opened w (fresh (dom (conns w))) {| txn := db w; scope_identity := None |}
       (log w ++ [SELECT]) (db w)).
Proof.
  intros F. unfold delete_appointment. run.
  rewrite (count_where_overflow TAppointment _ _ F). run. reflexivity.
Qed.

Lemma delete_present w id :
  fits_int64 id = true ->
  In id (map Appointment.appointment_id (Appointments (db w))) ->
  delete_appointment id w =
    (jsonify deleted 200,
     {| db := without_id id (db w); conns := conns w;
        log := log w ++ [SELECT; DELETE] |}).
Proof.
  intros F I. unfold delete_appointment. run.
  destruct (count_where_present TAppointment _ _ F I) as (k & -> & K). run.
  rewrite K. run. rewrite <- app_assoc. reflexivity.
Qed.

Lemma without_id_absent id s :
  ~ In id (map Appointment.appointment_id (Appointments (without_id id s))).
Proof.
  unfold without_id; simpl. intros (a & E & I)%in_map_iff.
  apply filter_In in I as (_ & N). apply negb_true_iff in N. lia.
Qed.

End Writing.

Section WritingTheorems.
Context `{Env}.

(** X11. POST /appointments with a body whose ids pass [int()] and name
    a stored patient and a stored doctor, and whose date and reason the
    server accepts, while no stored id is above the identity counter,
    the two ids and the next identity value being integers of 64 bits:
    the answer is 201 with the new record, numbered one above the
    counter, joined with the first patient and the first doctor of
    those ids; that record is appended and committed, the connection is
    closed, and the statements sent are two SELECTs, the INSERT and two
    more SELECTs. *)
Theorem create_appointment_succeeds (w : World) (m : gmap string pyval)
    (p d : Z) (t : option datetime) (r : option string)
    (pat : Patient.row) (doc : Doctor.row) :
  py_int (field m "patient_id") = Ret p ->
  py_int (field m "doctor_id") = Ret d ->
  fits_int64 p = true -> fits_int64 d = true ->
  fits_int64 (appointment_identity (db w) + 1) = true ->
  bind_datetime (field m "appointment_date") = Ret t ->
  bind_varchar (field m "reason") = Ret r ->
  List.find (fun x => Patient.patient_id x =? p)%Z (Patients (db w)) = Some pat ->
  List.find (fun x => Doctor.doctor_id x =? d)%Z (Doctors (db w)) = Some doc ->
  Forall (fun a => Appointment.appointment_id a <= appointment_identity (db w))%Z
    (Appointments (db w)) ->
  create_appointment (PDict m) w =
    (jsonify (written (view (inserted (db w) p d t r) pat doc)) 201,
     {| db := with_inserted (db w) (inserted (db w) p d t r);
        conns := conns w;
        log := log w ++ [SELECT; SELECT; INSERT; SELECT; SELECT] |}).
Proof.
  intros E1 E2 Bp Bd Bn B1 B2 Fp Fd B.
  assert (Ip : In p (map Patient.patient_id (Patients (db w)))).
  { apply find_some in Fp as (I & E). apply in_map_iff. exists pat. split; [lia|done]. }
  assert (Id : In d (map Doctor.doctor_id (Doctors (db w)))).
  { apply find_some in Fd as (I & E). apply in_map_iff. exists doc. split; [lia|done]. }
  rewrite (create_run _ _ _ _ E1 E2 Bp Bd Ip Id), B1, B2, Bn. cbv zeta.
  pose proof (new_record_read_back (db w) (inserted (db w) p d t r) pat doc B eq_refl Fp Fd) as F.
  simpl in F. rewrite F. reflexivity.
Qed.

(** X12. POST /appointments commits a record exactly when it answers
    201: then one record was appended, numbered one above the identity
    counter, whose patient and doctor exist, and the connection is
    closed; with any other status the committed database is the one
    before. *)
Theorem create_commits_exactly_with_201 (data : pyval) (w : World) :
  let R := create_appointment data w in
  (status (fst R) = 201 /\ conns (snd R) = conns w /\
   exists a,
     db (snd R) = with_inserted (db w) a /\
     Appointment.appointment_id a = (appointment_identity (db w) + 1)%Z /\
     In (Appointment.patient_id a) (map Patient.patient_id (Patients (db w))) /\
     In (Appointment.doctor_id a) (map Doctor.doctor_id (Doctors (db w)))) \/
  (status (fst R) <> 201 /\ db (snd R) = db w).
Proof.
  destruct (create_cases data w)
    as [(D & S)|(m & p & d & t & r & row & _ & _ & _ & _ & _ & Ip & Id & _ & _ & E)].
  - right. done.
  - left. cbv zeta. rewrite E. simpl. repeat split.
    exists (inserted (db w) p d t r). done.
Qed.

(** X13. DELETE /appointments/{id} for a stored id (an integer of 64
    bits, as the driver binds it) answers 200 "Appointment deleted":
    the records with that id are removed and the others stay as they
    were, in their order; the deletion is committed, the connection is
    closed, and the statements sent are the counting SELECT and the
    DELETE. *)
Theorem delete_stored_appointment (w : World) (appointment_id : Z) :
  fits_int64 appointment_id = true ->
  In appointment_id (map Appointment.appointment_id (Appointments (db w))) ->
  let R := delete_appointment appointment_id w in
  R = (jsonify deleted 200,
       {| db := without_id appointment_id (db w); conns := conns w;
          log := log w ++ [SELECT; DELETE] |}) /\
  ~ In appointment_id (map Appointment.appointment_id (Appointments (db (snd R)))) /\
  forall a, Appointment.appointment_id a <> appointment_id ->
    (In a (Appointments (db (snd R))) <-> In a (Appointments (db w))).
Proof.
  intros F I R. subst R. rewrite (delete_present _ _ F I). simpl.
  split; [reflexivity|]. split; [apply without_id_absent|].
  intros a N. rewrite filter_In. split; [tauto|].
  intros Ia. split; [done|]. apply negb_true_iff. lia.
Qed.

(** X14. Deleting the same id a second time never deletes, whatever
    the first deletion did: the second answer is 404 "Appointment not
    found" with only the counting SELECT sent when the id is an integer
    the driver binds, and the 500 of the [except] clause, the connection
    left open, when it is not; either way the database stays as the
    first deletion left it. *)
Theorem delete_twice (w : World) (appointment_id : Z) :
  let w1 := snd (delete_appointment appointment_id w) in
  (fits_int64 appointment_id = true ->
   delete_appointment appointment_id w1 =
     (jsonify not_found 404,
      {| db := db w1; conns := conns w1; log := log w1 ++ [SELECT] |})) /\
  (fits_int64 appointment_id = false ->
   fst (delete_appointment appointment_id w1) = jsonify (server_error OverflowError) 500 /\
   conns (snd (delete_appointment appointment_id w1)) <> conns w1) /\
  db (snd (delete_appointment appointment_id w1)) = db w1 /\
  log (snd (delete_appointment appointment_id w1)) = log w1 ++ [SELECT].
Proof.
  intros w1.
  assert (A : fits_int64 appointment_id = true ->
            delete_appointment appointment_id w1 =
              (jsonify not_found 404,
               {| db := db w1; conns := conns w1; log := log w1 ++ [SELECT] |})).
  { intros F. apply (delete_missing _ _ F). subst w1.
    destruct (in_dec Z.eq_dec appointment_id
                (map Appointment.appointment_id (Appointments (db w)))) as [I|N].
    - rewrite (delete_present _ _ F I). simpl. apply without_id_absent.
    - rewrite (delete_missing _ _ F N). done. }
  destruct (fits_int64 appointment_id) eqn:F.
  - rewrite (A eq_refl). done.
  - rewrite (delete_overflow w1 _ F).
    split; [discriminate|]. split; [|done]. intros _. split; [done|].
    by apply opened_not_released.
Qed.

(** X15. Creating an appointment and deleting it again: when no stored
    id is above the identity counter and the creation answers 201,
    DELETE of the id in that answer answers 200 and the appointments
    are those before the creation; the identity counter has advanced by
    one, so the id is not given out again. *)
Theorem create_then_delete (data : pyval) (w : World) :
  Forall (fun a => Appointment.appointment_id a <= appointment_identity (db w))%Z
    (Appointments (db w)) ->
  let R := create_appointment data w in
  status (fst R) = 201 ->
  exists row new_id,
    body (fst R) = written row /\
    AppointmentView.appointment_id row = new_id /\
    let R' := delete_appointment new_id (snd R) in
    status (fst R') = 200 /\
    Appointments (db (snd R')) = Appointments (db w) /\
    appointment_identity (db (snd R')) = (appointment_identity (db w) + 1)%Z.
Proof.
  intros B R S. subst R.
  destruct (create_cases data w)
    as [(_ & N)|(m & p & d & t & r & row & _ & _ & _ & _ & _ & Ip & Id & Fn & F & E)];
    [done|].
  apply find_some in F as (_ & F). apply Z.eqb_eq in F.
  exists row, (appointment_identity (db w) + 1)%Z. rewrite E. simpl.
  split; [reflexivity|]. split; [done|].
  rewrite (delete_present _ _ Fn).
  2:{ simpl. rewrite map_app. apply in_or_app. right. by left. }
  simpl. split; [reflexivity|]. split; [|reflexivity].
  rewrite List.filter_app. simpl. rewrite Z.eqb_refl. simpl. rewrite app_nil_r.
  apply forallb_filter_id. apply forallb_forall. intros a I.
  rewrite List.Forall_forall in B. apply B in I. apply negb_true_iff. lia.
Qed.

End WritingTheorems.

(** * Updating appointments: what a successful update stores *)

Section UpdateEffect.
Context `{Env}.

Lemma count_present_In t n s k :
  count_where_id t (PInt n) s = Ret k -> (k =? 0)%Z = false -> In n (table_ids t s).
Proof.
  intros C K. destruct (fits_int64 n) eqn:F.
  2:{ rewrite (count_where_overflow _ _ _ F) in C. discriminate C. }
  destruct (in_dec Z.eq_dec n (table_ids t s)) as [I|N]; [done|].
  rewrite (count_where_absent _ _ _ F N) in C. inversion C; subst. discriminate K.
Qed.

Lemma is_not_None_false v : is_not_None v = false -> v = PNone.
Proof. by destruct v. Qed.

(** Whatever path an update takes: either nothing is committed and the
    status is not 200, or the target exists, the supplied references
    were counted and found, the UPDATE was accepted and committed, the
    connection is closed, and the answer is built from the record read
    back. *)
Lemma update_cases w id m :
  let v1 := field m "patient_id" in
  let v2 := field m "doctor_id" in
  let v3 := field m "appointment_date" in
  let v4 := field m "reason" in
  let R := update_appointment id (PDict m) w in
  (db (snd R) = db w /\ status (fst R) <> 200) \/
  (exists f,
     (forall a, modifies_only v1 v2 v3 v4 a (f a) /\ holds_supplied v1 v2 v3 v4 (f a)) /\
     In id (map Appointment.appointment_id (Appointments (db w))) /\
     (v1 <> PNone -> exists k, count_where_id TPatient v1 (db w) = Ret k /\ k <> 0%Z) /\
     (v2 <> PNone -> exists k, count_where_id TDoctor v2 (db w) = Ret k /\ k <> 0%Z) /\
     db (snd R) = updated_rows f id (db w) /\
     conns (snd R) = conns w /\
     fst R =
       match List.find (fun r => AppointmentView.appointment_id r =? id)%Z
               (appointment_join (updated_rows f id (db w))) with
       | Some r => jsonify (written r) 200
       | None => jsonify (server_error TypeError) 500
       end).
Proof.
  intros v1 v2 v3 v4 R. subst v1 v2 v3 v4 R.
  unfold update_appointment. run.
  destruct (update_sets _ _ _ _) as [[sets params]|e] eqn:E; run; [|by left].
  destruct sets as [|c sets]; [by left|].
  assert (NE : c :: sets <> []) by done. run.
  destruct (fits_int64 id) eqn:Fi.
  2:{ rewrite (count_where_overflow TAppointment _ _ Fi). run. by left. }
  destruct (count_where_int TAppointment id (db w) Fi) as (k & C). rewrite C. run.
  destruct (k =? 0)%Z eqn:K; run; [by left|].
  pose proof (count_present_In _ _ _ _ C K) as I. clear C K.
  destruct (is_not_None (field m "patient_id")) eqn:N1; run.
  - destruct (count_where_id TPatient _ _) as [k1|e1] eqn:C1; run; [|by left].
    destruct (k1 =? 0)%Z eqn:K1; run; [by left|]. apply Z.eqb_neq in K1.
    destruct (is_not_None (field m "doctor_id")) eqn:N2; run.
    + destruct (count_where_id TDoctor _ _) as [k2|e2] eqn:C2; run; [|by left].
      destruct (k2 =? 0)%Z eqn:K2; run; [by left|]. apply Z.eqb_neq in K2.
      destruct (exec_update_sets_holds _ _ _ _ _ _ id
                  {| txn := db w; scope_identity := None |} E NE)
        as [(e & ->)|(f & F & ->)]; run; [by left|].
      right. exists f. rewrite fetchone_filter.
      repeat split; try apply F; try done; try (by eexists);
        try (intros; congruence); by destruct (List.find _ _).
    + destruct (exec_update_sets_holds _ _ _ _ _ _ id
                  {| txn := db w; scope_identity := None |} E NE)
        as [(e & ->)|(f & F & ->)]; run; [by left|].
      right. exists f. rewrite fetchone_filter. apply is_not_None_false in N2.
      repeat split; try apply F; try done; try (by eexists);
        try (intros; congruence); by destruct (List.find _ _).
  - apply is_not_None_false in N1.
    destruct (is_not_None (field m "doctor_id")) eqn:N2; run.
    + destruct (count_where_id TDoctor _ _) as [k2|e2] eqn:C2; run; [|by left].
      destruct (k2 =? 0)%Z eqn:K2; run; [by left|]. apply Z.eqb_neq in K2.
      destruct (exec_update_sets_holds _ _ _ _ _ _ id
                  {| txn := db w; scope_identity := None |} E NE)
        as [(e & ->)|(f & F & ->)]; run; [by left|].
      right. exists f. rewrite fetchone_filter.
      repeat split; try apply F; try done; try (by eexists);
        try (intros; congruence); by destruct (List.find _ _).
    + destruct (exec_update_sets_holds _ _ _ _ _ _ id
                  {| txn := db w; scope_identity := None |} E NE)
        as [(e & ->)|(f & F & ->)]; run; [by left|].
      right. exists f. rewrite fetchone_filter. apply is_not_None_false in N2.
      repeat split; try apply F; try done; try (by eexists);
        try (intros; congruence); by destruct (List.find _ _).
Qed.

End UpdateEffect.

Section UpdateTheorems.
Context `{Env}.

Lemma updated_rows_In f id s a' :
  In a' (Appointments (updated_rows f id s)) ->
  exists a, In a (Appointments s) /\
    a' = if (Appointment.appointment_id a =? id)%Z then f a else a.
Proof.
  unfold updated_rows; simpl. intros (a & E & I)%in_map_iff. by exists a.
Qed.

(** X16. A PUT /appointments/{id} that answers 200 has committed what
    it answers with: the body holds the joined row of a stored record
    with that id, and every stored record with that id holds, in each
    field the body of the request supplied, the value bound for it
    ([int()] of the ids, the server's reading of the date and the
    reason). The connection is closed. *)
Theorem update_stores_supplied (w : World) (appointment_id : Z) (m : gmap string pyval) :
  let R := update_appointment appointment_id (PDict m) w in
  let holds := holds_supplied (field m "patient_id") (field m "doctor_id")
                 (field m "appointment_date") (field m "reason") in
  status (fst R) = 200 ->
  conns (snd R) = conns w /\
  (exists a p d,
     body (fst R) = written (view a p d) /\
     Appointment.appointment_id a = appointment_id /\
     In a (Appointments (db (snd R))) /\
     In p (Patients (db (snd R))) /\ In d (Doctors (db (snd R)))) /\
  Forall (fun a => Appointment.appointment_id a = appointment_id -> holds a)
    (Appointments (db (snd R))).
Proof.
  intros R holds S. subst R holds.
  destruct (update_cases w appointment_id m) as [(_ & N)|(f & F & I & _ & _ & D & C & E)];
    [done|].
  rewrite E in S |- *. rewrite D. split; [done|]. split.
  - destruct (List.find _ _) as [row|] eqn:Fd; [|discriminate S].
    apply find_some in Fd as (J & Ei). apply Z.eqb_eq in Ei.
    apply in_appointment_join in J as (a & p & d & Ia & Ip & _ & Id & _ & ->).
    exists a, p, d. done.
  - apply List.Forall_forall. intros a' (a & Ia & ->)%updated_rows_In.
    destruct (Z.eqb_spec (Appointment.appointment_id a) appointment_id) as [Ea|Na].
    + intros _. apply F.
    + done.
Qed.

End UpdateTheorems.

(** * Invariants of the store *)

Section Invariants.
Context `{Env}.

Lemma ids_ok_with_inserted s a :
  Appointment.appointment_id a = (appointment_identity s + 1)%Z ->
  ids_ok s -> ids_ok (with_inserted s a).
Proof.
  intros E (N & B). unfold ids_ok, with_inserted; simpl. split.
  - rewrite map_app. simpl. apply NoDup_app. split; [done|].
    split; [|apply NoDup_singleton].
    intros i (a0 & Ei & I)%list_elem_of_In%in_map_iff Ea%list_elem_of_singleton.
    rewrite List.Forall_forall in B. apply B in I. lia.
  - apply Forall_app. split; [|constructor; [lia|constructor]].
    eapply Forall_impl; [exact B|]. simpl. intros; lia.
Qed.

Lemma ids_ok_without_id id s : ids_ok s -> ids_ok (without_id id s).
Proof.
  intros (N & B). unfold ids_ok, without_id; simpl. split.
  - clear B. revert N. induction (Appointments s) as [|a l IH]; simpl; [done|].
    intros [Na Nl]%NoDup_cons. destruct (negb _); simpl; [|by apply IH].
    apply NoDup_cons. split; [|by apply IH].
    intros (a0 & E & I)%list_elem_of_In%in_map_iff. apply Na.
    apply filter_In in I as (I & _). rewrite <- E. apply list_elem_of_In.
    by apply in_map.
  - apply List.Forall_forall. intros a (I & _)%filter_In.
    rewrite List.Forall_forall in B. by apply B.
Qed.

Lemma updated_rows_ids f id s :
  (forall a, Appointment.appointment_id (f a) = Appointment.appointment_id a) ->
  map Appointment.appointment_id (Appointments (updated_rows f id s)) =
    map Appointment.appointment_id (Appointments s).
Proof.
  intros F. unfold updated_rows; simpl. rewrite map_map. apply map_ext.
  intros a. by destruct (_ =? _)%Z.
Qed.

Lemma ids_ok_updated_rows f id s :
  (forall a, Appointment.appointment_id (f a) = Appointment.appointment_id a) ->
  ids_ok s -> ids_ok (updated_rows f id s).
Proof.
  intros F (N & B). split.
  - by rewrite updated_rows_ids.
  - apply List.Forall_forall. intros a' (a & Ia & ->)%updated_rows_In.
    rewrite List.Forall_forall in B. apply B in Ia. unfold updated_rows; simpl.
    destruct (_ =? _)%Z; [rewrite F|]; done.
Qed.

(** The handlers that only read leave the committed database alone. *)
Lemma read_only_db q w : read_only q = true -> db (snd (handle q w)) = db w.
Proof.
  destruct q; simpl; try discriminate; intros _; handler; paths; reflexivity.
Qed.

Lemma update_not_dict id data w :
  (forall m, data <> PDict m) -> db (snd (update_appointment id data w)) = db w.
Proof.
  intros N. unfold update_appointment. run.
  destruct data; try reflexivity. by destruct (N m).
Qed.

Lemma delete_db id w :
  let w' := snd (delete_appointment id w) in
  db w' = db w \/ db w' = without_id id (db w).
Proof.
  destruct (fits_int64 id) eqn:F; [|left; by rewrite (delete_overflow _ _ F)].
  destruct (in_dec Z.eq_dec id (map Appointment.appointment_id (Appointments (db w))))
    as [I|N].
  - right. by rewrite (delete_present _ _ F I).
  - left. by rewrite (delete_missing _ _ F N).
Qed.

Lemma is_dict (data : pyval) : (exists m, data = PDict m) \/ (forall m, data <> PDict m).
Proof. destruct data; try (right; discriminate). left. by eexists. Qed.

(** X17. No request breaks the numbering of the appointments: if the
    stored ids are distinct and none is above the identity counter
    before a request, so it is after it, whatever the request and
    however it ends. *)
Theorem handlers_keep_ids (q : request) (w : World) :
  ids_ok (db w) -> ids_ok (db (snd (handle q w))).
Proof.
  intros O. destruct (read_only q) eqn:RO; [by rewrite read_only_db|].
  destruct q; try discriminate RO; simpl.
  - destruct (create_cases data w)
      as [(-> & _)|(m & p & d & t & r & row & _ & _ & _ & _ & _ & _ & _ & _ & _ & ->)];
      [done|].
    simpl. by apply ids_ok_with_inserted.
  - destruct (is_dict data) as [(m & ->)|N]; [|by rewrite update_not_dict].
    destruct (update_cases w appointment_id m) as [(-> & _)|(f & F & _ & _ & _ & -> & _)];
      [done|].
    apply ids_ok_updated_rows; [|done]. intros a. apply F.
  - destruct (delete_db appointment_id w) as [->| ->]; [done|].
    by apply ids_ok_without_id.
Qed.

End Invariants.

Section References.
Context `{Env}.

(** A double that equals an integer column value has that value as its
    integer part. *)
Lemma float_eq_int_trunc f c n :
  float_eq_int f c = true -> PyInt.trunc_float f = Some n -> c = n.
Proof.
  destruct f as [s| | |s m e]; simpl; try discriminate.
  - intros E [= <-]. lia.
  - destruct e as [|p|p]; intros E [= <-]; apply Z.eqb_eq in E.
    + destruct s; lia.
    + destruct s; lia.
    + assert (P : (0 < 2 ^ Z.pos p)%Z) by (apply Z.pow_pos_nonneg; lia).
      destruct s.
      * assert (Q : (Z.pos m = (- c) * 2 ^ Z.pos p)%Z) by lia.
        rewrite Q, Z.div_mul by lia. lia.
      * rewrite <- E, Z.div_mul by lia. reflexivity.
Qed.

Lemma filter_nonempty {A} (p : A -> bool) l :
  Z.of_nat (length (List.filter p l)) <> 0%Z -> exists c, In c l /\ p c = true.
Proof.
  destruct (List.filter p l) as [|c r] eqn:E; simpl; [done|]. intros _.
  exists c. apply filter_In. rewrite E. by left.
Qed.

#[local] Transparent count_where_id py_int.

(** A reference the update handler counted and found is a stored key,
    when [int()] and the server read it alike. *)
Lemma checked_reference t v s k n :
  count_where_id t v s = Ret k -> k <> 0%Z -> py_int v = Ret n -> read_alike v ->
  In n (table_ids t s).
Proof.
  unfold count_where_id. destruct v as [|b|i|f|x|l|m]; simpl; try discriminate.
  - intros [= <-] (c & I & E%Z.eqb_eq)%filter_nonempty [= <-] _. by subst c.
  - destruct (bind_pyint i) as [i'|] eqn:B; simpl; [|discriminate].
    apply bind_pyint_Ret in B. subst i'.
    intros [= <-] (c & I & E%Z.eqb_eq)%filter_nonempty [= <-] _. by subst c.
  - intros [= <-] (c & I & E)%filter_nonempty P _.
    assert (T : PyInt.trunc_float f = Some n).
    { destruct f; simpl in P; try discriminate P;
        simpl; inversion P; reflexivity. }
    by rewrite <- (float_eq_int_trunc _ _ _ E T).
  - intros C K P. rewrite P. destruct (varchar_to_int x) as [n'|]; simpl in C; [|discriminate C].
    injection C as <-. apply filter_nonempty in K as (c & I & E%Z.eqb_eq).
    intros <-. by subst c.
Qed.

#[local] Opaque count_where_id py_int.

Lemma references_ok_with_inserted s a :
  In (Appointment.patient_id a) (map Patient.patient_id (Patients s)) ->
  In (Appointment.doctor_id a) (map Doctor.doctor_id (Doctors s)) ->
  references_ok s -> references_ok (with_inserted s a).
Proof.
  intros Ip Id O. unfold references_ok, with_inserted; simpl.
  apply Forall_app. split; [done|]. by repeat constructor.
Qed.

Lemma references_ok_without_id id s : references_ok s -> references_ok (without_id id s).
Proof.
  unfold references_ok, without_id; simpl. rewrite !List.Forall_forall.
  intros O a (I & _)%filter_In. by apply O.
Qed.

Lemma references_ok_updated_rows f id s :
  (forall a,
     In (Appointment.patient_id a) (map Patient.patient_id (Patients s)) ->
     In (Appointment.doctor_id a) (map Doctor.doctor_id (Doctors s)) ->
     In (Appointment.patient_id (f a)) (map Patient.patient_id (Patients s)) /\
     In (Appointment.doctor_id (f a)) (map Doctor.doctor_id (Doctors s))) ->
  references_ok s -> references_ok (updated_rows f id s).
Proof.
  unfold references_ok. rewrite !List.Forall_forall.
  intros F O a' (a & Ia & ->)%updated_rows_In. unfold updated_rows; simpl.
  destruct (O a Ia) as (Ip & Id). destruct (_ =? _)%Z; [by apply F|done].
Qed.

Lemma is_None (v : pyval) : v = PNone \/ v <> PNone.
Proof. destruct v; (by left) || (by right). Qed.

(** X18. No request leaves an appointment without its patient or its
    doctor: if every stored appointment references a stored patient and
    a stored doctor before a request, so it does after it, provided the
    ids an update supplies as text are read alike by [int()] and by the
    server. *)
Theorem handlers_keep_references (q : request) (w : World) :
  ids_read_alike q ->
  references_ok (db w) -> references_ok (db (snd (handle q w))).
Proof.
  intros A O. destruct (read_only q) eqn:RO; [by rewrite read_only_db|].
  destruct q; try discriminate RO; simpl.
  - destruct (create_cases data w)
      as [(-> & _)|(m & p & d & t & r & row & _ & _ & _ & _ & _ & Ip & Id & _ & _ & ->)];
      [done|].
    simpl. by apply references_ok_with_inserted.
  - destruct (is_dict data) as [(m & ->)|N]; [|by rewrite update_not_dict].
    destruct A as (A1 & A2).
    destruct (update_cases w appointment_id m)
      as [(-> & _)|(f & F & _ & C1 & C2 & -> & _)]; [done|].
    apply references_ok_updated_rows; [|done]. intros a Ip Id.
    destruct (F a) as ((_ & M1 & M2 & _) & (S1 & S2 & _)). split.
    + destruct (is_None (field m "patient_id")) as [E|NE].
      * by rewrite (M1 E).
      * destruct (C1 NE) as (k & C & K).
        exact (checked_reference TPatient _ _ _ _ C K (S1 NE) A1).
    + destruct (is_None (field m "doctor_id")) as [E|NE].
      * by rewrite (M2 E).
      * destruct (C2 NE) as (k & C & K).
        exact (checked_reference TDoctor _ _ _ _ C K (S2 NE) A2).
  - destruct (delete_db appointment_id w) as [->| ->]; [done|].
    by apply references_ok_without_id.
Qed.

End References.

(** * Reading back what was written *)

Section ReadBack.
Context `{Env}.

(** GET /appointments without filters lists the whole join. *)
Lemma get_appointments_unfiltered w :
  get_appointments [] w =
    (jsonify (PList (map _appointment_row_to_json
                       (order_by appointment_order
                          (List.filter (fun _ => true) (appointment_join (db w)))))) 200,
     {| db := db w; conns := conns w; log := log w ++ [SELECT] |}).
Proof. unfold get_appointments. run. reflexivity. Qed.

Lemma filter_all {A} (l : list A) : List.filter (fun _ => true) l = l.
Proof. induction l as [|a l IH]; simpl; [reflexivity|by rewrite IH]. Qed.

(** X19. What a creation answers with is what the list then shows: when
    POST /appointments answers 201, the record in its body is one of
    the elements GET /appointments returns next, equal field by field,
    date formatting included. *)
Theorem created_appointment_is_listed (data : pyval) (w : World) :
  let R := create_appointment data w in
  status (fst R) = 201 ->
  exists created listed,
    getitem (body (fst R)) "appointment" = Some created /\
    fst (get_appointments [] (snd R)) = jsonify (PList listed) 200 /\
    In created listed.
Proof.
  intros R S. subst R.
  destruct (create_cases data w)
    as [(_ & N)|(m & p & d & t & r & row & _ & _ & _ & _ & _ & _ & _ & _ & F & E)];
    [done|].
  rewrite E. simpl. rewrite get_appointments_unfiltered. simpl.
  eexists _, _. split; [reflexivity|]. split; [reflexivity|].
  apply in_map. rewrite filter_all.
  apply (Permutation_in _ (Permutation_sym (order_by_Permutation _ _))).
  by apply find_some in F as (I & _).
Qed.

(** X20. What an update answers with is what the list then shows: when
    PUT /appointments/{id} answers 200, the record in its body is one
    of the elements GET /appointments returns next. *)
Theorem updated_appointment_is_listed (appointment_id : Z) (m : gmap string pyval)
    (w : World) :
  let R := update_appointment appointment_id (PDict m) w in
  status (fst R) = 200 ->
  exists updated listed,
    getitem (body (fst R)) "appointment" = Some updated /\
    fst (get_appointments [] (snd R)) = jsonify (PList listed) 200 /\
    In updated listed.
Proof.
  intros R S. subst R.
  destruct (update_cases w appointment_id m) as [(_ & N)|(f & _ & _ & _ & _ & D & _ & E)];
    [done|].
  rewrite E in S |- *. destruct (List.find _ _) as [row|] eqn:F; [|discriminate S].
  rewrite get_appointments_unfiltered, D. simpl.
  eexists _, _. split; [reflexivity|]. split; [reflexivity|].
  apply in_map. rewrite filter_all.
  apply (Permutation_in _ (Permutation_sym (order_by_Permutation _ _))).
  by apply find_some in F as (I & _).
Qed.

(** X21. A deleted appointment is gone from the list: after DELETE
    /appointments/{id} answered 200, no element GET /appointments
    returns has that [appointment_id]. *)
Theorem deleted_appointment_is_not_listed (appointment_id : Z) (w : World) :
  let R := delete_appointment appointment_id w in
  status (fst R) = 200 ->
  exists listed,
    fst (get_appointments [] (snd R)) = jsonify (PList listed) 200 /\
    Forall (fun r => getitem r "appointment_id" <> Some (PInt appointment_id)) listed.
Proof.
  intros R S. subst R.
  destruct (fits_int64 appointment_id) eqn:F.
  2:{ rewrite (delete_overflow _ _ F) in S. discriminate S. }
  destruct (in_dec Z.eq_dec appointment_id
              (map Appointment.appointment_id (Appointments (db w)))) as [I|N].
  2:{ rewrite (delete_missing _ _ F N) in S. discriminate S. }
  rewrite (delete_present _ _ F I). simpl. rewrite get_appointments_unfiltered. simpl.
  eexists. split; [reflexivity|]. rewrite filter_all.
  apply List.Forall_forall. intros j (r & <- & Ir)%in_map_iff.
  apply (Permutation_in _ (order_by_Permutation _ _)) in Ir.
  apply join_appointment_id in Ir. intros E.
  apply (without_id_absent appointment_id (db w)).
  replace appointment_id with (AppointmentView.appointment_id r) at 1; [done|].
  vm_compute in E. injection E as E. exact E.
Qed.

End ReadBack.

(** * The theorems at work on the sample database *)

#[local] Existing Instance Sample.env.

(** ** The Python primitives on literals *)

Example int_of_string_examples :
  map (PyInt.of_string 4300)
      [" 12 "; "-1_0"; "+7"; "007"; "1__0"; "_1"; "1_"; EmptyString; " "; "- 1"; "1 2"; "1.5"; "abc"]
  = [Some 12; Some (-10); Some 7; Some 7; None; None; None; None; None; None; None;
     None; None]%Z.
Proof. vm_compute. reflexivity. Qed.

Example int_of_value_examples :
  map py_int [PBool true; PInt 5; PStr "5"; PNone; PList []]
  = [Ret 1%Z; Ret 5%Z; Ret 5%Z; Raise TypeError; Raise TypeError].
Proof. vm_compute. reflexivity. Qed.

Example str_of_datetime_example :
  PyStr.of_datetime
    {| dt_date := {| year := 2025; month := 1; day := 2 |};
       hour := 3; minute := 4; second := 5; microsecond := 3000 |}
  = "2025-01-02 03:04:05.003000".
Proof. vm_compute. reflexivity. Qed.

(** [float(Decimal("12.50"))] is 12.5, that is [7036874417766400 * 2^-49]. *)
Example float_of_decimal_example :
  float_of_decimal {| unscaled := 1250; scale := 2 |}
  = S754_finite false 7036874417766400 (-49).
Proof. vm_compute. reflexivity. Qed.

(** One rounding, not two: [float(Decimal("90071992547409.93"))], whose
    unscaled value is [2^53 + 1]. *)
Example float_of_decimal_rounds_once :
  float_of_decimal {| unscaled := 2 ^ 53 + 1; scale := 2 |}
  = S754_finite false 5764607523034236 (-6).
Proof. vm_compute. reflexivity. Qed.

(** ** Runs of the handlers *)

(** POST /appointments with the body of the docstring: 201, and the
    appointment read back carries the names of patient 1 and doctor 2. *)
Example create_appointment_example :
  let data := dict [("patient_id", PInt 1); ("doctor_id", PInt 2);
                    ("appointment_date", PStr "2025-11-28 09:30:00");
                    ("reason", PStr "Check-up")] in
  create_appointment data Sample.world =
    (jsonify
       (dict [("success", PBool true);
              ("appointment",
                dict [("appointment_id", PInt 4);
                      ("appointment_date", PStr "2025-11-28 09:30:00");
                      ("reason", PStr "Check-up");
                      ("patient_id", PInt 1); ("patient_name", PStr "Alice");
                      ("doctor_id", PInt 2); ("doctor_name", PStr "Dr. Who")])]) 201,
     {| db := set_Appointments Sample.store
                (Appointments Sample.store ++
                 [ {| Appointment.appointment_id := 4; Appointment.patient_id := 1;
                      Appointment.doctor_id := 2;
                      Appointment.appointment_date := Sample.at_ 2025 11 28 9 30;
                      Appointment.reason := Some "Check-up" |} ]) 4;
        conns := ∅;
        log := [SELECT; SELECT; INSERT; SELECT; SELECT] |}).
Proof. vm_compute. reflexivity. Qed.

(** GET /appointments?patient_id=1: the two appointments of patient 1,
    the later one first. *)
Example get_appointments_example :
  map (fun r => getitem r "appointment_id")
    match body (fst (get_appointments [("patient_id", "1")] Sample.world)) with
    | PList l => l
    | _ => []
    end = [Some (PInt 3); Some (PInt 1)].
Proof. vm_compute. reflexivity. Qed.

(** GET /billing?status=Paid *)
Example get_billing_example :
  body (fst (get_billing [("status", "Paid")] Sample.world)) =
    PList [dict [("bill_id", PInt 1); ("patient_id", PInt 1);
                 ("patient_name", PStr "Alice"); ("treatment_id", PInt 1);
                 ("amount", PFloat (S754_finite false 7036874417766400 (-49)));
                 ("payment_status", PStr "Paid");
                 ("billing_date", PStr "2025-01-11")]].
Proof. vm_compute. reflexivity. Qed.

(** DELETE /appointments/2 *)
Example delete_appointment_example :
  let (r, w) := delete_appointment 2 Sample.world in
  status r = 200 /\ log w = [SELECT; DELETE] /\ conns w = ∅ /\
  map Appointment.appointment_id (Appointments (db w)) = [1; 3]%Z.
Proof. vm_compute. repeat split. Qed.

(** ** C1 *)


(** ** C2 *)

(** As the claim states it, C2 fails: patient 999 does not exist and the
    body has no [doctor_id]; [int(None)] raises before anything is
    checked and the answer is 500, not 400. *)
Lemma create_unknown_patient_no_doctor_500 :
  ~ In 999%Z (map Patient.patient_id (Patients (db Sample.world))) /\
  create_appointment (dict [("patient_id", PInt 999)]) Sample.world =
    (jsonify (server_error TypeError) 500, Sample.world).
Proof.
  split.
  - vm_compute. intuition discriminate.
  - vm_compute. reflexivity.
Qed.

(** POST /appointments {"patient_id": 999, "doctor_id": 2}, and the same
    with the patient 2^63, which the driver does not bind. *)
Lemma create_unknown_patient_witness :
  create_appointment (dict [("patient_id", PInt 999); ("doctor_id", PInt 2)]) Sample.world =
    (jsonify invalid_patient_id 400,
     {| db := Sample.store; conns := ∅; log := [SELECT] |}) /\
  (let R := create_appointment (dict [("patient_id", PInt (2 ^ 63)); ("doctor_id", PInt 2)])
              Sample.world in
   fst R = jsonify (server_error OverflowError) 500 /\
   conns (snd R) <> conns Sample.world /\ log (snd R) = log Sample.world ++ [SELECT] /\
   db (snd R) = db Sample.world).
Proof.
  split.
  - refine (proj1 (proj1 (proj2 (proj2
              (create_unknown_patient Sample.world
                 (dict [("patient_id", PInt 999); ("doctor_id", PInt 2)]) _)))
              (list_to_map [("patient_id", PInt 999); ("doctor_id", PInt 2)])
              999%Z 2%Z eq_refl _ _) _).
    + intros m p [= <-]. vm_compute. intros [= <-]. intuition discriminate.
    + vm_compute. reflexivity.
    + vm_compute. reflexivity.
    + vm_compute. reflexivity.
  - assert (N : forall m p,
              dict [("patient_id", PInt (2 ^ 63)); ("doctor_id", PInt 2)] = PDict m ->
              py_int (field m "patient_id") = Ret p ->
              ~ In p (map Patient.patient_id (Patients (db Sample.world)))).
    { intros m p [= <-]. vm_compute. intros [= <-]. intuition discriminate. }
    destruct (create_unknown_patient Sample.world
                (dict [("patient_id", PInt (2 ^ 63)); ("doctor_id", PInt 2)]) N)
      as (D & _ & A & _).
    destruct (A (list_to_map [("patient_id", PInt (2 ^ 63)); ("doctor_id", PInt 2)])
                (2 ^ 63)%Z 2%Z eq_refl) as (_ & O).
    + vm_compute. reflexivity.
    + vm_compute. reflexivity.
    + destruct O as (O1 & O2 & O3); [vm_compute; reflexivity|]. done.
Defined.

(** ** C3 *)

(** As the claim states it, C3 fails: a PUT whose body is [null]
    supplies none of the four fields, and is answered 500, not 400. *)
Lemma update_null_body_500 :
  update_appointment 1 PNone Sample.world =
    (jsonify (server_error AttributeError) 500, Sample.world) /\
  status (fst (update_appointment 1 PNone Sample.world)) <> 400.
Proof. vm_compute. split; [reflexivity|discriminate]. Qed.

(** PUT /appointments/1 with the body [{"reason": null}], and with the
    body [[]] *)
Lemma update_without_fields_witness :
  update_appointment 1 (PDict (<["reason" := PNone]> ∅)) Sample.world =
    (jsonify nothing_to_update 400, Sample.world) /\
  update_appointment 1 (PList []) Sample.world =
    (jsonify (server_error AttributeError) 500, Sample.world).
Proof.
  split.
  - destruct (update_without_fields Sample.world 1 (PDict (<["reason" := PNone]> ∅)))
      as (S & O & _).
    + intros m [= <-]. vm_compute. done.
    + rewrite (surjective_pairing (update_appointment _ _ _)), S, O; [reflexivity|].
      by eexists.
  - destruct (update_without_fields Sample.world 1 (PList [])) as (S & _ & N).
    + intros m [=].
    + rewrite (surjective_pairing (update_appointment _ _ _)), S, N; [reflexivity|].
      intros m [=].
Defined.

(** ** C4 *)

(** As the claim states it, C4 fails: no appointment has the id 2^63,
    which the route accepts, and DELETE /appointments/9223372036854775808
    is answered 500, not 404, with the connection left open. *)
Lemma delete_unbindable_id_500 :
  ~ In (2 ^ 63)%Z (map Appointment.appointment_id (Appointments (db Sample.world))) /\
  fst (delete_appointment (2 ^ 63) Sample.world) =
    jsonify (server_error OverflowError) 500 /\
  conns (snd (delete_appointment (2 ^ 63) Sample.world)) <> conns Sample.world.
Proof.
  split; [|split].
  - vm_compute. intuition discriminate.
  - vm_compute. reflexivity.
  - vm_compute. intros E. discriminate E.
Qed.

(** DELETE /appointments/9 *)
Lemma delete_missing_appointment_witness :
  delete_appointment 9 Sample.world =
    (jsonify not_found 404,
     {| db := Sample.store; conns := ∅; log := [SELECT] |}).
Proof.
  refine (proj1 (proj2 (proj2 (delete_missing_appointment Sample.world 9 _))) _).
  - vm_compute. intuition discriminate.
  - vm_compute. reflexivity.
Defined.

(** ** C5 *)

(** As the claim states it, C5 fails: the user "admin" exists, and a
    login for "admin" that carries no password is answered 500, not 401. *)
Lemma login_without_password_500 :
  In "admin" (map AppUser.username (AppUsers (db Sample.world))) /\
  login (dict [("username", PStr "admin")]) Sample.world =
    (jsonify (server_error AttributeError) 500,
     {| db := Sample.store; conns := ∅; log := [SELECT] |}).
Proof. split; [by left|]. vm_compute. reflexivity. Qed.

(** POST /login for "nobody", for "admin" with a wrong and with the
    right password, and for "admin" with a number as the password *)
Lemma login_outcomes_witness :
  login (dict [("username", PStr "nobody"); ("password", PStr "x")]) Sample.world =
    (jsonify user_not_found 401,
     {| db := Sample.store; conns := ∅; log := [SELECT] |}) /\
  login (dict [("username", PStr "admin"); ("password", PStr "guess")]) Sample.world =
    (jsonify invalid_password 401,
     {| db := Sample.store; conns := ∅; log := [SELECT] |}) /\
  login (dict [("username", PStr "admin"); ("password", PStr "s3cret")]) Sample.world =
    (jsonify
       (dict [("success", PBool true); ("message", PStr "Login successful");
              ("user", dict [("username", PStr "admin");
                             ("full_name", PStr "Site Admin");
                             ("role", PStr "admin")])]) 200,
     {| db := Sample.store; conns := ∅; log := [SELECT] |}) /\
  login (dict [("username", PStr "admin"); ("password", PInt 1234)]) Sample.world =
    (jsonify (server_error AttributeError) 500,
     {| db := Sample.store; conns := ∅; log := [SELECT] |}).
Proof.
  split; [|split; [|split]].
  - refine (proj1 (login_outcomes Sample.world
                     (list_to_map [("username", PStr "nobody"); ("password", PStr "x")])
                     "nobody" _) _).
    + vm_compute. reflexivity.
    + vm_compute. intuition discriminate.
  - refine (proj1 (proj1 (proj2 (login_outcomes Sample.world
                     (list_to_map [("username", PStr "admin"); ("password", PStr "guess")])
                     "admin" _))
                     {| AppUser.username := "admin"; AppUser.password_hash := "$2b$s3cret";
                        AppUser.full_name := Some "Site Admin";
                        AppUser.role := Some "admin" |} "guess" _ _) _);
      vm_compute; reflexivity.
  - refine (proj1 (proj2 (proj1 (proj2 (login_outcomes Sample.world
                     (list_to_map [("username", PStr "admin"); ("password", PStr "s3cret")])
                     "admin" _))
                     {| AppUser.username := "admin"; AppUser.password_hash := "$2b$s3cret";
                        AppUser.full_name := Some "Site Admin";
                        AppUser.role := Some "admin" |} "s3cret" _ _) _));
      vm_compute; reflexivity.
  - refine (proj1 (proj1 (proj2 (proj2 (login_outcomes Sample.world
                     (list_to_map [("username", PStr "admin"); ("password", PInt 1234)])
                     "admin" _)))
                     {| AppUser.username := "admin"; AppUser.password_hash := "$2b$s3cret";
                        AppUser.full_name := Some "Site Admin";
                        AppUser.role := Some "admin" |} _) _).
    + vm_compute. reflexivity.
    + vm_compute. reflexivity.
    + intros password. vm_compute. discriminate.
Defined.

(** ** C6 *)

(** As the claim states it, C6 fails: GET /appointments?patient_id=abc
    is answered 500, not 400. *)
Lemma non_numeric_patient_id_500 :
  PyInt.of_string int_max_str_digits "abc" = None /\
  get_appointments [("patient_id", "abc")] Sample.world =
    (jsonify (server_error ValueError) 500, Sample.world) /\
  status (fst (get_appointments [("patient_id", "abc")] Sample.world)) <> 400.
Proof. vm_compute. repeat split. discriminate. Qed.

(** GET /appointments?patient_id=1&doctor_id=two,
    GET /treatments?appointment_id=1.5 and GET /billing?patient_id=0x1 *)
Lemma non_numeric_filter_witness :
  get_appointments [("patient_id", "1"); ("doctor_id", "two")] Sample.world =
    (jsonify (server_error ValueError) 500, Sample.world) /\
  get_treatments [("appointment_id", "1.5")] Sample.world =
    (jsonify (server_error ValueError) 500, Sample.world) /\
  get_billing [("patient_id", "0x1")] Sample.world =
    (jsonify (server_error ValueError) 500, Sample.world).
Proof.
  split; [|split].
  - apply (proj1 (non_numeric_filter Sample.world
                    [("patient_id", "1"); ("doctor_id", "two")])).
    right. split; [|exists ValueError]; vm_compute; reflexivity.
  - apply (proj1 (proj2 (non_numeric_filter Sample.world [("appointment_id", "1.5")]))).
    split; [|exists ValueError]; vm_compute; reflexivity.
  - apply (proj2 (proj2 (non_numeric_filter Sample.world [("patient_id", "0x1")]))).
    split; [|exists ValueError]; vm_compute; reflexivity.
Defined.

(** ** C8 *)



(** ** C10 *)

(** PUT /appointments/1 {"reason": "Follow-up", "doctor_id": null}: the
    reason of appointment 1 is the only field that is not framed, the
    null [doctor_id] counts as absent, and the appointments 2 and 3 stay
    as they are; the same body with [doctor_id] left out does the same;
    and the body in which both fields are null is refused. *)
Lemma update_modifies_only_supplied_witness :
  let m : gmap string pyval := <["reason" := PStr "Follow-up"]> (<["doctor_id" := PNone]> ∅) in
  Forall2
    (fun a a' =>
       modifies_only PNone PNone PNone (PStr "Follow-up") a a' /\
       (Appointment.appointment_id a <> 1%Z -> a' = a))
    (Appointments Sample.store)
    [ {| Appointment.appointment_id := 1; Appointment.patient_id := 1;
         Appointment.doctor_id := 2;
         Appointment.appointment_date := Sample.at_ 2025 1 10 9 0;
         Appointment.reason := Some "Follow-up" |};
      {| Appointment.appointment_id := 2; Appointment.patient_id := 2;
         Appointment.doctor_id := 2;
         Appointment.appointment_date := Sample.at_ 2025 3 5 14 30;
         Appointment.reason := Some "Flu" |};
      {| Appointment.appointment_id := 3; Appointment.patient_id := 1;
         Appointment.doctor_id := 3;
         Appointment.appointment_date := Sample.at_ 2025 3 5 14 30;
         Appointment.reason := None |} ] /\
  update_appointment 1 (PDict m) Sample.world =
    update_appointment 1 (PDict (delete "doctor_id" (<["reason" := PStr "Follow-up"]> ∅)))
      Sample.world /\
  update_appointment 1 (PDict (<["reason" := PNone]> (<["doctor_id" := PNone]> ∅)))
    Sample.world = (jsonify nothing_to_update 400, Sample.world).
Proof.
  intros m. split; [|split].
  - pose proof (proj1 (update_modifies_only_supplied Sample.world 1 m)) as T.
    vm_compute in T. vm_compute. exact T.
  - pose proof (proj1 (proj2 (update_modifies_only_supplied Sample.world 1
                                (<["reason" := PStr "Follow-up"]> ∅))) "doctor_id") as T.
    vm_compute in T. vm_compute. exact T.
  - apply (proj2 (proj2 (update_modifies_only_supplied Sample.world 1
                           (<["reason" := PNone]> (<["doctor_id" := PNone]> ∅))))).
    intros k. rewrite field_unfold.
    destruct (decide (k = "reason")) as [->|N1]; [vm_compute; reflexivity|].
    destruct (decide (k = "doctor_id")) as [->|N2]; [vm_compute; reflexivity|].
    by rewrite !lookup_insert_ne, lookup_empty.
Defined.

(** PUT /appointments/1 {"reason": "Follow-up", "doctor_id": null}: only
    the reason of appointment 1 changes. *)
Example update_appointment_example :
  let (r, w) := update_appointment 1
                  (dict [("reason", PStr "Follow-up"); ("doctor_id", PNone)])
                  Sample.world in
  status r = 200 /\
  Appointments (db w) =
    [ {| Appointment.appointment_id := 1; Appointment.patient_id := 1;
         Appointment.doctor_id := 2;
         Appointment.appointment_date := Sample.at_ 2025 1 10 9 0;
         Appointment.reason := Some "Follow-up" |};
      {| Appointment.appointment_id := 2; Appointment.patient_id := 2;
         Appointment.doctor_id := 2;
         Appointment.appointment_date := Sample.at_ 2025 3 5 14 30;
         Appointment.reason := Some "Flu" |};
      {| Appointment.appointment_id := 3; Appointment.patient_id := 1;
         Appointment.doctor_id := 3;
         Appointment.appointment_date := Sample.at_ 2025 3 5 14 30;
         Appointment.reason := None |} ].
Proof. vm_compute. by split. Qed.

(** ** The further properties on the sample database *)

(** GET /billing?status=Paid only reads. *)
Lemma read_only_handlers_never_write_witness :
  db (snd (handle (GET_billing [("status", "Paid")]) Sample.world)) = db Sample.world /\
  exists sent,
    log (snd (handle (GET_billing [("status", "Paid")]) Sample.world)) =
      log Sample.world ++ sent /\
    Forall (eq SELECT) sent.
Proof.
  apply (read_only_handlers_never_write (GET_billing [("status", "Paid")]) Sample.world).
  reflexivity.
Defined.

(** DELETE /appointments/99 answers 404, with the body of a failure. *)
Lemma failure_body_witness :
  getitem (body (fst (handle (DELETE_appointments 99) Sample.world))) "success" =
    Some (PBool false) /\
  exists text,
    getitem (body (fst (handle (DELETE_appointments 99) Sample.world))) "message" =
      Some (PStr text).
Proof.
  apply (failure_body (DELETE_appointments 99) Sample.world).
  assert (E : status (fst (handle (DELETE_appointments 99) Sample.world)) = 404)
    by (vm_compute; reflexivity).
  rewrite E. lia.
Defined.

(** A login whose password is a number: [encode] raises after the
    connection was closed. *)
Lemma login_releases_connection_witness :
  conns (snd (login (PDict (list_to_map [("username", PStr "admin"); ("password", PInt 5)]))
                Sample.world)) = conns Sample.world.
Proof.
  apply (login_releases_connection
           (PDict (list_to_map [("username", PStr "admin"); ("password", PInt 5)]))
           Sample.world).
  intros m E. injection E as <-. exists (Some "admin"). vm_compute. reflexivity.
Defined.

(** GET /appointments?page=2&patient_id=1 is GET /appointments?patient_id=1. *)
Lemma unknown_parameters_ignored_witness :
  get_appointments [("page", "2"); ("patient_id", "1")] Sample.world =
    get_appointments [("patient_id", "1")] Sample.world.
Proof.
  destruct (unknown_parameters_ignored Sample.world "page") as (A & _).
  apply A. intros [E|[E|[E|[E|[]]]]]; discriminate E.
Defined.

(** An update of the patient and the date: two assignments, two
    parameters. *)
Lemma builders_pair_clauses_and_parameters_witness :
  length [PInt 1; PStr "2025-01-01"] = length [set_patient_id; set_appointment_date] /\
  sublist [set_patient_id; set_appointment_date]
    [set_patient_id; set_doctor_id; set_appointment_date; set_reason].
Proof.
  destruct builders_pair_clauses_and_parameters as (_ & _ & _ & A).
  apply (A (PInt 1) PNone (PStr "2025-01-01") PNone). vm_compute. reflexivity.
Defined.

(** GET /appointments?from=tomorrow *)
Lemma unreadable_date_filter_witness :
  fst (get_appointments [("from", "tomorrow")] Sample.world) =
    jsonify (server_error DbError) 500 /\
  db (snd (get_appointments [("from", "tomorrow")] Sample.world)) = db Sample.world /\
  log (snd (get_appointments [("from", "tomorrow")] Sample.world)) =
    log Sample.world ++ [SELECT].
Proof.
  destruct (unreadable_date_filter Sample.world [("from", "tomorrow")] None None)
    as (A & _ & _ & D & L).
  - vm_compute. reflexivity.
  - vm_compute. reflexivity.
  - left. split; vm_compute; reflexivity.
  - split; [|by split]. by apply A.
Defined.

(** POST /appointments with the body of the docstring. *)
Lemma create_appointment_succeeds_witness :
  let m : gmap string pyval :=
    list_to_map [("patient_id", PInt 1); ("doctor_id", PInt 2);
                 ("appointment_date", PStr "2025-11-28 09:30:00");
                 ("reason", PStr "Check-up")] in
  let a := inserted Sample.store 1 2 (Sample.at_ 2025 11 28 9 30) (Some "Check-up") in
  exists pat doc,
    Patient.name pat = Some "Alice" /\ Doctor.name doc = Some "Dr. Who" /\
    create_appointment (PDict m) Sample.world =
      (jsonify (written (view a pat doc)) 201,
       {| db := with_inserted Sample.store a; conns := ∅;
          log := [SELECT; SELECT; INSERT; SELECT; SELECT] |}).
Proof.
  intros m a.
  destruct (List.find (fun x => Patient.patient_id x =? 1)%Z (Patients Sample.store))
    as [pat|] eqn:Fp; [|discriminate Fp].
  destruct (List.find (fun x => Doctor.doctor_id x =? 2)%Z (Doctors Sample.store))
    as [doc|] eqn:Fd; [|discriminate Fd].
  exists pat, doc.
  split; [by injection Fp as <-|]. split; [by injection Fd as <-|].
  apply (create_appointment_succeeds Sample.world m 1 2
           (Sample.at_ 2025 11 28 9 30) (Some "Check-up") pat doc).
  - vm_compute. reflexivity.
  - vm_compute. reflexivity.
  - vm_compute. reflexivity.
  - vm_compute. reflexivity.
  - vm_compute. reflexivity.
  - vm_compute. reflexivity.
  - vm_compute. reflexivity.
  - exact Fp.
  - exact Fd.
  - repeat constructor; simpl; lia.
Defined.

(** DELETE /appointments/2 *)
Lemma delete_stored_appointment_witness :
  let R := delete_appointment 2 Sample.world in
  R = (jsonify deleted 200,
       {| db := without_id 2 (db Sample.world); conns := conns Sample.world;
          log := log Sample.world ++ [SELECT; DELETE] |}) /\
  ~ In 2%Z (map Appointment.appointment_id (Appointments (db (snd R)))) /\
  forall a, Appointment.appointment_id a <> 2%Z ->
    (In a (Appointments (db (snd R))) <-> In a (Appointments (db Sample.world))).
Proof.
  apply (delete_stored_appointment Sample.world 2).
  - vm_compute. reflexivity.
  - simpl. tauto.
Defined.

(** DELETE /appointments/2 twice, and DELETE of an id of 64 bits and one
    more, twice *)
Lemma delete_twice_witness :
  (let w1 := snd (delete_appointment 2 Sample.world) in
   delete_appointment 2 w1 =
     (jsonify not_found 404,
      {| db := db w1; conns := conns w1; log := log w1 ++ [SELECT] |})) /\
  (let w1 := snd (delete_appointment (2 ^ 63) Sample.world) in
   fst (delete_appointment (2 ^ 63) w1) = jsonify (server_error OverflowError) 500 /\
   conns (snd (delete_appointment (2 ^ 63) w1)) <> conns w1).
Proof.
  split.
  - apply (proj1 (delete_twice Sample.world 2)). vm_compute. reflexivity.
  - apply (proj1 (proj2 (delete_twice Sample.world (2 ^ 63)))). vm_compute. reflexivity.
Defined.

(** The body of the docstring again: created as appointment 4, then
    deleted. *)
Lemma create_then_delete_witness :
  let data := dict [("patient_id", PInt 1); ("doctor_id", PInt 2);
                    ("appointment_date", PStr "2025-11-28 09:30:00");
                    ("reason", PStr "Check-up")] in
  let R := create_appointment data Sample.world in
  exists row new_id,
    body (fst R) = written row /\
    AppointmentView.appointment_id row = new_id /\
    let R' := delete_appointment new_id (snd R) in
    status (fst R') = 200 /\
    Appointments (db (snd R')) = Appointments (db Sample.world) /\
    appointment_identity (db (snd R')) = (appointment_identity (db Sample.world) + 1)%Z.
Proof.
  intros data.
  apply (create_then_delete data Sample.world).
  - repeat constructor; simpl; lia.
  - vm_compute. reflexivity.
Defined.

(** PUT /appointments/1 with a new reason and the patient as text. *)
Lemma update_stores_supplied_witness :
  let m : gmap string pyval :=
    list_to_map [("patient_id", PStr "2"); ("reason", PStr "Follow-up")] in
  let R := update_appointment 1 (PDict m) Sample.world in
  conns (snd R) = conns Sample.world /\
  (exists a p d,
     body (fst R) = written (view a p d) /\
     Appointment.appointment_id a = 1%Z /\
     In a (Appointments (db (snd R))) /\
     In p (Patients (db (snd R))) /\ In d (Doctors (db (snd R)))) /\
  Forall (fun a => Appointment.appointment_id a = 1%Z ->
                   holds_supplied (field m "patient_id") (field m "doctor_id")
                     (field m "appointment_date") (field m "reason") a)
    (Appointments (db (snd R))).
Proof.
  intros m.
  apply (update_stores_supplied Sample.world 1 m). vm_compute. reflexivity.
Defined.

(** The numbering survives a creation. *)
Lemma handlers_keep_ids_witness :
  ids_ok (db (snd (handle
    (POST_appointments (dict [("patient_id", PInt 1); ("doctor_id", PInt 2)]))
    Sample.world))).
Proof.
  apply (handlers_keep_ids
           (POST_appointments (dict [("patient_id", PInt 1); ("doctor_id", PInt 2)]))
           Sample.world).
  split.
  - simpl. refine (bool_decide_unpack _ _). vm_compute. exact I.
  - repeat constructor; simpl; lia.
Defined.

(** The references survive an update that names patient 2 as text. *)
Lemma handlers_keep_references_witness :
  references_ok (db (snd (handle
    (PUT_appointments 1 (PDict (list_to_map [("patient_id", PStr "2")])))
    Sample.world))).
Proof.
  apply (handlers_keep_references
           (PUT_appointments 1 (PDict (list_to_map [("patient_id", PStr "2")])))
           Sample.world).
  - vm_compute. by split.
  - repeat constructor; simpl; tauto.
Defined.

(** The appointment created from the body of the docstring is listed. *)
Lemma created_appointment_is_listed_witness :
  let data := dict [("patient_id", PInt 1); ("doctor_id", PInt 2);
                    ("appointment_date", PStr "2025-11-28 09:30:00");
                    ("reason", PStr "Check-up")] in
  let R := create_appointment data Sample.world in
  exists created listed,
    getitem (body (fst R)) "appointment" = Some created /\
    fst (get_appointments [] (snd R)) = jsonify (PList listed) 200 /\
    In created listed.
Proof.
  intros data. apply (created_appointment_is_listed data Sample.world).
  vm_compute. reflexivity.
Defined.

(** Appointment 3 with a new date is listed. *)
Lemma updated_appointment_is_listed_witness :
  let m : gmap string pyval := list_to_map [("appointment_date", PStr "2025-04-01")] in
  let R := update_appointment 3 (PDict m) Sample.world in
  exists updated listed,
    getitem (body (fst R)) "appointment" = Some updated /\
    fst (get_appointments [] (snd R)) = jsonify (PList listed) 200 /\
    In updated listed.
Proof.
  intros m. apply (updated_appointment_is_listed 3 m Sample.world).
  vm_compute. reflexivity.
Defined.

(** Appointment 2, once deleted, is not listed. *)
Lemma deleted_appointment_is_not_listed_witness :
  let R := delete_appointment 2 Sample.world in
  exists listed,
    fst (get_appointments [] (snd R)) = jsonify (PList listed) 200 /\
    Forall (fun r => getitem r "appointment_id" <> Some (PInt 2)) listed.
Proof.
  apply (deleted_appointment_is_not_listed 2 Sample.world). vm_compute. reflexivity.
Defined.

(** A creation refused with 400 has closed its connection. *)
Lemma connection_released_unless_raised_witness :
  conns (snd (handle
    (POST_appointments (dict [("patient_id", PInt 999); ("doctor_id", PInt 2)]))
    Sample.world)) = conns Sample.world.
Proof.
  apply (connection_released_unless_raised
           (POST_appointments (dict [("patient_id", PInt 999); ("doctor_id", PInt 2)]))
           Sample.world).
  assert (E : status (fst (handle
            (POST_appointments (dict [("patient_id", PInt 999); ("doctor_id", PInt 2)]))
            Sample.world)) = 400) by (vm_compute; reflexivity).
  rewrite E. discriminate.
Defined.

